(** * Orbit: the live-functions data view (OrbitGl/LiveFunctionsDataView.cpp)

    A shallow embedding of [LiveFunctionsDataView]: the tracked-function
    vector [functions_], the index vector [indices_] that the table shows,
    the filter, the stable sort per column, the row lookup, the periodic
    refresh and the min/max scan over the timer chains.

    Conventions.
    - [uint64_t] values are [Z] with the wrap-around of the subtraction
      written out; [int] rows are [Z], converted to [unsigned int] modulo
      2^32 where the source converts them.
    - [std::vector] is [list]; positions and sizes are [nat] (a vector of a
      running process holds fewer than 2^31 elements).
    - [CHECK(c)] aborts the process when [c] is false: outcome [CheckFailed].
      An access the C++ standard leaves undefined (an element of a vector
      past its size) is outcome [Undefined].
    - Commands sent to collaborators ([OrbitApp], [GCurrentTimeGraph],
      [LiveFunctionsController], the [DataView] base class) are recorded in
      the order the source issues them; their queries are fields of the
      records that stand for these objects. *)

From Stdlib Require Import ZArith List String Ascii Bool Permutation Sorted Lia.
From Stdlib Require OrderedTypeEx HexString.
From stdpp Require Import base option list strings gmap.
Import ListNotations.

Local Open Scope string_scope.
Local Open Scope list_scope.
Local Open Scope Z_scope.

(** ** Outcomes of a call *)

Inductive outcome (A : Type) : Type :=
| Ok (a : A)
| CheckFailed
| Undefined.
Arguments Ok {A} a.
Arguments CheckFailed {A}.
Arguments Undefined {A}.

#[global] Instance outcome_ret : MRet outcome := fun A a => Ok a.

#[global] Instance outcome_bind : MBind outcome := fun A B k m =>
  match m with
  | Ok a => k a
  | CheckFailed => CheckFailed
  | Undefined => Undefined
  end.

(** [CHECK(c)] of OrbitBase/Logging.h. *)
Definition CHECK (c : bool) : outcome unit :=
  if c then Ok tt else CheckFailed.

(** [v[i]] on a [std::vector]: defined only below [v.size()]. *)
Definition at_index {A : Type} (v : list A) (i : nat) : outcome A :=
  match v !! i with
  | Some x => Ok x
  | None => Undefined
  end.

(** ** Machine integers *)

Definition uint64_modulus : Z := 2 ^ 64.
Definition uint32_modulus : Z := 2 ^ 32.

(** [std::numeric_limits<uint64_t>::lowest()] and [::max()]. *)
Definition uint64_lowest : Z := 0.
Definition uint64_max : Z := uint64_modulus - 1.

Definition is_uint64 (x : Z) : Prop := 0 <= x < uint64_modulus.

(** Subtraction of two [uint64_t]. *)
Definition sub64 (a b : Z) : Z := (a - b) mod uint64_modulus.

(** The conversion of an [int] argument to an [unsigned int] parameter. *)
Definition to_unsigned (row : Z) : Z := row mod uint32_modulus.

(** [v[i]] with an integer index, converted to [size_t]: a negative index
    lands past the end. *)
Definition at_int {A : Type} (v : list A) (i : Z) : outcome A :=
  if i <? 0 then Undefined else at_index v (Z.to_nat i).

(** ** Strings *)

(** [::tolower] in the C locale, on one character. *)
Definition tolower (c : ascii) : ascii :=
  let n := N_of_ascii c in
  if ((65 <=? n) && (n <=? 90))%N then ascii_of_N (n + 32) else c.

(** Modelled from the spec: [ToLower] is declared in CoreUtils.h, which is
    not part of the sources at hand; the spec says the filter and the names
    are lower-cased, done here character by character. *)
Fixpoint ToLower (s : string) : string :=
  match s with
  | EmptyString => EmptyString
  | String c s' => String (tolower c) (ToLower s')
  end.

(** [absl::StrSplit(s, d)] with a single-character delimiter and no
    predicate: every delimiter ends a piece, empty pieces are kept, and the
    empty input yields one empty piece. *)
Fixpoint StrSplit (s : string) (d : ascii) : list string :=
  match s with
  | EmptyString => [EmptyString]
  | String c s' =>
      if Ascii.eqb c d then EmptyString :: StrSplit s' d
      else match StrSplit s' d with
           | tok :: rest => String c tok :: rest
           | [] => [String c EmptyString]
           end
  end.

(** Does [s] begin with [tok]? *)
Fixpoint starts_with (tok s : string) : bool :=
  match tok, s with
  | EmptyString, _ => true
  | String _ _, EmptyString => false
  | String a tok', String b s' => Ascii.eqb a b && starts_with tok' s'
  end.

(** [s.find(tok)]: the first position where [tok] occurs in [s];
    [None] stands for [std::string::npos]. *)
Fixpoint find (s tok : string) : option nat :=
  if starts_with tok s then Some 0%nat
  else match s with
       | EmptyString => None
       | String _ s' => option_map S (find s' tok)
       end.

(** [<] on [std::string]: lexicographic on the character codes. *)
Definition string_ltb (a b : string) : bool := String.ltb a b.

(** ** Data *)

(** The fields of the [FunctionInfo] message that this file reads. *)
Record FunctionInfo : Type := {
  name : string;
  loaded_module_path : string;
  address : Z
}.

(** The [FunctionStats] message. *)
Record FunctionStats : Type := {
  count : Z;
  total_time_ns : Z;
  average_time_ns : Z;
  min_ns : Z;
  max_ns : Z
}.

(** The fields of [TimerInfo] read through [TextBox::GetTimerInfo]. *)
Record TimerInfo : Type := {
  function_address : Z;
  start : Z;
  end_ : Z
}.

Record TextBox : Type := { GetTimerInfo : TimerInfo }.

(** A [TimerChain] is a sequence of blocks; a block exposes its first
    [size()] boxes by index. A chain pointer may be null. *)
Definition TimerBlock : Type := list TextBox.
Definition TimerChain : Type := list TimerBlock.

Inductive SortingOrder : Type := kAscending | kDescending.

Definition SortingOrder_eqb (a b : SortingOrder) : bool :=
  match a, b with
  | kAscending, kAscending | kDescending, kDescending => true
  | _, _ => false
  end.

(** The columns, numbered in the order [GetColumns] lists them. *)
Inductive Column : Type :=
| kColumnSelected | kColumnName | kColumnCount | kColumnTimeTotal
| kColumnTimeAvg | kColumnTimeMin | kColumnTimeMax | kColumnModule
| kColumnAddress.

Definition kNumColumns : nat := 9.

Definition column_of_int (c : Z) : option Column :=
  match c with
  | 0 => Some kColumnSelected
  | 1 => Some kColumnName
  | 2 => Some kColumnCount
  | 3 => Some kColumnTimeTotal
  | 4 => Some kColumnTimeAvg
  | 5 => Some kColumnTimeMin
  | 6 => Some kColumnTimeMax
  | 7 => Some kColumnModule
  | 8 => Some kColumnAddress
  | _ => None
  end.

Definition int_of_column (c : Column) : Z :=
  match c with
  | kColumnSelected => 0 | kColumnName => 1 | kColumnCount => 2
  | kColumnTimeTotal => 3 | kColumnTimeAvg => 4 | kColumnTimeMin => 5
  | kColumnTimeMax => 6 | kColumnModule => 7 | kColumnAddress => 8
  end.

(** The initial sorting order of each column, from [GetColumns]. *)
Definition GetColumns_initial_order (c : Column) : SortingOrder :=
  match c with
  | kColumnSelected => kDescending
  | kColumnName => kAscending
  | kColumnCount => kDescending
  | kColumnTimeTotal => kDescending
  | kColumnTimeAvg => kDescending
  | kColumnTimeMin => kDescending
  | kColumnTimeMax => kDescending
  | kColumnModule => kAscending
  | kColumnAddress => kAscending
  end.

(** ** Collaborators *)

(** [CaptureData]: the selected functions (a [flat_hash_map] from address to
    [FunctionInfo], given as the sequence its iteration yields), the
    or-default statistics lookup and the absolute address of a function. *)
Record CaptureData : Type := {
  selected_functions : list (Z * FunctionInfo);
  GetFunctionStatsOrDefault : FunctionInfo -> FunctionStats;
  GetAbsoluteAddress : FunctionInfo -> Z;
  process_id : Z
}.

(** What the view asks of [OrbitApp]. *)
Record OrbitApp : Type := {
  capture_data : option CaptureData;
  IsCapturing : bool;
  IsFunctionSelected : FunctionInfo -> bool;
  IsCaptureConnected : CaptureData -> bool
}.

Definition HasCaptureData (app : OrbitApp) : bool :=
  match capture_data app with
  | Some _ => true
  | None => false
  end.

(** [app_->GetCaptureData()]. Every guarded caller tests [HasCaptureData]
    first; App.h, which says what happens otherwise, is not part of the
    sources at hand. *)
Definition GetCaptureData (app : OrbitApp) : outcome CaptureData :=
  match capture_data app with
  | Some cd => Ok cd
  | None => Undefined
  end.

(** What the view asks of [GCurrentTimeGraph]. *)
Record TimeGraph : Type := {
  GetAllThreadTrackTimerChains : list (option TimerChain);
  FindNextFunctionCall : Z -> Z -> option TextBox;
  FindPreviousFunctionCall : Z -> Z -> option TextBox
}.

(** Free functions and formatting helpers of other translation units
    (function_utils, FunctionsDataView, absl, CoreUtils). *)
Class Helpers : Type := {
  GetDisplayName : FunctionInfo -> string;
  GetLoadedModuleName : FunctionInfo -> string;
  IsOrbitFunc : FunctionInfo -> bool;
  BuildSelectedColumnsString : OrbitApp -> FunctionInfo -> string;
  StrFormat_lu : Z -> string;
  StrFormat_0x_llx : Z -> string;
  GetPrettyTime : Z -> string
}.

(** Commands and queries issued to collaborators, in program order. *)
Inductive Effect : Type :=
| SetVisibleFunctions (visible_functions : gset Z)
| SelectFunction (f : FunctionInfo)
| DeselectFunction (f : FunctionInfo)
| EnableFrameTrack (f : FunctionInfo)
| DisableFrameTrack (f : FunctionInfo)
| AddFrameTrack (f : FunctionInfo)
| RemoveFrameTrack (f : FunctionInfo)
| Disassemble (pid : Z) (f : FunctionInfo)
| AddIterator (f : FunctionInfo)
| CallFindNextFunctionCall (function_address timestamp : Z)
| CallFindPreviousFunctionCall (function_address timestamp : Z)
| SelectAndZoom (box : TextBox)
| DataView_OnContextMenu (action : string) (menu_index : Z) (item_indices : list Z).

(** ** The view *)

Record LiveFunctionsDataView : Type := {
  functions_ : list FunctionInfo;
  indices_ : list nat;
  filter_ : string;
  sorting_column_ : Z;
  sorting_orders_ : list SortingOrder;
  update_period_ms_ : Z
}.

Definition set_indices (v : LiveFunctionsDataView) (indices : list nat) : LiveFunctionsDataView :=
  {| functions_ := functions_ v; indices_ := indices; filter_ := filter_ v;
     sorting_column_ := sorting_column_ v; sorting_orders_ := sorting_orders_ v;
     update_period_ms_ := update_period_ms_ v |}.

Definition set_functions (v : LiveFunctionsDataView) (functions : list FunctionInfo) : LiveFunctionsDataView :=
  {| functions_ := functions; indices_ := indices_ v; filter_ := filter_ v;
     sorting_column_ := sorting_column_ v; sorting_orders_ := sorting_orders_ v;
     update_period_ms_ := update_period_ms_ v |}.

Definition set_sorting (v : LiveFunctionsDataView) (column : Z) (orders : list SortingOrder) : LiveFunctionsDataView :=
  {| functions_ := functions_ v; indices_ := indices_ v; filter_ := filter_ v;
     sorting_column_ := column; sorting_orders_ := orders;
     update_period_ms_ := update_period_ms_ v |}.

Definition set_update_period_ms (v : LiveFunctionsDataView) (ms : Z) : LiveFunctionsDataView :=
  {| functions_ := functions_ v; indices_ := indices_ v; filter_ := filter_ v;
     sorting_column_ := sorting_column_ v; sorting_orders_ := sorting_orders_ v;
     update_period_ms_ := ms |}.

(** Modelled from the spec: [DataView::GetNumElements] belongs to
    DataView.cpp, which is not part of the sources at hand; the spec calls
    it the current visible count, the size of the VisibleSet. *)
Definition GetNumElements (v : LiveFunctionsDataView) : nat := length (indices_ v).

(** [GetSelectedFunction(row)], [row] an [unsigned int]. *)
Definition GetSelectedFunction (v : LiveFunctionsDataView) (row : Z) : outcome FunctionInfo :=
  CHECK (row <? Z.of_nat (length (functions_ v)));;
  i ← at_int (indices_ v) row;
  at_index (functions_ v) i.

(** *** Sorting *)

(** Modelled from the spec: [orbit_core::Compare] is declared in
    CoreUtils.h, which is not part of the sources at hand; the spec says the
    direction flips the comparator's result, so ascending is [a < b] and
    descending is [a > b]. *)
Definition Compare {T : Type} (ltb : T -> T -> bool) (a b : T) (asc : bool) : bool :=
  if asc then ltb a b else ltb b a.

Definition bool_ltb (a b : bool) : bool := negb a && b.

(** [std::stable_sort(first, last, less)]: the elements in non-descending
    order of [less], equivalent elements in their original order. For a
    strict weak order that result is unique; it is computed here by
    insertion from the right. *)
Fixpoint stable_insert {A : Type} (less : A -> A -> bool) (x : A) (l : list A) : list A :=
  match l with
  | [] => [x]
  | y :: l' => if less y x then y :: stable_insert less x l' else x :: l
  end.

Fixpoint stable_sort {A : Type} (less : A -> A -> bool) (l : list A) : list A :=
  match l with
  | [] => []
  | x :: l' => stable_insert less x (stable_sort less l')
  end.

#[global] Instance FunctionInfo_inhabited : Inhabited FunctionInfo :=
  populate {| name := ""; loaded_module_path := ""; address := 0 |}.

Section View.
Context `{Helpers}.

(** The three comparator macros; [functions[a]] reads the vector at the
    row's index. *)
Definition ORBIT_FUNC_SORT {T : Type} (ltb : T -> T -> bool) (Member : FunctionInfo -> T)
    (functions : list FunctionInfo) (ascending : bool) : nat -> nat -> bool :=
  fun a b => Compare ltb (Member (functions !!! a)) (Member (functions !!! b)) ascending.

Definition ORBIT_STAT_SORT (cd : CaptureData) (Member : FunctionStats -> Z)
    (functions : list FunctionInfo) (ascending : bool) : nat -> nat -> bool :=
  fun a b =>
    let stats_a := GetFunctionStatsOrDefault cd (functions !!! a) in
    let stats_b := GetFunctionStatsOrDefault cd (functions !!! b) in
    Compare Z.ltb (Member stats_a) (Member stats_b) ascending.

Definition ORBIT_CUSTOM_FUNC_SORT {T : Type} (ltb : T -> T -> bool) (Func : FunctionInfo -> T)
    (functions : list FunctionInfo) (ascending : bool) : nat -> nat -> bool :=
  fun a b => Compare ltb (Func (functions !!! a)) (Func (functions !!! b)) ascending.

(** The [switch] of [DoSort]; [None] is the null [sorter] of the default
    case. *)
Definition sorter_of (app : OrbitApp) (cd : CaptureData) (functions : list FunctionInfo)
    (ascending : bool) (sorting_column : Z) : option (nat -> nat -> bool) :=
  match column_of_int sorting_column with
  | Some kColumnSelected =>
      Some (ORBIT_CUSTOM_FUNC_SORT bool_ltb (IsFunctionSelected app) functions ascending)
  | Some kColumnName =>
      Some (ORBIT_CUSTOM_FUNC_SORT string_ltb GetDisplayName functions ascending)
  | Some kColumnCount => Some (ORBIT_STAT_SORT cd count functions ascending)
  | Some kColumnTimeTotal => Some (ORBIT_STAT_SORT cd total_time_ns functions ascending)
  | Some kColumnTimeAvg => Some (ORBIT_STAT_SORT cd average_time_ns functions ascending)
  | Some kColumnTimeMin => Some (ORBIT_STAT_SORT cd min_ns functions ascending)
  | Some kColumnTimeMax => Some (ORBIT_STAT_SORT cd max_ns functions ascending)
  | Some kColumnModule =>
      Some (ORBIT_CUSTOM_FUNC_SORT string_ltb GetLoadedModuleName functions ascending)
  | Some kColumnAddress => Some (ORBIT_FUNC_SORT Z.ltb address functions ascending)
  | None => None
  end.

(** The comparator reads [functions[a]] for the rows it is given; sorting
    fewer than two rows calls no comparator. *)
Definition rows_readable (functions : list FunctionInfo) (indices : list nat) : bool :=
  (length indices <=? 1)%nat || forallb (fun a => a <? length functions)%nat indices.

Definition DoSort (app : OrbitApp) (v : LiveFunctionsDataView) : outcome LiveFunctionsDataView :=
  match capture_data app with
  | None =>
      CHECK (length (functions_ v) =? 0)%nat;;
      Ok v
  | Some cd =>
      order ← at_int (sorting_orders_ v) (sorting_column_ v);
      let ascending := SortingOrder_eqb order kAscending in
      let functions := functions_ v in
      match sorter_of app cd functions ascending (sorting_column_ v) with
      | Some sorter =>
          if rows_readable functions (indices_ v)
          then Ok (set_indices v (stable_sort sorter (indices_ v)))
          else Undefined
      | None => Ok v
      end
  end.

(** *** Filtering *)

(** The inner loop of [DoFilter]: [match] stays true until a token is not
    found in [name]. *)
Fixpoint match_tokens (name : string) (tokens : list string) : bool :=
  match tokens with
  | [] => true
  | filter_token :: rest =>
      match find name filter_token with
      | None => false
      | Some _ => match_tokens name rest
      end
  end.

(** The outer loop of [DoFilter], from position [i] on. *)
Fixpoint filter_loop (tokens : list string) (functions : list FunctionInfo) (i : nat) : list nat :=
  match functions with
  | [] => []
  | function :: rest =>
      let name := ToLower (GetDisplayName function) in
      if match_tokens name tokens then i :: filter_loop tokens rest (S i)
      else filter_loop tokens rest (S i)
  end.

(** The loop that collects the addresses of the visible functions. *)
Fixpoint visible_loop (cd : CaptureData) (v : LiveFunctionsDataView) (rows : list nat)
    (visible_functions : gset Z) : outcome (gset Z) :=
  match rows with
  | [] => Ok visible_functions
  | i :: rest =>
      func ← GetSelectedFunction v (Z.of_nat i);
      visible_loop cd v rest ({[ GetAbsoluteAddress cd func ]} ∪ visible_functions)
  end.

Definition DoFilter (app : OrbitApp) (v : LiveFunctionsDataView)
    : outcome (LiveFunctionsDataView * list Effect) :=
  match capture_data app with
  | None =>
      CHECK (length (functions_ v) =? 0)%nat;;
      Ok (v, [])
  | Some cd =>
      let tokens := StrSplit (ToLower (filter_ v)) " "%char in
      let indices := filter_loop tokens (functions_ v) 0 in
      let v' := set_indices v indices in
      visible_functions ← visible_loop cd v' (seq 0 (length (indices_ v'))) ∅;
      Ok (v', [SetVisibleFunctions visible_functions])
  end.

(** *** Rebuilding the rows *)

(** [indices[i] = x]. *)
Definition store_at (indices : list nat) (i x : nat) : outcome (list nat) :=
  if (i <? length indices)%nat then Ok (<[i := x]> indices) else Undefined.

(** Modelled from the spec: [DataView::OnDataChanged] belongs to
    DataView.cpp, which is not part of the sources at hand; the spec says
    that after the rows are rebuilt no filter and no sort is reapplied until
    one is requested. *)
Definition DataView_OnDataChanged (v : LiveFunctionsDataView) : LiveFunctionsDataView := v.

(** The loop of [OnDataChanged] over the selected functions: the state is
    [functions_], [indices_] and the counter [i]. *)
Fixpoint rebuild_loop (selected : list (Z * FunctionInfo))
    (functions : list FunctionInfo) (indices : list nat) (i : nat)
    : outcome (list FunctionInfo * list nat * nat) :=
  match selected with
  | [] => Ok (functions, indices, i)
  | entry :: rest =>
      if IsOrbitFunc (snd entry) then rebuild_loop rest functions indices i
      else
        indices' ← store_at indices i i;
        rebuild_loop rest (functions ++ [snd entry]) indices' (S i)
  end.

(** [OnDataChanged] up to the call of the base class that ends both of
    its branches. *)
Definition rebuild_rows (app : OrbitApp) (v : LiveFunctionsDataView)
    : outcome LiveFunctionsDataView :=
  let v := set_indices (set_functions v []) [] in
  match capture_data app with
  | None => Ok v
  | Some cd =>
      let selected := selected_functions cd in
      let functions_count := length selected in
      let indices := indices_ v ++ replicate functions_count 0%nat in
      r ← rebuild_loop selected (functions_ v) indices 0;
      let '(functions, indices, _) := r in
      Ok (set_indices (set_functions v functions) indices)
  end.

Definition OnDataChanged (app : OrbitApp) (v : LiveFunctionsDataView)
    : outcome LiveFunctionsDataView :=
  v' ← rebuild_rows app v;
  Ok (DataView_OnDataChanged v').

(** The constructor, applied to the object as the [DataView] constructor
    leaves it. *)
Definition LiveFunctionsDataView_ctor (app : OrbitApp) (base : LiveFunctionsDataView)
    : outcome LiveFunctionsDataView :=
  OnDataChanged app (set_update_period_ms base 300).

(** *** The periodic refresh *)

Definition flip_order (o : SortingOrder) : SortingOrder :=
  match o with
  | kAscending => kDescending
  | kDescending => kAscending
  end.

(** Modelled from the spec: [DataView::OnSort] belongs to DataView.cpp,
    which is not part of the sources at hand. By the spec, a request for the
    column that is already the sort column flips its stored direction when
    the toggle is set and keeps it otherwise; a request for another column
    takes that column's configured direction; the rows are then sorted. *)
Definition OnSort (app : OrbitApp) (v : LiveFunctionsDataView) (column : Z)
    (toggleDirection : bool) : outcome LiveFunctionsDataView :=
  let orders :=
    if column =? sorting_column_ v then
      if toggleDirection then alter flip_order (Z.to_nat column) (sorting_orders_ v)
      else sorting_orders_ v
    else
      match column_of_int column with
      | Some c => <[Z.to_nat column := GetColumns_initial_order c]> (sorting_orders_ v)
      | None => sorting_orders_ v
      end in
  DoSort app (set_sorting v column orders).

(** [OnTimer]; the second argument of [OnSort] is the empty [{}]. *)
Definition OnTimer (app : OrbitApp) (v : LiveFunctionsDataView) : outcome LiveFunctionsDataView :=
  if IsCapturing app then OnSort app v (sorting_column_ v) false
  else Ok v.

(** *** Cell values *)

Definition GetValue (app : OrbitApp) (v : LiveFunctionsDataView) (row column : Z)
    : outcome string :=
  match capture_data app with
  | None => Ok ""
  | Some cd =>
      if row >=? Z.of_nat (GetNumElements v) then Ok ""
      else
        function ← GetSelectedFunction v (to_unsigned row);
        let stats := GetFunctionStatsOrDefault cd function in
        match column_of_int column with
        | Some kColumnSelected => Ok (BuildSelectedColumnsString app function)
        | Some kColumnName => Ok (GetDisplayName function)
        | Some kColumnCount => Ok (StrFormat_lu (count stats))
        | Some kColumnTimeTotal => Ok (GetPrettyTime (total_time_ns stats))
        | Some kColumnTimeAvg => Ok (GetPrettyTime (average_time_ns stats))
        | Some kColumnTimeMin => Ok (GetPrettyTime (min_ns stats))
        | Some kColumnTimeMax => Ok (GetPrettyTime (max_ns stats))
        | Some kColumnModule => Ok (loaded_module_path function)
        | Some kColumnAddress => Ok (StrFormat_0x_llx (GetAbsoluteAddress cd function))
        | None => Ok ""
        end
  end.

(** *** The shortest and the longest call *)

(** [box.GetTimerInfo().end() - box.GetTimerInfo().start()]. *)
Definition elapsed_nanos (box : TextBox) : Z :=
  sub64 (end_ (GetTimerInfo box)) (start (GetTimerInfo box)).

(** The body of the innermost loop of [GetMinMax] on one box. *)
Definition visit_box (address : Z) (acc : option TextBox * option TextBox)
    (box : TextBox) : option TextBox * option TextBox :=
  let '(min_box, max_box) := acc in
  if Z.eqb (function_address (GetTimerInfo box)) address then
    let min_box' :=
      match min_box with
      | None => Some box
      | Some m => if elapsed_nanos box <? elapsed_nanos m then Some box else min_box
      end in
    let max_box' :=
      match max_box with
      | None => Some box
      | Some m => if elapsed_nanos box >? elapsed_nanos m then Some box else max_box
      end in
    (min_box', max_box')
  else acc.

Definition visit_block (address : Z) (acc : option TextBox * option TextBox)
    (block : TimerBlock) : option TextBox * option TextBox :=
  foldl (visit_box address) acc block.

Definition visit_chain (address : Z) (acc : option TextBox * option TextBox)
    (chain : option TimerChain) : option TextBox * option TextBox :=
  match chain with
  | None => acc
  | Some blocks => foldl (visit_block address) acc blocks
  end.

Definition GetMinMax (app : OrbitApp) (time_graph : TimeGraph) (function : FunctionInfo)
    : outcome (option TextBox * option TextBox) :=
  capture_data ← GetCaptureData app;
  let address := GetAbsoluteAddress capture_data function in
  let chains := GetAllThreadTrackTimerChains time_graph in
  Ok (foldl (visit_chain address) (None, None) chains).

(** *** The context menu *)

Definition kMenuActionSelect : string := "Hook".
Definition kMenuActionUnselect : string := "Unhook".
Definition kMenuActionJumpToFirst : string := "Jump to first".
Definition kMenuActionJumpToLast : string := "Jump to last".
Definition kMenuActionJumpToMin : string := "Jump to min".
Definition kMenuActionJumpToMax : string := "Jump to max".
Definition kMenuActionDisassembly : string := "Go to Disassembly".
Definition kMenuActionIterate : string := "Add iterator(s)".
Definition kMenuActionEnableFrameTrack : string := "Enable frame track(s)".
Definition kMenuActionDisableFrameTrack : string := "Disable frame track(s)".

(** [for (int i : item_indices) body(i)], collecting what the body issues. *)
Fixpoint for_each (body : Z -> outcome (list Effect)) (item_indices : list Z)
    : outcome (list Effect) :=
  match item_indices with
  | [] => Ok []
  | i :: rest =>
      issued ← body i;
      later ← for_each body rest;
      Ok (issued ++ later)
  end.

(** [if (box != nullptr) GCurrentTimeGraph->SelectAndZoom(box)]. *)
Definition select_and_zoom_if (box : option TextBox) : list Effect :=
  match box with
  | Some b => [SelectAndZoom b]
  | None => []
  end.

(** [GetSelectedFunction(item_indices[0])] after [CHECK(item_indices.size() == 1)]. *)
Definition the_single_function (v : LiveFunctionsDataView) (item_indices : list Z)
    : outcome FunctionInfo :=
  CHECK (length item_indices =? 1)%nat;;
  i ← at_index item_indices 0%nat;
  GetSelectedFunction v (to_unsigned i).

Definition OnContextMenu (app : OrbitApp) (time_graph : TimeGraph) (v : LiveFunctionsDataView)
    (action : string) (menu_index : Z) (item_indices : list Z) : outcome (list Effect) :=
  capture_data ← GetCaptureData app;
  if String.eqb action kMenuActionSelect || String.eqb action kMenuActionUnselect
     || String.eqb action kMenuActionDisassembly then
    for_each (fun i =>
      selected_function ← GetSelectedFunction v (to_unsigned i);
      if String.eqb action kMenuActionSelect then
        Ok [SelectFunction selected_function]
      else if String.eqb action kMenuActionUnselect then
        Ok [DeselectFunction selected_function;
            DisableFrameTrack selected_function;
            RemoveFrameTrack selected_function]
      else if String.eqb action kMenuActionDisassembly then
        let pid := process_id capture_data in
        Ok [Disassemble pid selected_function]
      else Ok []) item_indices
  else if String.eqb action kMenuActionJumpToFirst then
    function ← the_single_function v item_indices;
    let function_address := GetAbsoluteAddress capture_data function in
    let first_box := FindNextFunctionCall time_graph function_address uint64_lowest in
    Ok (CallFindNextFunctionCall function_address uint64_lowest
          :: select_and_zoom_if first_box)
  else if String.eqb action kMenuActionJumpToLast then
    function ← the_single_function v item_indices;
    let function_address := GetAbsoluteAddress capture_data function in
    let last_box := FindPreviousFunctionCall time_graph function_address uint64_max in
    Ok (CallFindPreviousFunctionCall function_address uint64_max
          :: select_and_zoom_if last_box)
  else if String.eqb action kMenuActionJumpToMin then
    function ← the_single_function v item_indices;
    boxes ← GetMinMax app time_graph function;
    Ok (select_and_zoom_if (fst boxes))
  else if String.eqb action kMenuActionJumpToMax then
    function ← the_single_function v item_indices;
    boxes ← GetMinMax app time_graph function;
    Ok (select_and_zoom_if (snd boxes))
  else if String.eqb action kMenuActionIterate then
    for_each (fun i =>
      selected_function ← GetSelectedFunction v (to_unsigned i);
      let stats := GetFunctionStatsOrDefault capture_data selected_function in
      if count stats >? 0 then Ok [AddIterator selected_function] else Ok []) item_indices
  else if String.eqb action kMenuActionEnableFrameTrack then
    for_each (fun i =>
      function ← GetSelectedFunction v (to_unsigned i);
      Ok ((if IsCaptureConnected app capture_data then [SelectFunction function] else [])
            ++ [EnableFrameTrack function; AddFrameTrack function])) item_indices
  else if String.eqb action kMenuActionDisableFrameTrack then
    for_each (fun i =>
      function ← GetSelectedFunction v (to_unsigned i);
      Ok [DisableFrameTrack function; RemoveFrameTrack function]) item_indices
  else
    Ok [DataView_OnContextMenu action menu_index item_indices].

End View.

(** ** Notions the properties are stated with *)

(** [tok] occurs in [s] as a contiguous substring. *)
Definition is_substring (tok s : string) : Prop :=
  exists pre post : string, s = String.append pre (String.append tok post).

(** The characters [isspace] accepts in the C locale: space, tab, line
    feed, vertical tab, form feed and carriage return. *)
Definition is_whitespace (c : ascii) : bool :=
  let n := N_of_ascii c in
  ((n =? 32) || ((9 <=? n) && (n <=? 13)))%N.

(** The whitespace-separated tokens of a text: its maximal runs of
    characters that are not whitespace. [cur] holds the run being read,
    most recent character first. *)
Fixpoint whitespace_tokens_from (cur : list ascii) (s : string) : list string :=
  let flush (rest : list string) : list string :=
    match cur with
    | [] => rest
    | _ :: _ => string_of_list_ascii (rev cur) :: rest
    end in
  match s with
  | EmptyString => flush []
  | String c s' =>
      if is_whitespace c then flush (whitespace_tokens_from [] s')
      else whitespace_tokens_from (c :: cur) s'
  end.

Definition whitespace_tokens (s : string) : list string := whitespace_tokens_from [] s.

(** Does the character [d] occur in [s]? *)
Fixpoint contains_char (d : ascii) (s : string) : bool :=
  match s with
  | EmptyString => false
  | String c s' => Ascii.eqb c d || contains_char d s'
  end.

(** The tokens of a text separated by the space character alone. *)
Definition space_tokens (s : string) : list string := StrSplit s " "%char.

(** The pieces of a split that are not empty. *)
Definition nonempty_pieces (l : list string) : list string :=
  List.filter (fun tok => negb (String.eqb tok "")) l.

(** Every whitespace character of [s] is a space. *)
Fixpoint only_space_whitespace (s : string) : bool :=
  match s with
  | EmptyString => true
  | String c s' => (negb (is_whitespace c) || Ascii.eqb c " ") && only_space_whitespace s'
  end.

(** A function is kept by a filter text when every space-separated token
    of the text, lower-cased, occurs in its lower-cased display name. *)
Definition kept_by_filter `{Helpers} (filter : string) (f : FunctionInfo) : Prop :=
  forall tok, In tok (space_tokens filter) ->
    is_substring (ToLower tok) (ToLower (GetDisplayName f)).

(** The same with the tokens separated by any whitespace. *)
Definition kept_by_whitespace_filter `{Helpers} (filter : string) (f : FunctionInfo) : Prop :=
  forall tok, In tok (whitespace_tokens filter) ->
    is_substring (ToLower tok) (ToLower (GetDisplayName f)).

(** The duration of a recorded call, [end - start] on [uint64_t]. *)
Definition duration (box : TextBox) : Z := elapsed_nanos box.

Definition has_address (address : Z) (box : TextBox) : Prop :=
  function_address (GetTimerInfo box) = address.

(** All boxes of the timer chains in the order [GetMinMax] visits them. *)
Definition boxes_in_scan_order (chains : list (option TimerChain)) : list TextBox :=
  concat (map (fun chain => match chain with
                            | Some blocks => concat blocks
                            | None => []
                            end) chains).

(** [b] is the first box of [scan] with the queried address that no other
    such box beats under [better]: the boxes before it are strictly worse,
    the boxes after it are not better. *)
Definition first_extremal (better : Z -> Z -> Prop) (address : Z)
    (scan : list TextBox) (b : TextBox) : Prop :=
  has_address address b /\
  exists before after : list TextBox,
    scan = before ++ b :: after /\
    (forall x, In x before -> has_address address x -> better (duration b) (duration x)) /\
    (forall x, In x after -> has_address address x -> ~ better (duration x) (duration b)).

(** One running extreme of [GetMinMax]: the box kept so far gives way to a
    new box of the queried address whose duration is better. *)
Definition keep_first (betterb : Z -> Z -> bool) (cur : option TextBox) (b : TextBox)
    : option TextBox :=
  match cur with
  | None => Some b
  | Some m => if betterb (elapsed_nanos b) (elapsed_nanos m) then Some b else cur
  end.

Definition track (address : Z) (betterb : Z -> Z -> bool) (cur : option TextBox)
    (b : TextBox) : option TextBox :=
  if function_address (GetTimerInfo b) =? address then keep_first betterb cur b else cur.

(** [x] stands somewhere before [y] in [l]. *)
Definition precedes {A : Type} (x y : A) (l : list A) : Prop :=
  exists l1 l2 l3 : list A, l = l1 ++ x :: l2 ++ y :: l3.

(** Two rows compare equal under a comparator when neither is less. *)
Definition compare_equal (less : nat -> nat -> bool) (a b : nat) : Prop :=
  less a b = false /\ less b a = false.

(** The value a row is sorted by in a column: what the comparator macro
    of that column reads from the function. *)
Inductive SortKey : Type :=
| KeyBool (b : bool)
| KeyString (s : string)
| KeyUInt64 (n : Z).

Definition SortKey_ltb (a b : SortKey) : bool :=
  match a, b with
  | KeyBool x, KeyBool y => bool_ltb x y
  | KeyString x, KeyString y => string_ltb x y
  | KeyUInt64 x, KeyUInt64 y => (x <? y)%Z
  | _, _ => false
  end.

Definition sort_key `{Helpers} (app : OrbitApp) (cd : CaptureData) (column : Column)
    (f : FunctionInfo) : SortKey :=
  match column with
  | kColumnSelected => KeyBool (IsFunctionSelected app f)
  | kColumnName => KeyString (GetDisplayName f)
  | kColumnCount => KeyUInt64 (count (GetFunctionStatsOrDefault cd f))
  | kColumnTimeTotal => KeyUInt64 (total_time_ns (GetFunctionStatsOrDefault cd f))
  | kColumnTimeAvg => KeyUInt64 (average_time_ns (GetFunctionStatsOrDefault cd f))
  | kColumnTimeMin => KeyUInt64 (min_ns (GetFunctionStatsOrDefault cd f))
  | kColumnTimeMax => KeyUInt64 (max_ns (GetFunctionStatsOrDefault cd f))
  | kColumnModule => KeyString (GetLoadedModuleName f)
  | kColumnAddress => KeyUInt64 (address f)
  end.

(** Rows [a] and [b] have equal sort-key values in the view's current sort
    column. Without capture data, or with a column outside the table,
    [DoSort] sorts nothing and every two rows count as equal. *)
Definition equal_sort_keys `{Helpers} (app : OrbitApp) (v : LiveFunctionsDataView)
    (a b : nat) : Prop :=
  match capture_data app, column_of_int (sorting_column_ v) with
  | Some cd, Some column =>
      sort_key app cd column (functions_ v !!! a) = sort_key app cd column (functions_ v !!! b)
  | _, _ => True
  end.

(** The rows of [v] are in the order of its current sort column and stored
    direction: no row is less than a row before it. Nothing is required
    where [DoSort] has no comparator. *)
Definition sorted_by_current_column `{Helpers} (app : OrbitApp) (v : LiveFunctionsDataView)
    : Prop :=
  match capture_data app, column_of_int (sorting_column_ v),
        at_int (sorting_orders_ v) (sorting_column_ v) with
  | Some cd, Some column, Ok order =>
      StronglySorted
        (fun x y =>
           Compare SortKey_ltb (sort_key app cd column (functions_ v !!! y))
                               (sort_key app cd column (functions_ v !!! x))
                               (SortingOrder_eqb order kAscending) = false)
        (indices_ v)
  | _, _, _ => True
  end.

(** A strict total order given by its boolean less-than. *)
Record StrictTotal {T : Type} (ltb : T -> T -> bool) : Prop := {
  st_irrefl : forall x, ltb x x = false;
  st_asym : forall x y, ltb x y = true -> ltb y x = false;
  st_not_greater_trans : forall x y z, ltb y x = false -> ltb z y = false -> ltb z x = false;
  st_trichotomy : forall x y, ltb x y = false -> ltb y x = false -> x = y
}.

(** ** Sample data *)

Definition sample_helpers : Helpers := {|
  GetDisplayName := name;
  GetLoadedModuleName := loaded_module_path;
  IsOrbitFunc := fun f => String.eqb (loaded_module_path f) "liborbit.so";
  BuildSelectedColumnsString := fun app f => if IsFunctionSelected app f then "H" else "";
  StrFormat_lu := fun _ => "";
  StrFormat_0x_llx := fun _ => "";
  GetPrettyTime := fun _ => ""
|}.

Definition fn_orbit : FunctionInfo :=
  {| name := "orbit_api::Start"; loaded_module_path := "liborbit.so"; address := 4096 |}.
Definition fn_foobar : FunctionInfo :=
  {| name := "FooBar"; loaded_module_path := "game.so"; address := 8192 |}.
Definition fn_render : FunctionInfo :=
  {| name := "Render"; loaded_module_path := "game.so"; address := 12288 |}.

Definition zero_stats : FunctionStats :=
  {| count := 0; total_time_ns := 0; average_time_ns := 0; min_ns := 0; max_ns := 0 |}.

Definition sample_capture (selected : list (Z * FunctionInfo)) : CaptureData := {|
  selected_functions := selected;
  GetFunctionStatsOrDefault := fun f =>
    if address f =? 8192
    then {| count := 3; total_time_ns := 60; average_time_ns := 20; min_ns := 10; max_ns := 30 |}
    else zero_stats;
  GetAbsoluteAddress := address;
  process_id := 1
|}.

Definition sample_app (selected : list (Z * FunctionInfo)) (capturing : bool) : OrbitApp := {|
  capture_data := Some (sample_capture selected);
  IsCapturing := capturing;
  IsFunctionSelected := fun _ => true;
  IsCaptureConnected := fun _ => true
|}.

Definition app_without_capture : OrbitApp := {|
  capture_data := None;
  IsCapturing := false;
  IsFunctionSelected := fun _ => false;
  IsCaptureConnected := fun _ => false
|}.

Definition sample_view (functions : list FunctionInfo) (indices : list nat)
    (filter : string) : LiveFunctionsDataView := {|
  functions_ := functions;
  indices_ := indices;
  filter_ := filter;
  sorting_column_ := int_of_column kColumnCount;
  sorting_orders_ := map GetColumns_initial_order
    [kColumnSelected; kColumnName; kColumnCount; kColumnTimeTotal; kColumnTimeAvg;
     kColumnTimeMin; kColumnTimeMax; kColumnModule; kColumnAddress];
  update_period_ms_ := 0
|}.

(** A filter text whose two words are separated by a tab. *)
Definition filter_with_tab : string := String.append "foo" (String "009" "bar").

Definition box (address start_ns end_ns : Z) : TextBox :=
  {| GetTimerInfo := {| function_address := address; start := start_ns; end_ := end_ns |} |}.

(** The intervals (a,10,50), (a,5,5), (a,100,130) for a = 8192, spread over
    two threads and mixed with calls of another function. *)
Definition sample_chains : list (option TimerChain) :=
  [ Some [ [box 12288 0 7; box 8192 10 50]; [box 8192 5 5] ];
    None;
    Some [ [box 12288 60 90; box 8192 100 130; box 12288 200 300] ] ].

Definition sample_time_graph : TimeGraph := {|
  GetAllThreadTrackTimerChains := sample_chains;
  FindNextFunctionCall := fun _ _ => None;
  FindPreviousFunctionCall := fun _ _ => None
|}.

(** ** Further operations of the view *)

(** The view as [DataView::OnFilter] hands it to [DoFilter]: with a new
    filter text. *)
Definition set_filter (v : LiveFunctionsDataView) (filter : string) : LiveFunctionsDataView :=
  {| functions_ := functions_ v; indices_ := indices_ v; filter_ := filter;
     sorting_column_ := sorting_column_ v; sorting_orders_ := sorting_orders_ v;
     update_period_ms_ := update_period_ms_ v |}.

(** The frame-track queries of [OrbitApp], read by [GetContextMenu]. *)
Record FrameTracks : Type := {
  IsFrameTrackEnabled : FunctionInfo -> bool;
  HasFrameTrackInCaptureData : FunctionInfo -> bool
}.

(** The six flags [GetContextMenu] accumulates over the selected rows. *)
Record MenuFlags : Type := {
  enable_select : bool;
  enable_unselect : bool;
  enable_disassembly : bool;
  enable_iterator : bool;
  enable_enable_frame_track : bool;
  enable_disable_frame_track : bool
}.

Definition no_flags : MenuFlags :=
  {| enable_select := false; enable_unselect := false; enable_disassembly := false;
     enable_iterator := false; enable_enable_frame_track := false;
     enable_disable_frame_track := false |}.

(** The body of the loop of [GetContextMenu] for one selected function. *)
Definition menu_flags_step (app : OrbitApp) (frame_tracks : FrameTracks) (cd : CaptureData)
    (flags : MenuFlags) (selected_function : FunctionInfo) : MenuFlags :=
  let connected := IsCaptureConnected app cd in
  let stats := GetFunctionStatsOrDefault cd selected_function in
  {| enable_select :=
       if connected then enable_select flags || negb (IsFunctionSelected app selected_function)
       else enable_select flags;
     enable_unselect :=
       if connected then enable_unselect flags || IsFunctionSelected app selected_function
       else enable_unselect flags;
     enable_disassembly := if connected then true else enable_disassembly flags;
     enable_iterator := enable_iterator flags || (count stats >? 0);
     enable_enable_frame_track :=
       enable_enable_frame_track flags ||
       (if connected then negb (IsFrameTrackEnabled frame_tracks selected_function)
        else negb (HasFrameTrackInCaptureData frame_tracks selected_function));
     enable_disable_frame_track :=
       enable_disable_frame_track flags ||
       (if connected then IsFrameTrackEnabled frame_tracks selected_function
        else HasFrameTrackInCaptureData frame_tracks selected_function) |}.

Fixpoint menu_flags_loop (app : OrbitApp) (frame_tracks : FrameTracks) (cd : CaptureData)
    (v : LiveFunctionsDataView) (flags : MenuFlags) (selected_indices : list Z)
    : outcome MenuFlags :=
  match selected_indices with
  | [] => Ok flags
  | index :: rest =>
      selected_function ← GetSelectedFunction v (to_unsigned index);
      menu_flags_loop app frame_tracks cd v
        (menu_flags_step app frame_tracks cd flags selected_function) rest
  end.

(** [if (flag) menu.emplace_back(action)]. *)
Definition emplace_if (flag : bool) (action : string) : list string :=
  if flag then [action] else [].

(** [GetContextMenu]. [DataView_GetContextMenu] stands for the menu of the
    base class, which is appended last. *)
Definition GetContextMenu (app : OrbitApp) (frame_tracks : FrameTracks)
    (DataView_GetContextMenu : Z -> list Z -> list string)
    (v : LiveFunctionsDataView) (clicked_index : Z) (selected_indices : list Z)
    : outcome (list string) :=
  capture_data ← GetCaptureData app;
  flags ← menu_flags_loop app frame_tracks capture_data v no_flags selected_indices;
  let menu :=
    emplace_if (enable_select flags) kMenuActionSelect ++
    emplace_if (enable_unselect flags) kMenuActionUnselect ++
    emplace_if (enable_disassembly flags) kMenuActionDisassembly ++
    emplace_if (enable_iterator flags) kMenuActionIterate ++
    emplace_if (enable_enable_frame_track flags) kMenuActionEnableFrameTrack ++
    emplace_if (enable_disable_frame_track flags) kMenuActionDisableFrameTrack in
  jumps ←
    (if (length selected_indices =? 1)%nat then
       i ← at_index selected_indices 0%nat;
       function ← GetSelectedFunction v (to_unsigned i);
       let stats := GetFunctionStatsOrDefault capture_data function in
       if count stats >? 0
       then Ok [kMenuActionJumpToFirst; kMenuActionJumpToLast;
                kMenuActionJumpToMin; kMenuActionJumpToMax]
       else Ok []
     else Ok []);
  Ok (menu ++ jumps ++ DataView_GetContextMenu clicked_index selected_indices).

(** The two calls [OnSelect] makes on [OrbitApp]. *)
Inductive SelectCommand : Type :=
| DeselectTextBox
| set_highlighted_function (function_address : Z).

(** [OnSelect]; [kInvalidFunctionAddress] is the constant of [DataManager]. *)
Definition OnSelect (app : OrbitApp) (kInvalidFunctionAddress : Z)
    (v : LiveFunctionsDataView) (row : option Z) : outcome (list SelectCommand) :=
  match row with
  | None => Ok [DeselectTextBox; set_highlighted_function kInvalidFunctionAddress]
  | Some r =>
      capture_data ← GetCaptureData app;
      function ← GetSelectedFunction v (to_unsigned r);
      Ok [DeselectTextBox; set_highlighted_function (GetAbsoluteAddress capture_data function)]
  end.

(** The loop of [GetRowFromFunctionAddress] over the rows still to try. *)
Fixpoint row_search `{Helpers} (app : OrbitApp) (v : LiveFunctionsDataView)
    (function_address : Z) (rows : list nat) : outcome (option Z) :=
  match rows with
  | [] => Ok None
  | function_row :: rest =>
      value ← GetValue app v (Z.of_nat function_row) (int_of_column kColumnAddress);
      if String.eqb (StrFormat_0x_llx function_address) value
      then Ok (Some (Z.of_nat function_row))
      else row_search app v function_address rest
  end.

Definition GetRowFromFunctionAddress `{Helpers} (app : OrbitApp) (v : LiveFunctionsDataView)
    (function_address : Z) : outcome (option Z) :=
  row_search app v function_address (seq 0 (GetNumElements v)).

(** The ten actions [OnContextMenu] carries out itself. *)
Definition own_menu_actions : list string :=
  [kMenuActionSelect; kMenuActionUnselect; kMenuActionDisassembly;
   kMenuActionJumpToFirst; kMenuActionJumpToLast; kMenuActionJumpToMin;
   kMenuActionJumpToMax; kMenuActionIterate; kMenuActionEnableFrameTrack;
   kMenuActionDisableFrameTrack].

(** The four jump actions. *)
Definition jump_menu_actions : list string :=
  [kMenuActionJumpToFirst; kMenuActionJumpToLast; kMenuActionJumpToMin;
   kMenuActionJumpToMax].

(** The menu of this view for given flags, with or without the jump block. *)
Definition menu_of_flags (flags : MenuFlags) (jumps : bool) : list string :=
  (emplace_if (enable_select flags) kMenuActionSelect ++
   emplace_if (enable_unselect flags) kMenuActionUnselect ++
   emplace_if (enable_disassembly flags) kMenuActionDisassembly ++
   emplace_if (enable_iterator flags) kMenuActionIterate ++
   emplace_if (enable_enable_frame_track flags) kMenuActionEnableFrameTrack ++
   emplace_if (enable_disable_frame_track flags) kMenuActionDisableFrameTrack) ++
  (if jumps then jump_menu_actions else []).

(** The selection is one function, and it has been called. *)
Definition single_called (cd : CaptureData) (fs : list FunctionInfo) : bool :=
  match fs with
  | [f] => count (GetFunctionStatsOrDefault cd f) >? 0
  | _ => false
  end.

(** Whether a function has a frame track, as [GetContextMenu] asks it:
    of the app when the capture is connected, of the capture data
    otherwise. *)
Definition has_frame_track (app : OrbitApp) (frame_tracks : FrameTracks) (cd : CaptureData)
    (f : FunctionInfo) : bool :=
  if IsCaptureConnected app cd then IsFrameTrackEnabled frame_tracks f
  else HasFrameTrackInCaptureData frame_tracks f.

(** The rows [items] select the functions [fs], one each, in order. *)
Definition rows_select (v : LiveFunctionsDataView) (items : list Z) (fs : list FunctionInfo)
    : Prop :=
  Forall2 (fun i f => GetSelectedFunction v (to_unsigned i) = Ok f) items fs.

(** The sample chains cut into blocks and threads differently. *)
Definition sample_chains_regrouped : list (option TimerChain) :=
  [ Some [ [box 12288 0 7]; []; [box 8192 10 50; box 8192 5 5; box 12288 60 90] ];
    Some [ [box 8192 100 130]; [box 12288 200 300] ];
    None ].

Definition sample_time_graph_regrouped : TimeGraph := {|
  GetAllThreadTrackTimerChains := sample_chains_regrouped;
  FindNextFunctionCall := fun _ _ => None;
  FindPreviousFunctionCall := fun _ _ => None
|}.

(** Helpers whose address format is hexadecimal with the 0x prefix. *)
Definition hex_helpers : Helpers := {|
  GetDisplayName := name;
  GetLoadedModuleName := loaded_module_path;
  IsOrbitFunc := fun f => String.eqb (loaded_module_path f) "liborbit.so";
  BuildSelectedColumnsString := fun app f => if IsFunctionSelected app f then "H" else "";
  StrFormat_lu := fun _ => "";
  StrFormat_0x_llx := HexString.of_Z;
  GetPrettyTime := fun _ => ""
|}.

Definition sample_frame_tracks : FrameTracks := {|
  IsFrameTrackEnabled := fun f => address f =? 8192;
  HasFrameTrackInCaptureData := fun _ => false
|}.

(** ** Outcomes *)

Lemma bind_Ok {A B : Type} (m : outcome A) (k : A -> outcome B) (b : B) :
  m ≫= k = Ok b <-> exists a, m = Ok a /\ k a = Ok b.
Proof.
  split.
  - destruct m as [a| |]; simpl; intros E; try discriminate. exists a. auto.
  - intros (a & -> & E). exact E.
Qed.

Lemma CHECK_Ok (c : bool) : CHECK c = Ok tt <-> c = true.
Proof. destruct c; simpl; split; intros E; try reflexivity; discriminate. Qed.

Lemma at_index_Ok {A : Type} (v : list A) (i : nat) (x : A) :
  at_index v i = Ok x <-> v !! i = Some x.
Proof.
  unfold at_index. destruct (v !! i); split; intros E; inversion E; reflexivity.
Qed.

Lemma at_int_of_nat {A : Type} (v : list A) (i : nat) :
  at_int v (Z.of_nat i) = at_index v i.
Proof.
  unfold at_int. destruct (Z.ltb_spec (Z.of_nat i) 0) as [Hneg|_]; [lia|].
  now rewrite Nat2Z.id.
Qed.

(** ** Strings *)

Lemma starts_with_iff (tok s : string) :
  starts_with tok s = true <-> exists post, s = String.append tok post.
Proof.
  revert s. induction tok as [|a tok IH]; intros s; simpl.
  - split; [intros _; exists s; reflexivity | reflexivity].
  - destruct s as [|b s].
    + split; [discriminate | intros [post E]; discriminate].
    + rewrite andb_true_iff, Ascii.eqb_eq, IH. split.
      * intros [-> [post ->]]. exists post. reflexivity.
      * intros [post E]. injection E as -> ->. split; [reflexivity | now exists post].
Qed.

Lemma find_unfold (s tok : string) :
  find s tok =
  if starts_with tok s then Some 0%nat
  else match s with
       | EmptyString => None
       | String _ s' => option_map S (find s' tok)
       end.
Proof. destruct s; reflexivity. Qed.

(** [find] reports a position exactly when the token occurs in the text. *)
Lemma find_found_iff (s tok : string) :
  find s tok <> None <-> is_substring tok s.
Proof.
  induction s as [|c s IH]; rewrite find_unfold.
  - destruct (starts_with tok "") eqn:E.
    + split; [intros _|discriminate].
      apply starts_with_iff in E as [post E]. exists "", post. exact E.
    + split; [congruence|]. intros (pre & post & E'). exfalso.
      destruct pre; [|discriminate]. simpl in E'.
      assert (starts_with tok "" = true) by (apply starts_with_iff; eauto).
      congruence.
  - destruct (starts_with tok (String c s)) eqn:E.
    + split; [intros _|discriminate].
      apply starts_with_iff in E as [post E]. exists "", post. exact E.
    + assert (Hs : option_map S (find s tok) <> None <-> find s tok <> None)
        by (destruct (find s tok); simpl; split; congruence).
      rewrite Hs, IH. split.
      * intros (pre & post & ->). exists (String c pre), post. reflexivity.
      * intros (pre & post & E'). destruct pre as [|c' pre]; simpl in E'.
        -- assert (starts_with tok (String c s) = true) by (apply starts_with_iff; eauto).
           congruence.
        -- injection E' as _ ->. now exists pre, post.
Qed.

Lemma match_tokens_iff (name : string) (tokens : list string) :
  match_tokens name tokens = true <-> forall tok, In tok tokens -> is_substring tok name.
Proof.
  induction tokens as [|t tokens IH]; simpl.
  - split; [intros _ tok []|reflexivity].
  - destruct (find name t) eqn:E.
    + rewrite IH. split.
      * intros Hall tok [<-|Hin]; [|now apply Hall].
        apply find_found_iff. congruence.
      * intros Hall tok Hin. apply Hall. now right.
    + split; [discriminate|]. intros Hall. exfalso.
      assert (Hsub : is_substring t name) by (apply Hall; now left).
      apply find_found_iff in Hsub. congruence.
Qed.

Lemma tolower_space (c : ascii) :
  Ascii.eqb (tolower c) " " = Ascii.eqb c " ".
Proof. destruct c as [[] [] [] [] [] [] [] []]; reflexivity. Qed.

Lemma StrSplit_not_nil (s : string) (d : ascii) : StrSplit s d <> [].
Proof.
  induction s as [|c s IH]; simpl; [discriminate|].
  destruct (Ascii.eqb c d); [discriminate|]. destruct (StrSplit s d); discriminate.
Qed.

(** Lower-casing the text and splitting it yields the lower-cased pieces. *)
Lemma StrSplit_ToLower (s : string) :
  StrSplit (ToLower s) " " = map ToLower (StrSplit s " ").
Proof.
  induction s as [|c s IH]; simpl; [reflexivity|].
  rewrite tolower_space. destruct (Ascii.eqb c " ").
  - simpl. now rewrite IH.
  - rewrite IH. pose proof (StrSplit_not_nil s " ") as Hne.
    destruct (StrSplit s " "); [congruence|reflexivity].
Qed.

(** [StrSplit] cuts exactly at the delimiters: joining the pieces with the
    delimiter gives the text back, and no piece contains the delimiter. *)
Lemma concat_cons_cons (sep x y : string) (l : list string) :
  String.concat sep (x :: y :: l) =
  String.append x (String.append sep (String.concat sep (y :: l))).
Proof. reflexivity. Qed.

Lemma StrSplit_concat (s : string) (d : ascii) :
  String.concat (String d "") (StrSplit s d) = s.
Proof.
  induction s as [|c s IH]; [reflexivity|].
  pose proof (StrSplit_not_nil s d) as Hne.
  cbn [StrSplit]. destruct (Ascii.eqb_spec c d) as [->|Hcd].
  - destruct (StrSplit s d) as [|tok rest]; [congruence|].
    rewrite concat_cons_cons, IH. reflexivity.
  - destruct (StrSplit s d) as [|tok rest]; [congruence|].
    destruct rest as [|tok' rest].
    + simpl in *. now rewrite IH.
    + rewrite concat_cons_cons in *. rewrite <- IH. reflexivity.
Qed.

Lemma StrSplit_pieces (s : string) (d : ascii) :
  Forall (fun tok => contains_char d tok = false) (StrSplit s d).
Proof.
  induction s as [|c s IH]; simpl.
  - constructor; [reflexivity|constructor].
  - destruct (Ascii.eqb c d) eqn:Ecd.
    + constructor; [reflexivity|exact IH].
    + destruct (StrSplit s d) as [|tok rest]; [repeat constructor; simpl; now rewrite Ecd|].
      inversion IH; subst. constructor; [simpl; now rewrite Ecd|assumption].
Qed.

(** *** Whitespace and spaces *)

Lemma append_cons (c : ascii) (s t : string) :
  String.append (String c s) t = String c (String.append s t).
Proof. reflexivity. Qed.

Lemma append_empty_l (t : string) : String.append "" t = t.
Proof. reflexivity. Qed.

Lemma append_empty_r (s : string) : String.append s "" = s.
Proof.
  induction s as [|c s IH]; [reflexivity|]. now rewrite append_cons, IH.
Qed.

Lemma append_assoc (a b c : string) :
  String.append (String.append a b) c = String.append a (String.append b c).
Proof.
  induction a as [|x a IH]; [reflexivity|]. now rewrite !append_cons, IH.
Qed.

Lemma string_of_list_ascii_app (l1 l2 : list ascii) :
  string_of_list_ascii (l1 ++ l2) =
  String.append (string_of_list_ascii l1) (string_of_list_ascii l2).
Proof.
  induction l1 as [|c l1 IH]; simpl; [reflexivity|]. now rewrite IH, append_cons.
Qed.

Lemma string_of_list_ascii_empty (l : list ascii) :
  String.eqb (string_of_list_ascii (rev l)) "" = match l with [] => true | _ :: _ => false end.
Proof.
  destruct l as [|x l]; [reflexivity|]. simpl. rewrite string_of_list_ascii_app. simpl.
  destruct (string_of_list_ascii (rev l)); reflexivity.
Qed.

Lemma space_is_whitespace (c : ascii) : Ascii.eqb c " " = true -> is_whitespace c = true.
Proof. intros E. apply Ascii.eqb_eq in E. now subst. Qed.

(** On a text whose only whitespace is the space, the whitespace-separated
    tokens are the non-empty pieces of the split at spaces. *)
Lemma whitespace_tokens_from_split (s : string) :
  only_space_whitespace s = true ->
  forall cur,
    whitespace_tokens_from cur s =
    match StrSplit s " " with
    | tok :: rest =>
        nonempty_pieces (String.append (string_of_list_ascii (rev cur)) tok :: rest)
    | [] => []
    end.
Proof.
  unfold nonempty_pieces.
  induction s as [|c s IH]; intros Hs cur.
  - cbn [whitespace_tokens_from StrSplit List.filter].
    rewrite append_empty_r, string_of_list_ascii_empty. now destruct cur.
  - cbn [only_space_whitespace] in Hs. apply andb_true_iff in Hs as [Hc Hs].
    specialize (IH Hs). cbn [whitespace_tokens_from StrSplit].
    pose proof (StrSplit_not_nil s " ") as Hne.
    destruct (Ascii.eqb c " ") eqn:Ec.
    + rewrite (space_is_whitespace c Ec), (IH []).
      destruct (StrSplit s " ") as [|tok rest]; [congruence|].
      cbn [rev string_of_list_ascii List.filter].
      rewrite append_empty_l, append_empty_r, string_of_list_ascii_empty.
      now destruct cur.
    + rewrite orb_false_r in Hc. apply negb_true_iff in Hc. rewrite Hc, (IH (c :: cur)).
      destruct (StrSplit s " ") as [|tok rest]; [congruence|].
      cbn [rev]. rewrite string_of_list_ascii_app, append_assoc. reflexivity.
Qed.

Lemma whitespace_tokens_space_tokens (s : string) :
  only_space_whitespace s = true ->
  whitespace_tokens s = nonempty_pieces (space_tokens s).
Proof.
  intros Hs. unfold whitespace_tokens, space_tokens.
  rewrite (whitespace_tokens_from_split s Hs []).
  destruct (StrSplit s " "); reflexivity.
Qed.

(** ** The filter *)

Section Filter.
Context `{Helpers}.

Lemma filter_loop_In (tokens : list string) (functions : list FunctionInfo) (k i : nat) :
  In i (filter_loop tokens functions k) <->
  (k <= i)%nat /\ exists f, functions !! (i - k)%nat = Some f /\
    match_tokens (ToLower (GetDisplayName f)) tokens = true.
Proof.
  revert k. induction functions as [|g functions IH]; intros k; simpl.
  - split; [intros []|]. intros (_ & f & E & _). discriminate.
  - assert (Hrest : In i (filter_loop tokens functions (S k)) <->
      (k < i)%nat /\ exists f, (g :: functions) !! (i - k)%nat = Some f /\
        match_tokens (ToLower (GetDisplayName f)) tokens = true).
    { rewrite IH. split.
      - intros (Hle & f & E & M). split; [lia|]. exists f. split; [|exact M].
        replace (i - k)%nat with (S (i - S k)) by lia. exact E.
      - intros (Hlt & f & E & M). split; [lia|]. exists f. split; [|exact M].
        replace (i - k)%nat with (S (i - S k)) in E by lia. exact E. }
    destruct (match_tokens (ToLower (GetDisplayName g)) tokens) eqn:M; simpl.
    + rewrite Hrest. split.
      * intros [<-|[Hlt P]]; [|split; [lia|exact P]].
        split; [lia|]. exists g. now rewrite Nat.sub_diag.
      * intros (Hle & f & E & Mf). destruct (Nat.eq_dec k i) as [->|Hne]; [now left|].
        right. split; [lia|]. now exists f.
    + rewrite Hrest. split.
      * intros [Hlt P]. split; [lia|exact P].
      * intros (Hle & f & E & Mf). destruct (Nat.eq_dec k i) as [->|Hne].
        -- rewrite Nat.sub_diag in E. simpl in E. injection E as ->. congruence.
        -- split; [lia|]. now exists f.
Qed.

Lemma filter_loop_length (tokens : list string) (functions : list FunctionInfo) (k : nat) :
  (length (filter_loop tokens functions k) <= length functions)%nat.
Proof.
  revert k. induction functions as [|g functions IH]; intros k; simpl; [lia|].
  destruct (match_tokens _ tokens); simpl; specialize (IH (S k)); lia.
Qed.

(** The kept rows come out in increasing order, hence without repetition. *)
Lemma filter_loop_increasing (tokens : list string) (functions : list FunctionInfo) (k : nat) :
  StronglySorted lt (filter_loop tokens functions k).
Proof.
  revert k. induction functions as [|g functions IH]; intros k; simpl; [constructor|].
  destruct (match_tokens _ tokens); [|apply IH].
  constructor; [apply IH|]. apply Forall_forall. intros i Hi.
  apply list_elem_of_In, filter_loop_In in Hi. lia.
Qed.

Lemma filter_loop_all (tokens : list string) (functions : list FunctionInfo) (k : nat) :
  (forall f, In f functions -> match_tokens (ToLower (GetDisplayName f)) tokens = true) ->
  filter_loop tokens functions k = seq k (length functions).
Proof.
  revert k. induction functions as [|g functions IH]; intros k Hall; simpl; [reflexivity|].
  rewrite Hall by now left. f_equal. apply IH. intros f Hf. apply Hall. now right.
Qed.

(** On the state [DoFilter] has built, every visible row selects a function. *)
Lemma GetSelectedFunction_filtered (v : LiveFunctionsDataView) (tokens : list string) (r : nat) :
  (r < length (filter_loop tokens (functions_ v) 0))%nat ->
  exists i f,
    filter_loop tokens (functions_ v) 0 !! r = Some i /\
    functions_ v !! i = Some f /\
    GetSelectedFunction (set_indices v (filter_loop tokens (functions_ v) 0)) (Z.of_nat r) = Ok f.
Proof.
  intros Hr. pose proof (filter_loop_length tokens (functions_ v) 0) as Hlen.
  destruct (lookup_lt_is_Some_2 _ _ Hr) as [i Ei].
  assert (Hin : In i (filter_loop tokens (functions_ v) 0))
    by (apply list_elem_of_In, list_elem_of_lookup; eauto).
  apply filter_loop_In in Hin as (_ & f & Ef & _). rewrite Nat.sub_0_r in Ef.
  exists i, f. split; [exact Ei|]. split; [exact Ef|].
  unfold GetSelectedFunction. cbn [functions_ indices_ set_indices].
  replace (Z.of_nat r <? Z.of_nat (length (functions_ v))) with true
    by (symmetry; apply Z.ltb_lt; lia).
  simpl. rewrite at_int_of_nat, (proj2 (at_index_Ok _ _ _) Ei). simpl.
  now apply at_index_Ok.
Qed.

Lemma visible_loop_spec (cd : CaptureData) (v : LiveFunctionsDataView) (rows : list nat)
    (acc : gset Z) :
  (forall r, In r rows -> exists f, GetSelectedFunction v (Z.of_nat r) = Ok f) ->
  exists visible, visible_loop cd v rows acc = Ok visible /\
    forall a, a ∈ visible <->
      a ∈ acc \/ exists r f, In r rows /\ GetSelectedFunction v (Z.of_nat r) = Ok f /\
                             GetAbsoluteAddress cd f = a.
Proof.
  revert acc. induction rows as [|r rows IH]; intros acc Hok; simpl.
  - exists acc. split; [reflexivity|]. intros a. split; [now left|].
    intros [Ha|(r & f & [] & _)]. exact Ha.
  - destruct (Hok r) as [f Ef]; [now left|]. rewrite Ef. simpl.
    destruct (IH ({[GetAbsoluteAddress cd f]} ∪ acc)) as (visible & Ev & Hv).
    { intros r' Hr'. apply Hok. now right. }
    exists visible. split; [exact Ev|]. intros a. rewrite Hv. split.
    + intros [Ha|(r' & f' & Hin & Ef' & Ea)].
      * apply elem_of_union in Ha as [Ha|Ha]; [|now left].
        apply elem_of_singleton in Ha. right. exists r, f. split; [now left|]. now split.
      * right. exists r', f'. split; [now right|]. now split.
    + intros [Ha|(r' & f' & [<-|Hin] & Ef' & Ea)].
      * left. apply elem_of_union. now right.
      * left. rewrite Ef in Ef'. injection Ef' as <-. apply elem_of_union. left.
        apply elem_of_singleton. now symmetry.
      * right. exists r', f'. now split.
Qed.

(** What [DoFilter] computes when capture data is present. *)
Lemma DoFilter_result (app : OrbitApp) (v : LiveFunctionsDataView) (cd : CaptureData) :
  capture_data app = Some cd ->
  let indices := filter_loop (StrSplit (ToLower (filter_ v)) " ") (functions_ v) 0 in
  exists visible,
    DoFilter app v = Ok (set_indices v indices, [SetVisibleFunctions visible]) /\
    forall a, a ∈ visible <->
      exists i f, In i indices /\ functions_ v !! i = Some f /\ GetAbsoluteAddress cd f = a.
Proof.
  intros Ecd indices. unfold DoFilter. rewrite Ecd. fold indices.
  cbn [indices_ set_indices].
  destruct (visible_loop_spec cd (set_indices v indices) (seq 0 (length indices)) ∅)
    as (visible & Ev & Hv).
  { intros r Hr. apply in_seq in Hr.
    destruct (GetSelectedFunction_filtered v (StrSplit (ToLower (filter_ v)) " ") r)
      as (i & f & _ & _ & E); [fold indices; lia|]. now exists f. }
  exists visible. rewrite Ev. split; [reflexivity|].
  intros a. rewrite Hv. split.
  - intros [Ha|(r & f & Hr & Ef & Ea)]; [now apply not_elem_of_empty in Ha|].
    apply in_seq in Hr.
    destruct (GetSelectedFunction_filtered v (StrSplit (ToLower (filter_ v)) " ") r)
      as (i & f' & Ei & Ef' & E); [fold indices; lia|].
    fold indices in E, Ei. rewrite E in Ef. injection Ef as ->.
    exists i, f. split; [|now split].
    apply list_elem_of_In, list_elem_of_lookup. now exists r.
  - intros (i & f & Hi & Ef & Ea). right.
    apply list_elem_of_In, list_elem_of_lookup in Hi as [r Er].
    assert (Hr : (r < length indices)%nat) by (eapply lookup_lt_Some; eauto).
    destruct (GetSelectedFunction_filtered v (StrSplit (ToLower (filter_ v)) " ") r)
      as (i' & f' & Ei & Ef' & E); [exact Hr|].
    fold indices in E, Ei. rewrite Er in Ei. injection Ei as <-.
    rewrite Ef in Ef'. injection Ef' as <-.
    exists r, f. split; [apply in_seq; lia|]. now split.
Qed.

(** A row passes the token loop exactly when its function is kept by the
    filter text. *)
Lemma match_tokens_kept (filter : string) (f : FunctionInfo) :
  match_tokens (ToLower (GetDisplayName f)) (StrSplit (ToLower filter) " ") = true <->
  kept_by_filter filter f.
Proof.
  rewrite match_tokens_iff, StrSplit_ToLower. unfold kept_by_filter, space_tokens. split.
  - intros Hall tok Hin. apply Hall, in_map, Hin.
  - intros Hall tok Hin. apply in_map_iff in Hin as (t & <- & Hin). now apply Hall.
Qed.

Lemma lookup_In_functions (functions : list FunctionInfo) (f : FunctionInfo) :
  In f functions <-> exists i, functions !! i = Some f.
Proof. rewrite <- list_elem_of_In. apply list_elem_of_lookup. Qed.

(** C2, amended. On a view that tracks nothing while there is no capture
    data, [DoFilter] returns, and it keeps row [i] of the tracked functions
    exactly when every token of the filter text cut at the space character,
    lower-cased, is a substring of the lower-cased display name of function
    [i]; the tracked functions and the filter text are left as they are, and
    the empty filter keeps every row, in order. *)
Theorem DoFilter_keeps_rows_matching_all_space_tokens
    (app : OrbitApp) (v : LiveFunctionsDataView) :
  (HasCaptureData app = false -> functions_ v = [] /\ indices_ v = []) ->
  exists v' issued,
    DoFilter app v = Ok (v', issued) /\
    functions_ v' = functions_ v /\
    filter_ v' = filter_ v /\
    (forall i, In i (indices_ v') <->
       exists f, functions_ v !! i = Some f /\ kept_by_filter (filter_ v) f) /\
    (filter_ v = "" -> indices_ v' = seq 0 (length (functions_ v))).
Proof.
  unfold HasCaptureData. destruct (capture_data app) as [cd|] eqn:Ecd; intros Hempty.
  - destruct (DoFilter_result app v cd Ecd) as (visible & E & _).
    eexists _, _. split; [exact E|]. cbn [functions_ filter_ indices_ set_indices].
    split; [reflexivity|]. split; [reflexivity|]. split.
    + intros i. rewrite filter_loop_In, Nat.sub_0_r. split.
      * intros (_ & f & Ef & M). exists f. split; [exact Ef|]. now apply match_tokens_kept.
      * intros (f & Ef & K). split; [lia|]. exists f. split; [exact Ef|].
        now apply match_tokens_kept.
    + intros ->. apply filter_loop_all. intros f _. simpl.
      rewrite find_unfold. reflexivity.
  - destruct Hempty as [Ef Ei]; [reflexivity|].
    exists v, []. unfold DoFilter. rewrite Ecd, Ef, Ei. simpl.
    split; [reflexivity|]. split; [reflexivity|]. split; [reflexivity|]. split.
    + intros i. split; [intros []|]. intros (f & E & _). discriminate.
    + reflexivity.
Qed.

(** C8. With capture data present, [DoFilter] hands [SetVisibleFunctions]
    one set, and an address is in that set exactly when it is the absolute
    address of a function of the resulting [indices_], that is, of a tracked
    function the filter keeps. *)
Theorem DoFilter_emits_addresses_of_kept_functions
    (app : OrbitApp) (v : LiveFunctionsDataView) (cd : CaptureData) :
  capture_data app = Some cd ->
  exists v' visible,
    DoFilter app v = Ok (v', [SetVisibleFunctions visible]) /\
    (forall a, a ∈ visible <->
       exists i f, In i (indices_ v') /\ functions_ v' !! i = Some f /\
                   GetAbsoluteAddress cd f = a) /\
    (forall a, a ∈ visible <->
       exists f, In f (functions_ v) /\ kept_by_filter (filter_ v) f /\
                 GetAbsoluteAddress cd f = a).
Proof.
  intros Ecd. destruct (DoFilter_result app v cd Ecd) as (visible & E & Hv).
  eexists _, visible. split; [exact E|]. cbn [functions_ indices_ set_indices].
  split; [exact Hv|].
  intros a. rewrite Hv. split.
  - intros (i & f & Hi & Ef & Ea). exists f.
    split; [apply lookup_In_functions; eauto|]. split; [|exact Ea].
    apply filter_loop_In in Hi as (_ & f' & Ef' & M). rewrite Nat.sub_0_r in Ef'.
    rewrite Ef in Ef'. injection Ef' as <-. now apply match_tokens_kept.
  - intros (f & Hf & K & Ea). apply lookup_In_functions in Hf as [i Ef].
    exists i, f. split; [|now split].
    apply filter_loop_In. split; [lia|]. exists f. rewrite Nat.sub_0_r.
    split; [exact Ef|]. now apply match_tokens_kept.
Qed.

(** On such a text the two readings of the filter agree: empty pieces
    occur in every name. *)
Lemma kept_by_whitespace_filter_iff (filter : string) (f : FunctionInfo) :
  only_space_whitespace filter = true ->
  kept_by_whitespace_filter filter f <-> kept_by_filter filter f.
Proof.
  intros Hs. unfold kept_by_whitespace_filter, kept_by_filter.
  rewrite (whitespace_tokens_space_tokens filter Hs). unfold nonempty_pieces. split.
  - intros Hall tok Hin. destruct (String.eqb_spec tok "") as [->|Hne].
    + exists "", (ToLower (GetDisplayName f)). reflexivity.
    + apply Hall, filter_In. split; [exact Hin|].
      apply negb_true_iff, String.eqb_neq, Hne.
  - intros Hall tok Hin. apply filter_In in Hin as [Hin _]. now apply Hall.
Qed.

End Filter.

(** The filter on sample data: "foo  BAR" keeps FooBar and drops Render. *)
Lemma DoFilter_keeps_rows_matching_all_space_tokens_witness :
  (HasCaptureData (sample_app [] false) = false ->
     [fn_foobar; fn_render] = [] /\ @nil nat = []) /\
  exists v' issued,
    @DoFilter sample_helpers (sample_app [] false)
      (sample_view [fn_foobar; fn_render] [] "foo  BAR") = Ok (v', issued) /\
    functions_ v' = [fn_foobar; fn_render] /\
    filter_ v' = "foo  BAR" /\
    (forall i, In i (indices_ v') <->
       exists f, [fn_foobar; fn_render] !! i = Some f /\
                 @kept_by_filter sample_helpers "foo  BAR" f) /\
    ("foo  BAR" = "" -> indices_ v' = seq 0 2).
Proof.
  split; [discriminate|].
  apply (@DoFilter_keeps_rows_matching_all_space_tokens sample_helpers
           (sample_app [] false) (sample_view [fn_foobar; fn_render] [] "foo  BAR")).
  discriminate.
Defined.

Lemma DoFilter_emits_addresses_of_kept_functions_witness :
  capture_data (sample_app [] false) = Some (sample_capture []) /\
  exists v' visible,
    @DoFilter sample_helpers (sample_app [] false)
      (sample_view [fn_foobar; fn_render] [] "r") = Ok (v', [SetVisibleFunctions visible]) /\
    (forall a, a ∈ visible <->
       exists i f, In i (indices_ v') /\ functions_ v' !! i = Some f /\
                   GetAbsoluteAddress (sample_capture []) f = a) /\
    (forall a, a ∈ visible <->
       exists f, In f [fn_foobar; fn_render] /\ @kept_by_filter sample_helpers "r" f /\
                 GetAbsoluteAddress (sample_capture []) f = a).
Proof.
  split; [reflexivity|].
  apply (@DoFilter_emits_addresses_of_kept_functions sample_helpers
           (sample_app [] false) (sample_view [fn_foobar; fn_render] [] "r")
           (sample_capture [])).
  reflexivity.
Defined.

(** C2 as stated fails on a filter whose words are separated by a tab: both
    whitespace-separated tokens of "foo<TAB>bar" occur in the lower-cased
    name of FooBar, yet [DoFilter] drops the row, because it cuts the text
    at spaces only and looks for the whole of "foo<TAB>bar". *)
Lemma DoFilter_tab_separated_tokens_counterexample :
  whitespace_tokens filter_with_tab = ["foo"; "bar"] /\
  @kept_by_whitespace_filter sample_helpers filter_with_tab fn_foobar /\
  exists v' issued,
    @DoFilter sample_helpers (sample_app [] false)
      (sample_view [fn_foobar] [] filter_with_tab) = Ok (v', issued) /\
    indices_ v' = [].
Proof.
  split; [reflexivity|]. split.
  - intros tok [<-|[<-|[]]].
    + exists "", "bar". reflexivity.
    + exists "foo", "". reflexivity.
  - eexists _, _. split; [vm_compute; reflexivity|reflexivity].
Qed.

(** ** Rebuilding the rows *)

Section Rebuild.
Context `{Helpers}.

(** The functions [OnDataChanged] tracks: the selected functions that are
    not Orbit's own, in iteration order. *)
Lemma rebuild_loop_spec (selected : list (Z * FunctionInfo)) :
  forall (functions : list FunctionInfo) (done rest : list nat),
    let kept := map snd (List.filter (fun entry => negb (IsOrbitFunc (snd entry))) selected) in
    (length kept <= length rest)%nat ->
    rebuild_loop selected functions (done ++ rest) (length done) =
    Ok (functions ++ kept,
        done ++ seq (length done) (length kept) ++ drop (length kept) rest,
        (length done + length kept)%nat).
Proof.
  induction selected as [|entry selected IH]; intros functions done rest kept Hlen.
  - simpl. now rewrite app_nil_r, Nat.add_0_r, drop_0.
  - subst kept. simpl in *. destruct (IsOrbitFunc (snd entry)); simpl in *.
    + now apply IH.
    + destruct rest as [|z rest]; simpl in Hlen; [lia|].
      unfold store_at. rewrite length_app. simpl.
      replace (length done <? length done + S (length rest))%nat with true
        by (symmetry; apply Nat.ltb_lt; lia).
      simpl. rewrite insert_app_r_alt, Nat.sub_diag by lia. simpl.
      specialize (IH (functions ++ [snd entry]) (done ++ [length done]) rest).
      rewrite length_app in IH. simpl in IH.
      rewrite <- !app_assoc in IH. simpl in IH.
      rewrite Nat.add_1_r in IH. rewrite IH by lia.
      simpl. repeat f_equal. lia.
Qed.

(** What [OnDataChanged] has built when it calls the base class, capture
    data being present: the tracked functions, and an index vector as long
    as the map of selected functions, of which only the first entries are
    assigned. *)
Lemma rebuild_rows_result (app : OrbitApp) (v : LiveFunctionsDataView) (cd : CaptureData) :
  capture_data app = Some cd ->
  let kept := map snd (List.filter (fun entry => negb (IsOrbitFunc (snd entry)))
                         (selected_functions cd)) in
  rebuild_rows app v =
  Ok (set_indices (set_functions v kept)
        (seq 0 (length kept) ++
         replicate (length (selected_functions cd) - length kept) 0%nat)).
Proof.
  intros Ecd kept. unfold rebuild_rows. rewrite Ecd.
  cbn [functions_ indices_ set_indices set_functions List.app].
  pose proof (rebuild_loop_spec (selected_functions cd) [] []
                (replicate (length (selected_functions cd)) 0%nat)) as E.
  cbv zeta in E. fold kept in E. simpl in E. rewrite E.
  - simpl. unfold set_indices, set_functions. simpl.
    now rewrite drop_replicate.
  - rewrite length_replicate. subst kept. rewrite length_map.
    apply filter_length_le.
Qed.

Lemma OnDataChanged_result (app : OrbitApp) (v : LiveFunctionsDataView) (cd : CaptureData) :
  capture_data app = Some cd ->
  let kept := map snd (List.filter (fun entry => negb (IsOrbitFunc (snd entry)))
                         (selected_functions cd)) in
  OnDataChanged app v =
  Ok (set_indices (set_functions v kept)
        (seq 0 (length kept) ++
         replicate (length (selected_functions cd) - length kept) 0%nat)).
Proof.
  intros Ecd kept. unfold OnDataChanged.
  rewrite (rebuild_rows_result app v cd Ecd). reflexivity.
Qed.

(** When no selected function is excluded, the rows are the identity. *)
Lemma OnDataChanged_identity_without_exclusion
    (app : OrbitApp) (v : LiveFunctionsDataView) (cd : CaptureData) :
  capture_data app = Some cd ->
  (forall entry, In entry (selected_functions cd) -> IsOrbitFunc (snd entry) = false) ->
  exists v', OnDataChanged app v = Ok v' /\
    functions_ v' = map snd (selected_functions cd) /\
    indices_ v' = seq 0 (length (functions_ v')).
Proof.
  intros Ecd Hnone. rewrite (OnDataChanged_result app v cd Ecd).
  eexists. split; [reflexivity|]. cbn [functions_ indices_ set_indices set_functions].
  assert (E : List.filter (fun entry => negb (IsOrbitFunc (snd entry))) (selected_functions cd)
              = selected_functions cd).
  { induction (selected_functions cd) as [|e l IH]; [reflexivity|]. simpl.
    rewrite Hnone by now left. simpl. f_equal. apply IH. intros e' He'. apply Hnone. now right. }
  rewrite E, length_map, Nat.sub_diag. simpl. now rewrite app_nil_r.
Qed.

End Rebuild.

(** C1, evaluated where the code departs from it. The capture holds two
    selected functions, one of them Orbit's own. [OnDataChanged] tracks the
    one remaining function and has built two rows, [0; 0], when it calls
    the base class: [indices_] was sized by the number of selected functions
    before the exclusion, so it is not the identity over [functions_]. With
    only the Orbit function selected, the one row refers to position 0 of an
    empty [functions_]. *)
Lemma OnDataChanged_sizes_rows_before_exclusion :
  @rebuild_rows sample_helpers
    (sample_app [(4096, fn_orbit); (8192, fn_foobar)] false) (sample_view [] [] "")
    = Ok (sample_view [fn_foobar] [0; 0]%nat "") /\
  @OnDataChanged sample_helpers
    (sample_app [(4096, fn_orbit); (8192, fn_foobar)] false) (sample_view [] [] "")
    = Ok (sample_view [fn_foobar] [0; 0]%nat "") /\
  [0; 0]%nat <> seq 0 (length [fn_foobar]) /\
  @OnDataChanged sample_helpers
    (sample_app [(4096, fn_orbit)] false) (sample_view [] [] "")
    = Ok (sample_view [] [0]%nat "") /\
  (sample_view [] [0]%nat "").(functions_) !! 0%nat = None.
Proof. repeat split; try reflexivity. discriminate. Qed.

(** ** Row lookup *)

(** [GetSelectedFunction] reports a failed check exactly when the row is
    not below the number of tracked functions. *)
Lemma GetSelectedFunction_CheckFailed_iff (v : LiveFunctionsDataView) (row : Z) :
  GetSelectedFunction v row = CheckFailed <-> Z.of_nat (length (functions_ v)) <= row.
Proof.
  unfold GetSelectedFunction.
  destruct (Z.ltb_spec row (Z.of_nat (length (functions_ v)))) as [Hlt|Hge]; simpl.
  - split; [|lia]. unfold at_int, at_index.
    destruct (row <? 0); [discriminate|].
    destruct (indices_ v !! Z.to_nat row) as [i|]; simpl; [|discriminate].
    destruct (functions_ v !! i); discriminate.
  - split; [intros _; exact Hge|reflexivity].
Qed.

(** A row below both sizes yields the function its index selects. *)
Lemma GetSelectedFunction_in_bounds (v : LiveFunctionsDataView) (row : nat) (i : nat)
    (f : FunctionInfo) :
  (row < length (functions_ v))%nat ->
  indices_ v !! row = Some i ->
  functions_ v !! i = Some f ->
  GetSelectedFunction v (Z.of_nat row) = Ok f.
Proof.
  intros Hrow Ei Ef. unfold GetSelectedFunction.
  replace (Z.of_nat row <? Z.of_nat (length (functions_ v))) with true
    by (symmetry; apply Z.ltb_lt; lia).
  simpl. rewrite at_int_of_nat, (proj2 (at_index_Ok _ _ _) Ei). simpl.
  now apply at_index_Ok.
Qed.

(** C4, evaluated where the code departs from it. Filtering two tracked
    functions by "render" leaves one visible row. Row 1 is then not below
    the visible count, yet the check, which compares the row with the
    number of tracked functions (2), lets it pass, and [indices_[1]] is
    read past the end of the vector. *)
Lemma GetSelectedFunction_checks_against_tracked_count :
  exists v' issued,
    @DoFilter sample_helpers (sample_app [] false)
      (sample_view [fn_foobar; fn_render] [] "render") = Ok (v', issued) /\
    indices_ v' = [1%nat] /\
    GetNumElements v' = 1%nat /\
    length (functions_ v') = 2%nat /\
    GetSelectedFunction v' 1 = Undefined /\
    GetSelectedFunction v' 1 <> CheckFailed.
Proof.
  eexists _, _. split; [vm_compute; reflexivity|].
  repeat split; try reflexivity. discriminate.
Qed.

(** ** The shortest and the longest call *)

(** The three nested loops visit the boxes in scan order. *)
Lemma GetMinMax_scan_order (address : Z) (chains : list (option TimerChain))
    (acc : option TextBox * option TextBox) :
  foldl (visit_chain address) acc chains =
  foldl (visit_box address) acc (boxes_in_scan_order chains).
Proof.
  unfold boxes_in_scan_order. revert acc.
  induction chains as [|chain chains IH]; intros acc; simpl; [reflexivity|].
  rewrite foldl_app, <- IH. f_equal. destruct chain as [blocks|]; simpl; [|reflexivity].
  clear IH. revert acc. induction blocks as [|block blocks IHb]; intros acc; simpl; [reflexivity|].
  rewrite foldl_app, <- IHb. reflexivity.
Qed.

(** The pair of running extremes evolves componentwise. *)
Lemma visit_box_tracks (address : Z) (scan : list TextBox) (mn mx : option TextBox) :
  foldl (visit_box address) (mn, mx) scan =
  (foldl (track address Z.ltb) mn scan, foldl (track address Z.gtb) mx scan).
Proof.
  revert mn mx. induction scan as [|b scan IH]; intros mn mx; simpl; [reflexivity|].
  unfold track at 2 4. destruct (function_address (GetTimerInfo b) =? address); [|apply IH].
  rewrite <- IH. f_equal.
Qed.

Section RunningExtreme.
Variable address : Z.
Variable better : Z -> Z -> Prop.
Variable betterb : Z -> Z -> bool.
Hypothesis betterb_spec : forall x y, betterb x y = true <-> better x y.
Hypothesis better_trans : forall x y z, better x y -> better y z -> better x z.
Hypothesis better_cotrans : forall x y z, better x y -> ~ better z y -> better x z.

Lemma has_address_eqb (b : TextBox) :
  (function_address (GetTimerInfo b) =? address) = true <-> has_address address b.
Proof. apply Z.eqb_eq. Qed.

(** After any scan the running extreme is absent when no box has the
    queried address, and is otherwise the first extremal box of the scan. *)
Lemma track_invariant (scan : list TextBox) :
  let cur := foldl (track address betterb) None scan in
  (cur = None /\ forall x, In x scan -> ~ has_address address x) \/
  (exists b, cur = Some b /\ first_extremal better address scan b).
Proof.
  induction scan as [|x seen IH] using rev_ind; [left; split; [reflexivity|intros x []]|].
  cbv zeta in *. rewrite foldl_app. simpl.
  set (cur := foldl (track address betterb) None seen) in *. clearbody cur.
  unfold track. destruct (function_address (GetTimerInfo x) =? address) eqn:Ex.
  - apply has_address_eqb in Ex. right.
    destruct IH as [[-> Hnone]|(b & -> & Hb & bf & af & -> & Hbf & Haf)]; simpl.
    + exists x. split; [reflexivity|]. split; [exact Ex|].
      exists seen, []. split; [reflexivity|]. split; [|intros y []].
      intros y Hy Hay. now apply Hnone in Hy.
    + destruct (betterb (elapsed_nanos x) (elapsed_nanos b)) eqn:Eb.
      * apply betterb_spec in Eb. exists x. split; [reflexivity|]. split; [exact Ex|].
        exists (bf ++ b :: af), []. split; [reflexivity|]. split; [|intros y []].
        intros y Hy Hay. apply in_app_or in Hy as [Hy|[<-|Hy]].
        -- eapply better_trans; [exact Eb|]. now apply Hbf.
        -- exact Eb.
        -- eapply better_cotrans; [exact Eb|]. now apply Haf.
      * exists b. split; [reflexivity|]. split; [exact Hb|].
        exists bf, (af ++ [x]). split; [now rewrite <- app_assoc|]. split; [exact Hbf|].
        intros y Hy Hay. apply in_app_or in Hy as [Hy|[<-|[]]]; [now apply Haf|].
        intros Hbetter. apply betterb_spec in Hbetter. unfold duration in Hbetter. congruence.
  - assert (Hx : ~ has_address address x).
    { intros Hx. apply has_address_eqb in Hx. congruence. }
    destruct IH as [[-> Hnone]|(b & -> & Hb & bf & af & -> & Hbf & Haf)].
    + left. split; [reflexivity|]. intros y Hy. apply in_app_or in Hy as [Hy|[<-|[]]]; auto.
    + right. exists b. split; [reflexivity|]. split; [exact Hb|].
      exists bf, (af ++ [x]). split; [now rewrite <- app_assoc|]. split; [exact Hbf|].
      intros y Hy Hay. apply in_app_or in Hy as [Hy|[<-|[]]]; [now apply Haf|contradiction].
Qed.

End RunningExtreme.

(** The first extremal box is a box of the scan. *)
Lemma first_extremal_In (better : Z -> Z -> Prop) (address : Z) (scan : list TextBox)
    (b : TextBox) :
  first_extremal better address scan b -> In b scan.
Proof. intros (_ & bf & af & -> & _). apply in_elt. Qed.

(** The first shortest box is no longer than any box of its address. *)
Lemma first_extremal_lt_le (address : Z) (scan : list TextBox) (b x : TextBox) :
  first_extremal Z.lt address scan b -> In x scan -> has_address address x ->
  duration b <= duration x.
Proof.
  intros (_ & bf & af & -> & Hbf & Haf) Hx Hax.
  apply in_app_or in Hx as [Hx|[<-|Hx]].
  - specialize (Hbf x Hx Hax). lia.
  - lia.
  - specialize (Haf x Hx Hax). lia.
Qed.

(** The first longest box is no shorter than any box of its address. *)
Lemma first_extremal_gt_ge (address : Z) (scan : list TextBox) (b x : TextBox) :
  first_extremal Z.gt address scan b -> In x scan -> has_address address x ->
  duration x <= duration b.
Proof.
  intros (_ & bf & af & -> & Hbf & Haf) Hx Hax.
  apply in_app_or in Hx as [Hx|[<-|Hx]].
  - specialize (Hbf x Hx Hax). lia.
  - lia.
  - specialize (Haf x Hx Hax). lia.
Qed.

(** What [GetMinMax] returns when capture data is present. *)
Lemma GetMinMax_result (app : OrbitApp) (time_graph : TimeGraph) (cd : CaptureData)
    (function : FunctionInfo) :
  capture_data app = Some cd ->
  let address := GetAbsoluteAddress cd function in
  let scan := boxes_in_scan_order (GetAllThreadTrackTimerChains time_graph) in
  exists min_box max_box,
    GetMinMax app time_graph function = Ok (min_box, max_box) /\
    ((min_box = None /\ max_box = None /\ forall x, In x scan -> ~ has_address address x) \/
     (exists bmin bmax, min_box = Some bmin /\ max_box = Some bmax /\
        first_extremal Z.lt address scan bmin /\ first_extremal Z.gt address scan bmax)).
Proof.
  intros Ecd address scan. unfold GetMinMax, GetCaptureData. rewrite Ecd. simpl.
  rewrite GetMinMax_scan_order, visit_box_tracks. fold address scan.
  eexists _, _. split; [reflexivity|].
  pose proof (track_invariant address Z.lt Z.ltb Z.ltb_lt
                ltac:(intros; lia) ltac:(intros; lia) scan) as Hmin.
  pose proof (track_invariant address Z.gt Z.gtb
                ltac:(intros x y; rewrite Z.gtb_ltb, Z.ltb_lt; lia)
                ltac:(intros; lia) ltac:(intros; lia) scan) as Hmax.
  cbv zeta in Hmin, Hmax.
  destruct Hmin as [[-> Hnone]|(bmin & -> & Hbmin)];
    destruct Hmax as [[-> Hnone']|(bmax & -> & Hbmax)].
  - left. auto.
  - exfalso. apply (Hnone bmax); [eapply first_extremal_In; eauto|apply Hbmax].
  - exfalso. apply (Hnone' bmin); [eapply first_extremal_In; eauto|apply Hbmin].
  - right. exists bmin, bmax. auto.
Qed.

(** C3, amended. With capture data present, [GetMinMax] returns no box at
    all when no box of the timer chains has the queried address; otherwise
    its first result is the first box of that address, in scan order, with
    the strictly smallest duration (every such box before it lasts strictly
    longer, none after it lasts shorter), and its second result is the first
    box with the strictly largest duration. On the intervals (a,10,50),
    (a,5,5), (a,100,130) mixed with calls of another function, the results
    are the (5,5) box and the (10,50) box, whose duration 40 is the
    largest. *)
Theorem GetMinMax_returns_first_strict_extremes :
  (forall (app : OrbitApp) (time_graph : TimeGraph) (cd : CaptureData) (function : FunctionInfo),
     capture_data app = Some cd ->
     let address := GetAbsoluteAddress cd function in
     let scan := boxes_in_scan_order (GetAllThreadTrackTimerChains time_graph) in
     exists min_box max_box,
       GetMinMax app time_graph function = Ok (min_box, max_box) /\
       ((forall x, In x scan -> ~ has_address address x) ->
          min_box = None /\ max_box = None) /\
       ((exists x, In x scan /\ has_address address x) ->
          exists bmin bmax, min_box = Some bmin /\ max_box = Some bmax /\
            first_extremal Z.lt address scan bmin /\
            first_extremal Z.gt address scan bmax)) /\
  GetMinMax (sample_app [] false) sample_time_graph fn_foobar
    = Ok (Some (box 8192 5 5), Some (box 8192 10 50)).
Proof.
  split; [|reflexivity].
  intros app time_graph cd function Ecd address scan.
  destruct (GetMinMax_result app time_graph cd function Ecd)
    as (min_box & max_box & E & Hcases).
  fold address scan in Hcases. exists min_box, max_box. split; [exact E|]. split.
  - intros Hnone. destruct Hcases as [(-> & -> & _)|(bmin & _ & _ & _ & Hmin & _)]; [auto|].
    exfalso. apply (Hnone bmin); [eapply first_extremal_In; eauto|apply Hmin].
  - intros (x & Hx & Hax).
    destruct Hcases as [(_ & _ & Hnone)|(bmin & bmax & -> & -> & Hmin & Hmax)].
    + exfalso. now apply (Hnone x).
    + exists bmin, bmax. auto.
Qed.

Lemma GetMinMax_returns_first_strict_extremes_witness :
  capture_data (sample_app [] false) = Some (sample_capture []) /\
  exists min_box max_box,
    GetMinMax (sample_app [] false) sample_time_graph fn_foobar = Ok (min_box, max_box) /\
    ((forall x, In x (boxes_in_scan_order sample_chains) -> ~ has_address 8192 x) ->
       min_box = None /\ max_box = None) /\
    ((exists x, In x (boxes_in_scan_order sample_chains) /\ has_address 8192 x) ->
       exists bmin bmax, min_box = Some bmin /\ max_box = Some bmax /\
         first_extremal Z.lt 8192 (boxes_in_scan_order sample_chains) bmin /\
         first_extremal Z.gt 8192 (boxes_in_scan_order sample_chains) bmax).
Proof.
  split; [reflexivity|].
  apply (proj1 GetMinMax_returns_first_strict_extremes
           (sample_app [] false) sample_time_graph (sample_capture []) fn_foobar).
  reflexivity.
Defined.

(** C3 as stated fails on its own example: among (a,10,50), (a,5,5) and
    (a,100,130) the longest call is (10,50), of duration 40, and that is
    the box [GetMinMax] returns as the maximum, not (100,130), of duration
    30. *)
Lemma GetMinMax_sample_maximum_counterexample :
  GetMinMax (sample_app [] false) sample_time_graph fn_foobar
    = Ok (Some (box 8192 5 5), Some (box 8192 10 50)) /\
  box 8192 10 50 <> box 8192 100 130 /\
  duration (box 8192 10 50) = 40 /\
  duration (box 8192 100 130) = 30.
Proof. repeat split; try reflexivity. discriminate. Qed.

(** C10. With capture data present, [GetMinMax] returns two boxes or none:
    the first result is absent exactly when the second is, and when both
    are present both have the queried address and the first lasts no longer
    than the second. *)
Theorem GetMinMax_returns_both_or_neither
    (app : OrbitApp) (time_graph : TimeGraph) (cd : CaptureData) (function : FunctionInfo) :
  capture_data app = Some cd ->
  exists min_box max_box,
    GetMinMax app time_graph function = Ok (min_box, max_box) /\
    (min_box = None <-> max_box = None) /\
    (forall bmin bmax, min_box = Some bmin -> max_box = Some bmax ->
       has_address (GetAbsoluteAddress cd function) bmin /\
       has_address (GetAbsoluteAddress cd function) bmax /\
       duration bmin <= duration bmax).
Proof.
  intros Ecd.
  destruct (GetMinMax_result app time_graph cd function Ecd)
    as (min_box & max_box & E & Hcases).
  cbv zeta in Hcases. exists min_box, max_box. split; [exact E|].
  destruct Hcases as [(-> & -> & _)|(bmin & bmax & -> & -> & Hmin & Hmax)].
  - split; [tauto|]. discriminate.
  - split; [split; discriminate|].
    intros b1 b2 [= <-] [= <-]. split; [apply Hmin|]. split; [apply Hmax|].
    eapply first_extremal_lt_le; [exact Hmin| |apply Hmax].
    eapply first_extremal_In; eauto.
Qed.

Lemma GetMinMax_returns_both_or_neither_witness :
  capture_data (sample_app [] false) = Some (sample_capture []) /\
  exists min_box max_box,
    GetMinMax (sample_app [] false) sample_time_graph fn_foobar = Ok (min_box, max_box) /\
    (min_box = None <-> max_box = None) /\
    (forall bmin bmax, min_box = Some bmin -> max_box = Some bmax ->
       has_address 8192 bmin /\ has_address 8192 bmax /\ duration bmin <= duration bmax).
Proof.
  split; [reflexivity|].
  apply (GetMinMax_returns_both_or_neither
           (sample_app [] false) sample_time_graph (sample_capture []) fn_foobar).
  reflexivity.
Defined.

(** ** The stable sort *)

Section Precedes.
Context {A : Type}.

Lemma precedes_cons (a b x : A) (l : list A) :
  precedes a b (x :: l) <-> (a = x /\ In b l) \/ precedes a b l.
Proof.
  split.
  - intros (l1 & l2 & l3 & E). destruct l1 as [|y l1]; simpl in E; injection E as -> ->.
    + left. split; [reflexivity|]. apply in_or_app. right. now left.
    + right. now exists l1, l2, l3.
  - intros [[-> Hb]|(l1 & l2 & l3 & ->)].
    + apply in_split in Hb as (l2 & l3 & ->). now exists [], l2, l3.
    + now exists (x :: l1), l2, l3.
Qed.

Lemma precedes_nil (a b : A) : ~ precedes a b [].
Proof. intros (l1 & l2 & l3 & E). destruct l1; discriminate. Qed.

Lemma precedes_In_r (a b : A) (l : list A) : precedes a b l -> In b l.
Proof.
  intros (l1 & l2 & l3 & ->). apply in_or_app. right. right.
  apply in_or_app. right. now left.
Qed.

Lemma precedes_app (a b : A) (l r : list A) :
  precedes a b (l ++ r) <-> precedes a b l \/ precedes a b r \/ (In a l /\ In b r).
Proof.
  induction l as [|x l IH]; simpl.
  - split; [auto|]. intros [Hn|[Hr|[[] _]]]; [now apply precedes_nil in Hn|exact Hr].
  - rewrite !precedes_cons, IH, in_app_iff. split.
    + intros [[-> [Hb|Hb]]|[Hl|[Hr|[Ha Hb]]]]; auto 6.
    + intros [[[-> Hb]|Hl]|[Hr|[[->|Ha] Hb]]]; auto 6.
Qed.

End Precedes.

Section StableSort.
Context {A : Type}.
Variable less : A -> A -> bool.

(** Insertion passes the elements that are less than the new one and stops
    in front of the first that is not. *)
Lemma stable_insert_split (x : A) (l : list A) :
  exists passed rest,
    l = passed ++ rest /\
    stable_insert less x l = passed ++ x :: rest /\
    (forall y, In y passed -> less y x = true) /\
    (forall y, head rest = Some y -> less y x = false).
Proof.
  induction l as [|y l IH]; simpl.
  - exists [], []. repeat split; [intros y []|discriminate].
  - destruct (less y x) eqn:E.
    + destruct IH as (passed & rest & -> & -> & Hp & Hr).
      exists (y :: passed), rest. repeat split; [|exact Hr].
      intros z [<-|Hz]; [exact E|now apply Hp].
    + exists [], (y :: l). repeat split; [intros z []|].
      intros z [= <-]. exact E.
Qed.

Lemma stable_insert_perm (x : A) (l : list A) :
  Permutation (stable_insert less x l) (x :: l).
Proof.
  destruct (stable_insert_split x l) as (passed & rest & -> & -> & _).
  symmetry. apply Permutation_middle.
Qed.

Lemma stable_sort_perm (l : list A) : Permutation (stable_sort less l) l.
Proof.
  induction l as [|x l IH]; simpl; [constructor|].
  rewrite stable_insert_perm. now constructor.
Qed.

Lemma stable_insert_keeps_order (a b x : A) (l : list A) :
  precedes a b l -> precedes a b (stable_insert less x l).
Proof.
  destruct (stable_insert_split x l) as (passed & rest & -> & -> & _).
  rewrite !precedes_app, precedes_cons. simpl. tauto.
Qed.

Lemma stable_insert_stays_in_front (b x : A) (l : list A) :
  In b l -> less b x = false -> precedes x b (stable_insert less x l).
Proof.
  destruct (stable_insert_split x l) as (passed & rest & -> & -> & Hp & _).
  intros Hb Hbx. apply in_app_or in Hb as [Hb|Hb].
  - apply Hp in Hb. congruence.
  - apply precedes_app. right. left. apply precedes_cons. now left.
Qed.

(** Stability: a row that stands before another and is not greater than it
    still stands before it after the sort. *)
Lemma stable_sort_keeps_order (a b : A) (l : list A) :
  precedes a b l -> less b a = false -> precedes a b (stable_sort less l).
Proof.
  induction l as [|x l IH]; intros Hab Hba; simpl.
  - now apply precedes_nil in Hab.
  - apply precedes_cons in Hab as [[-> Hb]|Hab].
    + apply stable_insert_stays_in_front; [|exact Hba].
      eapply Permutation_in; [symmetry; apply stable_sort_perm|exact Hb].
    + now apply stable_insert_keeps_order, IH.
Qed.

(** The result is in non-descending order when [less] is asymmetric and
    "not greater" is transitive, as for a strict weak order. *)
Hypothesis less_asym : forall x y, less x y = true -> less y x = false.
Hypothesis not_greater_trans :
  forall x y z, less y x = false -> less z y = false -> less z x = false.

Lemma stable_insert_sorted (x : A) (l : list A) :
  StronglySorted (fun u w => less w u = false) l ->
  StronglySorted (fun u w => less w u = false) (stable_insert less x l).
Proof.
  induction l as [|y l IH]; intros Hs; simpl.
  - constructor; constructor.
  - inversion Hs as [|? ? Hs' Hy]; subst. destruct (less y x) eqn:E.
    + constructor; [now apply IH|].
      apply Forall_forall. intros z Hz. apply list_elem_of_In in Hz.
      eapply Permutation_in in Hz; [|apply stable_insert_perm].
      destruct Hz as [<-|Hz]; [now apply less_asym|].
      rewrite Forall_forall in Hy. apply Hy. now apply list_elem_of_In.
    + constructor; [exact Hs|]. constructor; [exact E|].
      rewrite Forall_forall in Hy |- *. intros z Hz.
      eapply not_greater_trans; [exact E|]. now apply Hy.
Qed.

Lemma stable_sort_sorted (l : list A) :
  StronglySorted (fun u w => less w u = false) (stable_sort less l).
Proof.
  induction l as [|x l IH]; simpl; [constructor|]. now apply stable_insert_sorted.
Qed.

End StableSort.

(** ** The comparators *)

Lemma bool_ltb_strict_total : StrictTotal bool_ltb.
Proof.
  split; unfold bool_ltb; intros;
    repeat match goal with b : bool |- _ => destruct b end; simpl in *; congruence.
Qed.

Lemma Z_ltb_strict_total : StrictTotal Z.ltb.
Proof.
  split.
  - intros x. apply Z.ltb_irrefl.
  - intros x y Hxy. apply Z.ltb_lt in Hxy. apply Z.ltb_ge. lia.
  - intros x y z Hyx Hzy. apply Z.ltb_ge in Hyx, Hzy. apply Z.ltb_ge. lia.
  - intros x y Hxy Hyx. apply Z.ltb_ge in Hxy, Hyx. lia.
Qed.

Lemma string_ltb_lt (a b : string) :
  string_ltb a b = true <-> OrderedTypeEx.String_as_OT.lt a b.
Proof.
  rewrite <- OrderedTypeEx.String_as_OT.cmp_lt.
  unfold string_ltb, String.ltb, OrderedTypeEx.String_as_OT.cmp.
  destruct (String.compare a b); split; intros E; try reflexivity; discriminate.
Qed.

Lemma string_ltb_cases (a b : string) :
  string_ltb a b = true \/ a = b \/ string_ltb b a = true.
Proof.
  unfold string_ltb, String.ltb. rewrite (String.compare_antisym b a).
  destruct (String.compare a b) eqn:E; simpl; auto.
  right. left. now apply String.compare_eq_iff.
Qed.

Lemma string_ltb_irrefl (a : string) : string_ltb a a = false.
Proof.
  destruct (string_ltb a a) eqn:E; [|reflexivity].
  apply string_ltb_lt, OrderedTypeEx.String_as_OT.lt_not_eq in E.
  exfalso. apply E. reflexivity.
Qed.

Lemma string_ltb_trans (a b c : string) :
  string_ltb a b = true -> string_ltb b c = true -> string_ltb a c = true.
Proof.
  rewrite !string_ltb_lt. apply OrderedTypeEx.String_as_OT.lt_trans.
Qed.

Lemma string_ltb_strict_total : StrictTotal string_ltb.
Proof.
  assert (Hasym : forall x y, string_ltb x y = true -> string_ltb y x = false).
  { intros x y Hxy. destruct (string_ltb y x) eqn:Hyx; [|reflexivity].
    pose proof (string_ltb_trans x y x Hxy Hyx) as Hxx.
    rewrite string_ltb_irrefl in Hxx. discriminate. }
  split.
  - apply string_ltb_irrefl.
  - exact Hasym.
  - intros x y z Hyx Hzy. destruct (string_ltb z x) eqn:Hzx; [|reflexivity].
    destruct (string_ltb_cases x y) as [Hxy|[->|Hyx']]; [|congruence|congruence].
    pose proof (string_ltb_trans z x y Hzx Hxy). congruence.
  - intros x y Hxy Hyx. destruct (string_ltb_cases x y) as [H|[H|H]]; congruence.
Qed.

Section CompareOrder.
Context {T : Type} (ltb : T -> T -> bool) (ST : StrictTotal ltb).
Context {R : Type} (k : R -> T) (asc : bool).

Lemma Compare_asym (x y : R) :
  Compare ltb (k x) (k y) asc = true -> Compare ltb (k y) (k x) asc = false.
Proof. unfold Compare. destruct asc; apply (st_asym _ ST). Qed.

Lemma Compare_not_greater_trans (x y z : R) :
  Compare ltb (k y) (k x) asc = false -> Compare ltb (k z) (k y) asc = false ->
  Compare ltb (k z) (k x) asc = false.
Proof.
  unfold Compare. destruct asc.
  - apply (st_not_greater_trans _ ST).
  - intros Hyx Hzy. exact (st_not_greater_trans _ ST _ _ _ Hzy Hyx).
Qed.

Lemma Compare_equal_iff (x y : R) :
  Compare ltb (k x) (k y) asc = false /\ Compare ltb (k y) (k x) asc = false <-> k x = k y.
Proof.
  unfold Compare. split.
  - destruct asc; intros [Hxy Hyx]; [|symmetry]; now apply (st_trichotomy _ ST).
  - intros ->. destruct asc; split; apply (st_irrefl _ ST).
Qed.

End CompareOrder.

Section Comparators.
Context `{Helpers}.

(** Each comparator of [DoSort] compares the sort keys of the two rows. *)
Lemma sorter_of_sort_key (app : OrbitApp) (cd : CaptureData) (functions : list FunctionInfo)
    (ascending : bool) (sorting_column : Z) (column : Column) :
  column_of_int sorting_column = Some column ->
  exists sorter,
    sorter_of app cd functions ascending sorting_column = Some sorter /\
    (forall a b, sorter a b =
       Compare SortKey_ltb (sort_key app cd column (functions !!! a))
                           (sort_key app cd column (functions !!! b)) ascending) /\
    (forall a b, sorter a b = true -> sorter b a = false) /\
    (forall a b c, sorter b a = false -> sorter c b = false -> sorter c a = false) /\
    (forall a b, compare_equal sorter a b <->
       sort_key app cd column (functions !!! a) = sort_key app cd column (functions !!! b)).
Proof.
  intros Ecol. unfold sorter_of. rewrite Ecol.
  pose proof bool_ltb_strict_total as STb.
  pose proof string_ltb_strict_total as STs.
  pose proof Z_ltb_strict_total as STz.
  destruct column; eexists; (split; [reflexivity|]);
    unfold ORBIT_CUSTOM_FUNC_SORT, ORBIT_STAT_SORT, ORBIT_FUNC_SORT, compare_equal;
    cbn [sort_key]; cbv zeta.
  all: split; [intros a b; destruct ascending; reflexivity|].
  all: split; [intros a b; first [apply (Compare_asym _ STb) | apply (Compare_asym _ STs)
                                  | apply (Compare_asym _ STz)]|].
  all: split; [intros a b c; first [apply (Compare_not_greater_trans _ STb)
                                    | apply (Compare_not_greater_trans _ STs)
                                    | apply (Compare_not_greater_trans _ STz)]|].
  all: intros a b;
    first [rewrite (Compare_equal_iff _ STb) | rewrite (Compare_equal_iff _ STs)
           | rewrite (Compare_equal_iff _ STz)];
    split; [intros ->; reflexivity | intros E; now injection E].
Qed.

End Comparators.

(** ** Sorting the rows *)

Lemma StronglySorted_weaken {A : Type} (R1 R2 : A -> A -> Prop) (l : list A) :
  (forall x y, R1 x y -> R2 x y) -> StronglySorted R1 l -> StronglySorted R2 l.
Proof.
  intros Himp Hs. induction Hs as [|x l Hs IH Hx]; constructor; [exact IH|].
  eapply Forall_impl; [exact Hx|]. intros y. apply Himp.
Qed.

Section Sorting.
Context `{Helpers}.

(** When [DoSort] returns, it has either left the view alone, for want of
    capture data or of a comparator, or replaced the rows by their stable
    sort under the comparator of the current column and direction. *)
Lemma DoSort_inv (app : OrbitApp) (v v' : LiveFunctionsDataView) :
  DoSort app v = Ok v' ->
  (v' = v /\ (capture_data app = None \/ column_of_int (sorting_column_ v) = None)) \/
  (exists cd order column sorter,
     capture_data app = Some cd /\
     at_int (sorting_orders_ v) (sorting_column_ v) = Ok order /\
     column_of_int (sorting_column_ v) = Some column /\
     sorter_of app cd (functions_ v) (SortingOrder_eqb order kAscending)
       (sorting_column_ v) = Some sorter /\
     v' = set_indices v (stable_sort sorter (indices_ v))).
Proof.
  unfold DoSort. destruct (capture_data app) as [cd|] eqn:Ecd.
  - destruct (at_int (sorting_orders_ v) (sorting_column_ v)) as [order| |] eqn:Eo;
      simpl; try discriminate.
    destruct (column_of_int (sorting_column_ v)) as [column|] eqn:Ecol.
    + destruct (sorter_of_sort_key app cd (functions_ v) (SortingOrder_eqb order kAscending)
                  (sorting_column_ v) column Ecol) as (sorter & Es & _).
      rewrite Es. destruct (rows_readable (functions_ v) (indices_ v)); [|discriminate].
      intros [= <-]. right. exists cd, order, column, sorter. auto.
    + unfold sorter_of. rewrite Ecol. intros [= <-]. left. auto.
  - destruct (length (functions_ v) =? 0)%nat; simpl; [|discriminate].
    intros [= <-]. left. auto.
Qed.

(** [DoSort] returns whenever capture data is present, the sort column has
    a stored direction and the rows refer to tracked functions. *)
Lemma DoSort_returns (app : OrbitApp) (v : LiveFunctionsDataView) (cd : CaptureData)
    (order : SortingOrder) :
  capture_data app = Some cd ->
  at_int (sorting_orders_ v) (sorting_column_ v) = Ok order ->
  rows_readable (functions_ v) (indices_ v) = true ->
  exists v', DoSort app v = Ok v'.
Proof.
  intros Ecd Eo Er. unfold DoSort. rewrite Ecd, Eo. simpl. rewrite Er.
  destruct (sorter_of _ _ _ _ _); eauto.
Qed.

Lemma DoSort_frame (app : OrbitApp) (v v' : LiveFunctionsDataView) :
  DoSort app v = Ok v' ->
  functions_ v' = functions_ v /\ filter_ v' = filter_ v /\
  sorting_column_ v' = sorting_column_ v /\ sorting_orders_ v' = sorting_orders_ v /\
  update_period_ms_ v' = update_period_ms_ v /\
  Permutation (indices_ v') (indices_ v).
Proof.
  intros E. apply DoSort_inv in E as [[-> _]|(cd & order & column & sorter & _ & _ & _ & _ & ->)].
  - repeat split; reflexivity.
  - cbn. repeat split; try reflexivity. apply stable_sort_perm.
Qed.

Lemma DoSort_sorted (app : OrbitApp) (v v' : LiveFunctionsDataView) :
  DoSort app v = Ok v' -> sorted_by_current_column app v'.
Proof.
  intros E. unfold sorted_by_current_column.
  apply DoSort_inv in E
    as [[-> [Ecd|Ecol]]|(cd & order & column & sorter & Ecd & Eo & Ecol & Es & ->)].
  - now rewrite Ecd.
  - rewrite Ecol. now destruct (capture_data app).
  - cbn [functions_ indices_ sorting_column_ sorting_orders_ set_indices].
    rewrite Ecd, Ecol, Eo.
    destruct (sorter_of_sort_key app cd (functions_ v) (SortingOrder_eqb order kAscending)
                (sorting_column_ v) column Ecol) as (sorter' & Es' & Hkey & Hasym & Htrans & _).
    rewrite Es in Es'. injection Es' as <-.
    eapply StronglySorted_weaken; [|apply (stable_sort_sorted sorter Hasym Htrans)].
    intros x y Hxy. simpl in Hxy. now rewrite <- Hkey.
Qed.

(** C5. Whenever [DoSort] returns, whatever the sort column and its stored
    direction, two rows whose sort-key values are equal keep their relative
    order: if [a] stood before [b] in [indices_], it still does. *)
Theorem DoSort_keeps_order_of_equal_keys
    (app : OrbitApp) (v v' : LiveFunctionsDataView) (a b : nat) :
  DoSort app v = Ok v' ->
  equal_sort_keys app v a b ->
  precedes a b (indices_ v) ->
  precedes a b (indices_ v').
Proof.
  intros E Hkeys Hab. unfold equal_sort_keys in Hkeys.
  apply DoSort_inv in E as [[-> _]|(cd & order & column & sorter & Ecd & _ & Ecol & Es & ->)];
    [exact Hab|].
  rewrite Ecd, Ecol in Hkeys. cbn [indices_ set_indices].
  destruct (sorter_of_sort_key app cd (functions_ v) (SortingOrder_eqb order kAscending)
              (sorting_column_ v) column Ecol) as (sorter' & Es' & _ & _ & _ & Heq).
  rewrite Es in Es'. injection Es' as <-.
  apply stable_sort_keeps_order; [exact Hab|]. now apply Heq.
Qed.

(** In comparator terms: two rows that compare equal under the comparator
    [DoSort] chose keep their relative order. *)
Lemma DoSort_keeps_order_of_equivalent_rows
    (app : OrbitApp) (v : LiveFunctionsDataView) (cd : CaptureData) (order : SortingOrder)
    (sorter : nat -> nat -> bool) (a b : nat) :
  capture_data app = Some cd ->
  at_int (sorting_orders_ v) (sorting_column_ v) = Ok order ->
  sorter_of app cd (functions_ v) (SortingOrder_eqb order kAscending) (sorting_column_ v)
    = Some sorter ->
  rows_readable (functions_ v) (indices_ v) = true ->
  compare_equal sorter a b ->
  precedes a b (indices_ v) ->
  exists v', DoSort app v = Ok v' /\ precedes a b (indices_ v').
Proof.
  intros Ecd Eo Es Er [_ Hba] Hab. unfold DoSort. rewrite Ecd, Eo. simpl. rewrite Es, Er.
  eexists. split; [reflexivity|]. cbn [indices_ set_indices].
  now apply stable_sort_keeps_order.
Qed.

End Sorting.

(** Sorting three rows by call count, descending: the two rows of FooBar
    (3 calls each) stay in order in front of the row of Render (no call). *)
Lemma DoSort_keeps_order_of_equal_keys_witness :
  @DoSort sample_helpers (sample_app [] false)
    (sample_view [fn_foobar; fn_render; fn_foobar] [1; 0; 2]%nat "")
    = Ok (sample_view [fn_foobar; fn_render; fn_foobar] [0; 2; 1]%nat "") /\
  @equal_sort_keys sample_helpers (sample_app [] false)
    (sample_view [fn_foobar; fn_render; fn_foobar] [1; 0; 2]%nat "") 0 2 /\
  precedes 0%nat 2%nat [1; 0; 2]%nat /\
  precedes 0%nat 2%nat [0; 2; 1]%nat.
Proof.
  assert (Hbefore : precedes 0%nat 2%nat [1; 0; 2]%nat) by (exists [1%nat], [], []; reflexivity).
  split; [reflexivity|]. split; [reflexivity|]. split; [exact Hbefore|].
  apply (@DoSort_keeps_order_of_equal_keys sample_helpers (sample_app [] false)
           (sample_view [fn_foobar; fn_render; fn_foobar] [1; 0; 2]%nat "")
           (sample_view [fn_foobar; fn_render; fn_foobar] [0; 2; 1]%nat "") 0%nat 2%nat);
    [reflexivity|reflexivity|exact Hbefore].
Defined.

(** ** The periodic refresh *)

Section Refresh.
Context `{Helpers}.

Lemma OnDataChanged_keeps_update_period (app : OrbitApp) (v v' : LiveFunctionsDataView) :
  OnDataChanged app v = Ok v' -> update_period_ms_ v' = update_period_ms_ v.
Proof.
  destruct (capture_data app) as [cd|] eqn:Ecd.
  - rewrite (OnDataChanged_result app v cd Ecd). intros [= <-]. reflexivity.
  - unfold OnDataChanged, rebuild_rows. rewrite Ecd. simpl. intros [= <-]. reflexivity.
Qed.

(** A request for the current sort column without the toggle sorts the
    view as it stands. *)
Lemma OnSort_current_column (app : OrbitApp) (v : LiveFunctionsDataView) :
  OnSort app v (sorting_column_ v) false = DoSort app v.
Proof.
  unfold OnSort. rewrite Z.eqb_refl. f_equal. destruct v; reflexivity.
Qed.

(** C7. The constructor sets the update period to 300 ms. A tick outside
    capturing leaves the view as it is; a tick while capturing is [DoSort]
    on the current sort column with the stored directions. In both cases
    the filter text, the tracked functions, the sort column, the stored
    directions and the update period are unchanged and the rows are a
    permutation of the rows before the tick: no row enters or leaves, the
    filter is not run. After a tick while capturing the rows are sorted by
    the current column. *)
Theorem OnTimer_sorts_while_capturing_and_never_filters
    (app : OrbitApp) (v : LiveFunctionsDataView) :
  (forall base v0, LiveFunctionsDataView_ctor app base = Ok v0 -> update_period_ms_ v0 = 300) /\
  (IsCapturing app = false -> OnTimer app v = Ok v) /\
  (IsCapturing app = true -> OnTimer app v = DoSort app v) /\
  (forall v', OnTimer app v = Ok v' ->
     filter_ v' = filter_ v /\
     functions_ v' = functions_ v /\
     sorting_column_ v' = sorting_column_ v /\
     sorting_orders_ v' = sorting_orders_ v /\
     update_period_ms_ v' = update_period_ms_ v /\
     Permutation (indices_ v') (indices_ v) /\
     (forall i, In i (indices_ v') <-> In i (indices_ v)) /\
     (IsCapturing app = true -> sorted_by_current_column app v')).
Proof.
  split; [|split; [|split]].
  - intros base v0 E. unfold LiveFunctionsDataView_ctor in E.
    apply OnDataChanged_keeps_update_period in E. exact E.
  - intros Ec. unfold OnTimer. now rewrite Ec.
  - intros Ec. unfold OnTimer. rewrite Ec. apply OnSort_current_column.
  - intros v' E. unfold OnTimer in E. destruct (IsCapturing app) eqn:Ec.
    + rewrite OnSort_current_column in E.
      destruct (DoSort_frame app v v' E) as (Hf & Hfi & Hc & Ho & Hu & Hp).
      repeat split; try assumption.
      * intros Hi. eapply Permutation_in; [exact Hp|exact Hi].
      * intros Hi. eapply Permutation_in; [symmetry; exact Hp|exact Hi].
      * intros _. eapply DoSort_sorted; eauto.
    + injection E as <-. repeat split; auto. discriminate.
Qed.

End Refresh.

(** A tick while capturing on sample data: the rows [1; 0; 2] come out
    sorted by call count as [0; 2; 1], with the filter text untouched. *)
Lemma OnTimer_sorts_while_capturing_and_never_filters_witness :
  IsCapturing (sample_app [] true) = true /\
  @OnTimer sample_helpers (sample_app [] true)
    (sample_view [fn_foobar; fn_render; fn_foobar] [1; 0; 2]%nat "foo")
    = Ok (sample_view [fn_foobar; fn_render; fn_foobar] [0; 2; 1]%nat "foo") /\
  @OnTimer sample_helpers (sample_app [] true)
    (sample_view [fn_foobar; fn_render; fn_foobar] [1; 0; 2]%nat "foo")
    = @DoSort sample_helpers (sample_app [] true)
        (sample_view [fn_foobar; fn_render; fn_foobar] [1; 0; 2]%nat "foo").
Proof.
  split; [reflexivity|]. split; [reflexivity|].
  apply (proj1 (proj2 (proj2
    (@OnTimer_sorts_while_capturing_and_never_filters sample_helpers (sample_app [] true)
       (sample_view [fn_foobar; fn_render; fn_foobar] [1; 0; 2]%nat "foo"))))).
  reflexivity.
Defined.

(** ** Cell values *)

Section CellValues.
Context `{Helpers}.

(** C6, amended. A cell value request ([GetValue]) made without capture
    data, or for a row that is not below the visible count, does not fail:
    it returns the empty string. A row request ([GetSelectedFunction]) has
    no such placeholder result: when it returns a function, the row is below
    the visible count and the function is the tracked one that [indices_]
    selects at that row. *)
Theorem GetValue_returns_empty_string_instead_of_failing
    (app : OrbitApp) (v : LiveFunctionsDataView) (row column : Z) :
  (HasCaptureData app = false -> GetValue app v row column = Ok "") /\
  (Z.of_nat (GetNumElements v) <= row -> GetValue app v row column = Ok "") /\
  (forall function, GetSelectedFunction v row = Ok function ->
     0 <= row < Z.of_nat (GetNumElements v) /\
     exists i, indices_ v !! Z.to_nat row = Some i /\ functions_ v !! i = Some function).
Proof.
  split; [|split].
  - unfold HasCaptureData, GetValue. destruct (capture_data app); [discriminate|reflexivity].
  - intros Hrow. unfold GetValue. destruct (capture_data app); [|reflexivity].
    replace (row >=? Z.of_nat (GetNumElements v)) with true; [reflexivity|].
    symmetry. apply Z.geb_le. exact Hrow.
  - intros function E. unfold GetSelectedFunction, at_int in E.
    destruct (row <? Z.of_nat (length (functions_ v))); simpl in E; [|discriminate].
    destruct (Z.ltb_spec row 0) as [Hneg|Hpos]; [discriminate|].
    destruct (indices_ v !! Z.to_nat row) as [i|] eqn:Ei.
    + rewrite (proj2 (at_index_Ok _ _ _) Ei) in E. simpl in E. apply at_index_Ok in E.
      split; [|exists i; split; [reflexivity|exact E]].
      apply lookup_lt_Some in Ei. unfold GetNumElements. lia.
    + unfold at_index in E. rewrite Ei in E. discriminate.
Qed.

End CellValues.

(** Without capture data the cell of row 0 is the empty string; with the
    rows [[1]] over two tracked functions, row 0 selects the second one. *)
Lemma GetValue_returns_empty_string_instead_of_failing_witness :
  HasCaptureData app_without_capture = false /\
  @GetValue sample_helpers app_without_capture (sample_view [] [] "") 0 1 = Ok "" /\
  GetSelectedFunction (sample_view [fn_foobar; fn_render] [1%nat] "render") 0 = Ok fn_render /\
  0 <= 0 < Z.of_nat (GetNumElements (sample_view [fn_foobar; fn_render] [1%nat] "render")) /\
  exists i, [1%nat] !! Z.to_nat 0 = Some i /\ [fn_foobar; fn_render] !! i = Some fn_render.
Proof.
  split; [reflexivity|]. split.
  - apply (proj1 (@GetValue_returns_empty_string_instead_of_failing sample_helpers
                    app_without_capture (sample_view [] [] "") 0 1)).
    reflexivity.
  - split; [reflexivity|].
    apply (proj2 (proj2 (@GetValue_returns_empty_string_instead_of_failing sample_helpers
                    app_without_capture
                    (sample_view [fn_foobar; fn_render] [1%nat] "render") 0 1))).
    reflexivity.
Defined.

(** C6 as stated fails on [GetValue]: asked for a cell before any capture
    data exists, and asked for row 5 of a one-row table, it returns the empty
    string where the claim has it fail. *)
Lemma GetValue_returns_sentinel_counterexample :
  HasCaptureData app_without_capture = false /\
  @GetValue sample_helpers app_without_capture (sample_view [] [] "") 0 1 = Ok "" /\
  GetNumElements (sample_view [fn_foobar] [0%nat] "") = 1%nat /\
  @GetValue sample_helpers (sample_app [] false) (sample_view [fn_foobar] [0%nat] "") 5 1
    = Ok "" /\
  @GetValue sample_helpers (sample_app [] false) (sample_view [fn_foobar] [0%nat] "") 0 1
    = Ok "FooBar".
Proof. repeat split; reflexivity. Qed.

(** ** Jumping to the first and the last call *)

(** C9. With capture data present and one item selected, the action
    "Jump to first" asks the time graph for the next call of the selected
    function's absolute address after timestamp 0, the lowest [uint64_t],
    and "Jump to last" asks for the previous call of the same address
    before the highest [uint64_t]; each query carries nothing but the
    address and the bound, and the box found, if any, is selected and
    zoomed to. *)
Theorem OnContextMenu_jump_queries_extreme_timestamps
    (app : OrbitApp) (time_graph : TimeGraph) (v : LiveFunctionsDataView) (cd : CaptureData)
    (menu_index i : Z) (function : FunctionInfo) :
  capture_data app = Some cd ->
  GetSelectedFunction v (to_unsigned i) = Ok function ->
  let function_address := GetAbsoluteAddress cd function in
  OnContextMenu app time_graph v kMenuActionJumpToFirst menu_index [i]
    = Ok (CallFindNextFunctionCall function_address uint64_lowest
            :: select_and_zoom_if (FindNextFunctionCall time_graph function_address uint64_lowest)) /\
  OnContextMenu app time_graph v kMenuActionJumpToLast menu_index [i]
    = Ok (CallFindPreviousFunctionCall function_address uint64_max
            :: select_and_zoom_if (FindPreviousFunctionCall time_graph function_address uint64_max)) /\
  (forall t, is_uint64 t -> uint64_lowest <= t <= uint64_max) /\
  is_uint64 uint64_lowest /\ is_uint64 uint64_max.
Proof.
  intros Ecd Ef function_address. split; [|split; [|split; [|split]]].
  - unfold OnContextMenu, GetCaptureData, the_single_function. rewrite Ecd. simpl.
    rewrite Ef. reflexivity.
  - unfold OnContextMenu, GetCaptureData, the_single_function. rewrite Ecd. simpl.
    rewrite Ef. reflexivity.
  - unfold is_uint64, uint64_lowest, uint64_max. intros t Ht. lia.
  - unfold is_uint64, uint64_lowest, uint64_modulus. lia.
  - unfold is_uint64, uint64_max, uint64_modulus. lia.
Qed.

Lemma OnContextMenu_jump_queries_extreme_timestamps_witness :
  capture_data (sample_app [] false) = Some (sample_capture []) /\
  GetSelectedFunction (sample_view [fn_foobar] [0%nat] "") (to_unsigned 0) = Ok fn_foobar /\
  OnContextMenu (sample_app [] false) sample_time_graph (sample_view [fn_foobar] [0%nat] "")
    kMenuActionJumpToFirst 0 [0]
    = Ok [CallFindNextFunctionCall 8192 0] /\
  OnContextMenu (sample_app [] false) sample_time_graph (sample_view [fn_foobar] [0%nat] "")
    kMenuActionJumpToLast 0 [0]
    = Ok [CallFindPreviousFunctionCall 8192 18446744073709551615].
Proof.
  pose proof (OnContextMenu_jump_queries_extreme_timestamps
                (sample_app [] false) sample_time_graph (sample_view [fn_foobar] [0%nat] "")
                (sample_capture []) 0 0 fn_foobar eq_refl eq_refl) as (Hfirst & Hlast & _).
  split; [reflexivity|]. split; [reflexivity|]. split; [exact Hfirst|exact Hlast].
Defined.

(** ** More on sorting *)

(** A sorted list is a fixed point of the stable sort. *)
Lemma stable_sort_of_sorted {A : Type} (less : A -> A -> bool) (l : list A) :
  StronglySorted (fun u w => less w u = false) l -> stable_sort less l = l.
Proof.
  induction 1 as [|x l Hs IH Hx]; simpl; [reflexivity|].
  rewrite IH. destruct l as [|y l]; simpl; [reflexivity|].
  inversion Hx as [|? ? Hy _]; subst. now rewrite Hy.
Qed.

Lemma StronglySorted_lookup {A : Type} (R : A -> A -> Prop) (l : list A) :
  StronglySorted R l ->
  forall i j a b, (i < j)%nat -> l !! i = Some a -> l !! j = Some b -> R a b.
Proof.
  induction 1 as [|x l Hs IH Hx]; intros i j a b Hij Ei Ej; [discriminate|].
  destruct j as [|j]; [lia|]. simpl in Ej. destruct i as [|i]; simpl in Ei.
  - injection Ei as <-. rewrite Forall_forall in Hx. apply Hx.
    apply list_elem_of_lookup. eauto.
  - apply (IH i j); [lia|assumption|assumption].
Qed.

Lemma rows_readable_perm (functions : list FunctionInfo) (l l' : list nat) :
  Permutation l l' -> rows_readable functions l = rows_readable functions l'.
Proof.
  intros Hp. unfold rows_readable. rewrite (Permutation_length Hp). f_equal.
  apply eq_true_iff_eq. rewrite !forallb_forall. split; intros Hall x Hx; apply Hall.
  - eapply Permutation_in; [symmetry; exact Hp|exact Hx].
  - eapply Permutation_in; [exact Hp|exact Hx].
Qed.

Section MoreSorting.
Context `{Helpers}.

Lemma sorter_of_column (app : OrbitApp) (cd : CaptureData) (functions : list FunctionInfo)
    (ascending : bool) (sorting_column : Z) (sorter : nat -> nat -> bool) :
  sorter_of app cd functions ascending sorting_column = Some sorter ->
  exists column, column_of_int sorting_column = Some column.
Proof.
  unfold sorter_of. destruct (column_of_int sorting_column) as [column|]; [eauto|discriminate].
Qed.

(** When [DoSort] has sorted, the rows were readable. *)
Lemma DoSort_sorted_inv (app : OrbitApp) (v v' : LiveFunctionsDataView) (cd : CaptureData)
    (order : SortingOrder) (sorter : nat -> nat -> bool) :
  capture_data app = Some cd ->
  at_int (sorting_orders_ v) (sorting_column_ v) = Ok order ->
  sorter_of app cd (functions_ v) (SortingOrder_eqb order kAscending) (sorting_column_ v)
    = Some sorter ->
  DoSort app v = Ok v' ->
  rows_readable (functions_ v) (indices_ v) = true /\
  v' = set_indices v (stable_sort sorter (indices_ v)).
Proof.
  intros Ecd Eo Es. unfold DoSort. rewrite Ecd, Eo. simpl. rewrite Es.
  destruct (rows_readable (functions_ v) (indices_ v)); [|discriminate].
  intros [= <-]. auto.
Qed.

(** X1. When [DoSort] returns after sorting with the comparator of the
    current column and direction, the rows are a rearrangement of the rows
    it was given and no row compares less than a row that stands before it;
    the tracked functions, the filter text and the sort settings are
    untouched. *)
Theorem DoSort_rearranges_rows_into_comparator_order
    (app : OrbitApp) (v v' : LiveFunctionsDataView) (cd : CaptureData)
    (order : SortingOrder) (sorter : nat -> nat -> bool) :
  capture_data app = Some cd ->
  at_int (sorting_orders_ v) (sorting_column_ v) = Ok order ->
  sorter_of app cd (functions_ v) (SortingOrder_eqb order kAscending) (sorting_column_ v)
    = Some sorter ->
  DoSort app v = Ok v' ->
  Permutation (indices_ v') (indices_ v) /\
  (forall i j a b, (i < j)%nat ->
     indices_ v' !! i = Some a -> indices_ v' !! j = Some b -> sorter b a = false) /\
  functions_ v' = functions_ v /\ filter_ v' = filter_ v /\
  sorting_column_ v' = sorting_column_ v /\ sorting_orders_ v' = sorting_orders_ v.
Proof.
  intros Ecd Eo Es E.
  destruct (DoSort_sorted_inv app v v' cd order sorter Ecd Eo Es E) as [_ ->].
  cbn [functions_ indices_ filter_ sorting_column_ sorting_orders_ set_indices].
  split; [apply stable_sort_perm|]. split; [|auto].
  destruct (sorter_of_column _ _ _ _ _ _ Es) as [column Ecol].
  destruct (sorter_of_sort_key app cd (functions_ v) (SortingOrder_eqb order kAscending)
              (sorting_column_ v) column Ecol) as (sorter' & Es' & _ & Hasym & Htrans & _).
  rewrite Es in Es'. injection Es' as <-.
  intros i j a b Hij Ei Ej.
  exact (StronglySorted_lookup _ _ (stable_sort_sorted sorter Hasym Htrans (indices_ v))
           i j a b Hij Ei Ej).
Qed.

(** X2. Sorting is idempotent: when [DoSort] returns, running it again on
    the result returns the same view. *)
Theorem DoSort_twice_is_DoSort_once (app : OrbitApp) (v v' : LiveFunctionsDataView) :
  DoSort app v = Ok v' -> DoSort app v' = Ok v'.
Proof.
  intros E. pose proof E as E0.
  apply DoSort_inv in E as [[-> _]|(cd & order & column & sorter & Ecd & Eo & Ecol & Es & ->)];
    [exact E0|].
  destruct (DoSort_sorted_inv app v _ cd order sorter Ecd Eo Es E0) as [Er _].
  destruct (sorter_of_sort_key app cd (functions_ v) (SortingOrder_eqb order kAscending)
              (sorting_column_ v) column Ecol) as (sorter' & Es' & _ & Hasym & Htrans & _).
  rewrite Es in Es'. injection Es' as <-.
  unfold DoSort. cbn [functions_ indices_ sorting_column_ sorting_orders_ set_indices].
  rewrite Ecd, Eo. simpl. rewrite Es.
  rewrite (rows_readable_perm (functions_ v) _ (indices_ v) (stable_sort_perm sorter _)), Er.
  rewrite (stable_sort_of_sorted sorter _ (stable_sort_sorted sorter Hasym Htrans _)).
  reflexivity.
Qed.

(** X3. Every comparator [DoSort] builds, for any column and either
    direction, is a strict weak ordering, which is what [std::stable_sort]
    requires of it: no row is less than itself, two rows are never less than
    each other, "less" is transitive and so is "compares equal". *)
Theorem DoSort_comparator_is_strict_weak_ordering
    (app : OrbitApp) (cd : CaptureData) (functions : list FunctionInfo)
    (ascending : bool) (sorting_column : Z) (sorter : nat -> nat -> bool) :
  sorter_of app cd functions ascending sorting_column = Some sorter ->
  (forall a, sorter a a = false) /\
  (forall a b, sorter a b = true -> sorter b a = false) /\
  (forall a b c, sorter a b = true -> sorter b c = true -> sorter a c = true) /\
  (forall a b c, compare_equal sorter a b -> compare_equal sorter b c ->
     compare_equal sorter a c).
Proof.
  intros Es. destruct (sorter_of_column _ _ _ _ _ _ Es) as [column Ecol].
  destruct (sorter_of_sort_key app cd functions ascending sorting_column column Ecol)
    as (sorter' & Es' & _ & Hasym & Htrans & Heq).
  rewrite Es in Es'. injection Es' as <-.
  split; [|split; [exact Hasym|split]].
  - intros a. destruct (sorter a a) eqn:E; [|reflexivity].
    pose proof (Hasym a a E). congruence.
  - intros a b c Hab Hbc. destruct (sorter a c) eqn:Hac; [reflexivity|].
    pose proof (Htrans c a b Hac (Hasym a b Hab)). congruence.
  - intros a b c Hab Hbc. apply Heq. apply Heq in Hab, Hbc. congruence.
Qed.

End MoreSorting.

Lemma DoSort_rearranges_rows_into_comparator_order_witness :
  Permutation [0; 2; 1]%nat [1; 0; 2]%nat /\
  (forall i j a b, (i < j)%nat ->
     [0; 2; 1]%nat !! i = Some a -> [0; 2; 1]%nat !! j = Some b ->
     @ORBIT_STAT_SORT (sample_capture []) count [fn_foobar; fn_render; fn_foobar] false b a
       = false).
Proof.
  pose proof (@DoSort_rearranges_rows_into_comparator_order sample_helpers
                (sample_app [] false)
                (sample_view [fn_foobar; fn_render; fn_foobar] [1; 0; 2]%nat "")
                (sample_view [fn_foobar; fn_render; fn_foobar] [0; 2; 1]%nat "")
                (sample_capture []) kDescending
                (ORBIT_STAT_SORT (sample_capture []) count
                   [fn_foobar; fn_render; fn_foobar] false)
                eq_refl eq_refl eq_refl eq_refl) as (Hp & Hs & _).
  split; [exact Hp|exact Hs].
Defined.

Lemma DoSort_twice_is_DoSort_once_witness :
  @DoSort sample_helpers (sample_app [] false)
    (sample_view [fn_foobar; fn_render; fn_foobar] [1; 0; 2]%nat "")
    = Ok (sample_view [fn_foobar; fn_render; fn_foobar] [0; 2; 1]%nat "") /\
  @DoSort sample_helpers (sample_app [] false)
    (sample_view [fn_foobar; fn_render; fn_foobar] [0; 2; 1]%nat "")
    = Ok (sample_view [fn_foobar; fn_render; fn_foobar] [0; 2; 1]%nat "").
Proof.
  split; [reflexivity|].
  apply (@DoSort_twice_is_DoSort_once sample_helpers (sample_app [] false)
           (sample_view [fn_foobar; fn_render; fn_foobar] [1; 0; 2]%nat "")).
  reflexivity.
Defined.

Lemma DoSort_comparator_is_strict_weak_ordering_witness :
  @sorter_of sample_helpers (sample_app [] false) (sample_capture [])
    [fn_foobar; fn_render] false 1
    = Some (ORBIT_CUSTOM_FUNC_SORT string_ltb name [fn_foobar; fn_render] false) /\
  (forall a, ORBIT_CUSTOM_FUNC_SORT string_ltb name [fn_foobar; fn_render] false a a = false).
Proof.
  split; [reflexivity|].
  apply (@DoSort_comparator_is_strict_weak_ordering sample_helpers (sample_app [] false)
           (sample_capture []) [fn_foobar; fn_render] false 1
           (ORBIT_CUSTOM_FUNC_SORT string_ltb name [fn_foobar; fn_render] false)).
  reflexivity.
Defined.

(** ** More on filtering *)

Lemma ToLower_append (a b : string) :
  ToLower (String.append a b) = String.append (ToLower a) (ToLower b).
Proof.
  induction a as [|c a IH]; [reflexivity|].
  rewrite append_cons. simpl. now rewrite IH, append_cons.
Qed.

Lemma StrSplit_append (a b : string) (d : ascii) :
  StrSplit (String.append a (String d b)) d = StrSplit a d ++ StrSplit b d.
Proof.
  induction a as [|c a IH].
  - rewrite append_empty_l. simpl. now rewrite Ascii.eqb_refl.
  - rewrite append_cons. cbn [StrSplit]. rewrite IH.
    destruct (Ascii.eqb c d); [reflexivity|].
    pose proof (StrSplit_not_nil a d) as Hne.
    destruct (StrSplit a d) as [|tok rest]; [congruence|reflexivity].
Qed.

Lemma match_tokens_app (name : string) (l1 l2 : list string) :
  match_tokens name (l1 ++ l2) = match_tokens name l1 && match_tokens name l2.
Proof.
  induction l1 as [|t l1 IH]; simpl; [reflexivity|].
  destruct (find name t); [exact IH|reflexivity].
Qed.

Section MoreFiltering.
Context `{Helpers}.

(** X4. After [DoFilter] with capture data present, the visible rows are
    strictly increasing positions of tracked functions, so no function is
    shown twice and there are no more rows than tracked functions; and
    [GetSelectedFunction] succeeds on every visible row, with a function the
    filter keeps. *)
Theorem DoFilter_rows_select_kept_functions
    (app : OrbitApp) (v : LiveFunctionsDataView) (cd : CaptureData) :
  capture_data app = Some cd ->
  exists v' issued,
    DoFilter app v = Ok (v', issued) /\
    (GetNumElements v' <= length (functions_ v'))%nat /\
    StronglySorted lt (indices_ v') /\
    NoDup (indices_ v') /\
    forall row, (row < GetNumElements v')%nat ->
      exists i f,
        indices_ v' !! row = Some i /\ functions_ v' !! i = Some f /\
        GetSelectedFunction v' (Z.of_nat row) = Ok f /\
        kept_by_filter (filter_ v) f.
Proof.
  intros Ecd. destruct (DoFilter_result app v cd Ecd) as (visible & E & _).
  eexists _, _. split; [exact E|].
  unfold GetNumElements. cbn [functions_ indices_ set_indices].
  set (tokens := StrSplit (ToLower (filter_ v)) " ").
  pose proof (filter_loop_increasing tokens (functions_ v) 0) as Hinc.
  split; [apply filter_loop_length|]. split; [exact Hinc|]. split.
  - clear -Hinc. induction Hinc as [|x l Hs IH Hx]; constructor; [|exact IH].
    intros Hin. rewrite Forall_forall in Hx. specialize (Hx x Hin). lia.
  - intros row Hrow.
    destruct (GetSelectedFunction_filtered v tokens row Hrow) as (i & f & Ei & Ef & Es).
    exists i, f. repeat split; try assumption.
    assert (Hin : In i (filter_loop tokens (functions_ v) 0))
      by (apply list_elem_of_In, list_elem_of_lookup; eauto).
    apply filter_loop_In in Hin as (_ & f' & Ef' & M). rewrite Nat.sub_0_r in Ef'.
    rewrite Ef in Ef'. injection Ef' as <-. now apply match_tokens_kept.
Qed.

(** X5. [DoFilter] recomputes the rows from the tracked functions and the
    filter text alone: whatever rows the view held before, the result is
    the same, and filtering the result again changes nothing and issues the
    same command. *)
Theorem DoFilter_recomputes_rows_from_scratch
    (app : OrbitApp) (v v' : LiveFunctionsDataView) (issued : list Effect) :
  DoFilter app v = Ok (v', issued) ->
  DoFilter app v' = Ok (v', issued) /\
  (capture_data app <> None ->
   forall rows, DoFilter app (set_indices v rows) = Ok (v', issued)).
Proof.
  unfold DoFilter. destruct (capture_data app) as [cd|] eqn:Ecd.
  - cbn [functions_ indices_ filter_ set_indices].
    destruct (visible_loop cd _ _ ∅) as [visible| |] eqn:Ev; simpl; try discriminate.
    intros [= <- <-]. cbn [functions_ indices_ filter_ set_indices].
    split; [|intros _ rows]; unfold set_indices in *; cbn in *; now rewrite Ev.
  - destruct (length (functions_ v) =? 0)%nat eqn:El; simpl; [|discriminate].
    intros [= <- <-]. rewrite El. simpl. split; [reflexivity|congruence].
Qed.

Lemma DoFilter_rows (app : OrbitApp) (v : LiveFunctionsDataView) (cd : CaptureData) :
  capture_data app = Some cd ->
  exists v' issued,
    DoFilter app v = Ok (v', issued) /\
    forall i, In i (indices_ v') <->
      exists f, functions_ v !! i = Some f /\
        match_tokens (ToLower (GetDisplayName f)) (StrSplit (ToLower (filter_ v)) " ") = true.
Proof.
  intros Ecd. destruct (DoFilter_result app v cd Ecd) as (visible & E & _).
  eexists _, _. split; [exact E|]. cbn [indices_ set_indices].
  intros i. rewrite filter_loop_In, Nat.sub_0_r. split.
  - intros (_ & f & Ef & M). eauto.
  - intros (f & Ef & M). split; [lia|eauto].
Qed.

(** X6. Joining two filter texts with a space intersects their results: a
    row is visible under "f1 f2" exactly when it is visible under f1 and
    under f2. In particular, adding a word to the filter never adds a row. *)
Theorem DoFilter_of_joined_filters_intersects_rows
    (app : OrbitApp) (v : LiveFunctionsDataView) (cd : CaptureData) (f1 f2 : string) :
  capture_data app = Some cd ->
  exists v1 v2 v12 o1 o2 o12,
    DoFilter app (set_filter v f1) = Ok (v1, o1) /\
    DoFilter app (set_filter v f2) = Ok (v2, o2) /\
    DoFilter app (set_filter v (String.append f1 (String " " f2))) = Ok (v12, o12) /\
    forall i, In i (indices_ v12) <-> In i (indices_ v1) /\ In i (indices_ v2).
Proof.
  intros Ecd.
  destruct (DoFilter_rows app (set_filter v f1) cd Ecd) as (v1 & o1 & E1 & H1).
  destruct (DoFilter_rows app (set_filter v f2) cd Ecd) as (v2 & o2 & E2 & H2).
  destruct (DoFilter_rows app (set_filter v (String.append f1 (String " " f2))) cd Ecd)
    as (v12 & o12 & E12 & H12).
  exists v1, v2, v12, o1, o2, o12.
  split; [exact E1|]. split; [exact E2|]. split; [exact E12|].
  intros i. split; [intros Hi; split|].
  - apply H1. apply H12 in Hi as (f & Ef & M). exists f. split; [exact Ef|].
    cbn [filter_ set_filter] in *.
    rewrite ToLower_append in M. change (ToLower (String " " f2)) with (String " " (ToLower f2)) in M.
    rewrite StrSplit_append, match_tokens_app in M. now apply andb_true_iff in M.
  - apply H2. apply H12 in Hi as (f & Ef & M). exists f. split; [exact Ef|].
    cbn [filter_ set_filter] in *.
    rewrite ToLower_append in M. change (ToLower (String " " f2)) with (String " " (ToLower f2)) in M.
    rewrite StrSplit_append, match_tokens_app in M. now apply andb_true_iff in M.
  - intros [Hi1 Hi2]. apply H12. apply H1 in Hi1 as (f & Ef & M1).
    apply H2 in Hi2 as (f' & Ef' & M2). cbn [functions_ filter_ set_filter] in *.
    rewrite Ef in Ef'. injection Ef' as <-. exists f. split; [exact Ef|].
    rewrite ToLower_append. change (ToLower (String " " f2)) with (String " " (ToLower f2)).
    rewrite StrSplit_append, match_tokens_app. now rewrite M1, M2.
Qed.

(** X7. Rebuilding the rows and then filtering with the empty filter text
    shows every tracked function once, in order, also when Orbit's own
    functions were excluded: the filter replaces the rows [OnDataChanged]
    built. *)
Theorem DoFilter_after_OnDataChanged_shows_every_tracked_function
    (app : OrbitApp) (v : LiveFunctionsDataView) (cd : CaptureData) :
  capture_data app = Some cd ->
  filter_ v = "" ->
  exists v1 v2 issued,
    OnDataChanged app v = Ok v1 /\
    DoFilter app v1 = Ok (v2, issued) /\
    functions_ v2 = map snd (List.filter (fun entry => negb (IsOrbitFunc (snd entry)))
                               (selected_functions cd)) /\
    indices_ v2 = seq 0 (length (functions_ v2)).
Proof.
  intros Ecd Hf. rewrite (OnDataChanged_result app v cd Ecd).
  eexists. destruct (DoFilter_result app
    (set_indices (set_functions v (map snd (List.filter
       (fun entry => negb (IsOrbitFunc (snd entry))) (selected_functions cd))))
       (seq 0 (length (map snd (List.filter
          (fun entry => negb (IsOrbitFunc (snd entry))) (selected_functions cd)))) ++
        replicate (length (selected_functions cd) - length (map snd (List.filter
          (fun entry => negb (IsOrbitFunc (snd entry))) (selected_functions cd)))) 0%nat))
    cd Ecd) as (visible & E & _).
  eexists _, _. split; [reflexivity|]. split; [exact E|].
  cbn [functions_ indices_ filter_ set_indices set_functions].
  split; [reflexivity|]. rewrite Hf. apply filter_loop_all.
  intros f _. simpl. rewrite find_unfold. reflexivity.
Qed.

End MoreFiltering.

Lemma DoFilter_rows_select_kept_functions_witness :
  capture_data (sample_app [] false) = Some (sample_capture []) /\
  exists v' issued,
    @DoFilter sample_helpers (sample_app [] false)
      (sample_view [fn_foobar; fn_render] [] "r") = Ok (v', issued) /\
    (GetNumElements v' <= length (functions_ v'))%nat /\
    StronglySorted lt (indices_ v') /\
    NoDup (indices_ v') /\
    forall row, (row < GetNumElements v')%nat ->
      exists i f,
        indices_ v' !! row = Some i /\ functions_ v' !! i = Some f /\
        GetSelectedFunction v' (Z.of_nat row) = Ok f /\
        @kept_by_filter sample_helpers "r" f.
Proof.
  split; [reflexivity|].
  apply (@DoFilter_rows_select_kept_functions sample_helpers (sample_app [] false)
           (sample_view [fn_foobar; fn_render] [] "r") (sample_capture [])).
  reflexivity.
Defined.

Lemma DoFilter_recomputes_rows_from_scratch_witness :
  exists v' issued,
    @DoFilter sample_helpers (sample_app [] false)
      (sample_view [fn_foobar; fn_render] [] "render") = Ok (v', issued) /\
    indices_ v' = [1%nat] /\
    @DoFilter sample_helpers (sample_app [] false) v' = Ok (v', issued).
Proof.
  eexists _, _. split; [vm_compute; reflexivity|]. split; [reflexivity|].
  refine (proj1 (@DoFilter_recomputes_rows_from_scratch sample_helpers (sample_app [] false)
                   (sample_view [fn_foobar; fn_render] [] "render") _ _ _)).
  vm_compute. reflexivity.
Defined.

Lemma DoFilter_of_joined_filters_intersects_rows_witness :
  capture_data (sample_app [] false) = Some (sample_capture []) /\
  exists v1 v2 v12 o1 o2 o12,
    @DoFilter sample_helpers (sample_app [] false)
      (set_filter (sample_view [fn_foobar; fn_render] [] "") "r") = Ok (v1, o1) /\
    @DoFilter sample_helpers (sample_app [] false)
      (set_filter (sample_view [fn_foobar; fn_render] [] "") "foo") = Ok (v2, o2) /\
    @DoFilter sample_helpers (sample_app [] false)
      (set_filter (sample_view [fn_foobar; fn_render] [] "")
         (String.append "r" (String " " "foo"))) = Ok (v12, o12) /\
    forall i, In i (indices_ v12) <-> In i (indices_ v1) /\ In i (indices_ v2).
Proof.
  split; [reflexivity|].
  apply (@DoFilter_of_joined_filters_intersects_rows sample_helpers (sample_app [] false)
           (sample_view [fn_foobar; fn_render] [] "") (sample_capture []) "r" "foo").
  reflexivity.
Defined.

Lemma DoFilter_after_OnDataChanged_shows_every_tracked_function_witness :
  capture_data (sample_app [(4096, fn_orbit); (8192, fn_foobar)] false)
    = Some (sample_capture [(4096, fn_orbit); (8192, fn_foobar)]) /\
  exists v1 v2 issued,
    @OnDataChanged sample_helpers (sample_app [(4096, fn_orbit); (8192, fn_foobar)] false)
      (sample_view [] [] "") = Ok v1 /\
    @DoFilter sample_helpers (sample_app [(4096, fn_orbit); (8192, fn_foobar)] false) v1
      = Ok (v2, issued) /\
    functions_ v2 = [fn_foobar] /\
    indices_ v2 = seq 0 (length (functions_ v2)).
Proof.
  split; [reflexivity|].
  apply (@DoFilter_after_OnDataChanged_shows_every_tracked_function sample_helpers
           (sample_app [(4096, fn_orbit); (8192, fn_foobar)] false) (sample_view [] [] "")
           (sample_capture [(4096, fn_orbit); (8192, fn_foobar)]));
    reflexivity.
Defined.

(** ** More on rebuilding and reading rows *)

Lemma to_unsigned_small (row : Z) : 0 <= row < uint32_modulus -> to_unsigned row = row.
Proof. intros Hr. unfold to_unsigned. now apply Z.mod_small. Qed.

Section MoreRows.
Context `{Helpers}.

(** The state [DoFilter] leaves, row by row. *)
Lemma DoFilter_row_selects (app : OrbitApp) (v : LiveFunctionsDataView) (cd : CaptureData) :
  capture_data app = Some cd ->
  exists v' issued,
    DoFilter app v = Ok (v', issued) /\
    functions_ v' = functions_ v /\
    (GetNumElements v' <= length (functions_ v))%nat /\
    forall row, (row < GetNumElements v')%nat ->
      exists f, GetSelectedFunction v' (Z.of_nat row) = Ok f /\
                In f (functions_ v) /\ kept_by_filter (filter_ v) f.
Proof.
  intros Ecd. destruct (DoFilter_result app v cd Ecd) as (visible & E & _).
  eexists _, _. split; [exact E|]. unfold GetNumElements.
  cbn [functions_ indices_ set_indices]. split; [reflexivity|].
  set (tokens := StrSplit (ToLower (filter_ v)) " ").
  split; [apply filter_loop_length|]. intros row Hrow.
  destruct (GetSelectedFunction_filtered v tokens row Hrow) as (i & f & Ei & Ef & Es).
  exists f. split; [exact Es|]. split; [apply lookup_In_functions; eauto|].
  assert (Hin : In i (filter_loop tokens (functions_ v) 0))
    by (apply list_elem_of_In, list_elem_of_lookup; eauto).
  apply filter_loop_In in Hin as (_ & f' & Ef' & M). rewrite Nat.sub_0_r in Ef'.
  rewrite Ef in Ef'. injection Ef' as <-. now apply match_tokens_kept.
Qed.

(** X8. [OnDataChanged] always returns. It keeps the filter text and the
    sort settings, and its result does not depend on the functions and rows
    the view held before, so running it again changes nothing. Without
    capture data the view is left empty. With capture data the tracked
    functions are the selected functions that [IsOrbitFunc] rejects, in
    iteration order; there are as many rows as selected functions, the rows
    below the number of tracked functions are the identity, and the rows
    from there on are 0. *)
Theorem OnDataChanged_rebuilds_from_selected_functions
    (app : OrbitApp) (v : LiveFunctionsDataView) :
  exists v',
    OnDataChanged app v = Ok v' /\
    filter_ v' = filter_ v /\
    sorting_column_ v' = sorting_column_ v /\
    sorting_orders_ v' = sorting_orders_ v /\
    (forall functions rows,
       OnDataChanged app (set_indices (set_functions v functions) rows) = Ok v') /\
    OnDataChanged app v' = Ok v' /\
    match capture_data app with
    | None => functions_ v' = [] /\ indices_ v' = []
    | Some cd =>
        let kept := map snd (List.filter (fun entry => negb (IsOrbitFunc (snd entry)))
                               (selected_functions cd)) in
        functions_ v' = kept /\
        length (indices_ v') = length (selected_functions cd) /\
        (forall r, (r < length kept)%nat -> indices_ v' !! r = Some r) /\
        (forall r, (length kept <= r < length (selected_functions cd))%nat ->
           indices_ v' !! r = Some 0%nat)
    end.
Proof.
  destruct (capture_data app) as [cd|] eqn:Ecd.
  - eexists. split; [apply (OnDataChanged_result app v cd Ecd)|].
    cbn [functions_ indices_ filter_ sorting_column_ sorting_orders_ set_indices set_functions].
    split; [reflexivity|]. split; [reflexivity|]. split; [reflexivity|].
    split; [intros functions rows;
            exact (OnDataChanged_result app (set_indices (set_functions v functions) rows)
                     cd Ecd)|].
    split; [exact (OnDataChanged_result app (set_indices (set_functions v _) _) cd Ecd)|].
    cbv zeta.
    set (kept := map snd (List.filter (fun entry => negb (IsOrbitFunc (snd entry)))
                            (selected_functions cd))).
    assert (Hle : (length kept <= length (selected_functions cd))%nat).
    { subst kept. rewrite length_map. apply filter_length_le. }
    split; [reflexivity|]. split; [|split].
    + rewrite length_app, length_seq, length_replicate. lia.
    + intros r Hr. rewrite lookup_app_l by (rewrite length_seq; exact Hr).
      now rewrite lookup_seq_lt.
    + intros r Hr. rewrite lookup_app_r by (rewrite length_seq; lia).
      rewrite length_seq. apply lookup_replicate_2. lia.
  - exists (set_indices (set_functions v []) []).
    unfold OnDataChanged, rebuild_rows. rewrite Ecd. simpl.
    repeat split; reflexivity.
Qed.

(** X9. The three outcomes of [GetSelectedFunction] on an unsigned row: a
    function, when the row is below the number of tracked functions, the
    row's entry of [indices_] exists and is a position of [functions_]; a
    failed check, exactly when the row is not below the number of tracked
    functions; and an access outside a vector in every other case. *)
Theorem GetSelectedFunction_outcomes (v : LiveFunctionsDataView) (row : Z) :
  0 <= row ->
  (forall f, GetSelectedFunction v row = Ok f <->
     row < Z.of_nat (length (functions_ v)) /\
     exists i, indices_ v !! Z.to_nat row = Some i /\ functions_ v !! i = Some f) /\
  (GetSelectedFunction v row = CheckFailed <-> Z.of_nat (length (functions_ v)) <= row) /\
  (GetSelectedFunction v row = Undefined <->
     row < Z.of_nat (length (functions_ v)) /\
     (indices_ v !! Z.to_nat row = None \/
      exists i, indices_ v !! Z.to_nat row = Some i /\ functions_ v !! i = None)).
Proof.
  intros Hrow. unfold GetSelectedFunction, at_int, at_index.
  replace (row <? 0) with false by (symmetry; apply Z.ltb_ge; lia).
  destruct (Z.ltb_spec row (Z.of_nat (length (functions_ v)))) as [Hlt|Hge]; simpl.
  - destruct (indices_ v !! Z.to_nat row) as [i|] eqn:Ei; simpl.
    + destruct (functions_ v !! i) as [g|] eqn:Eg.
      * split; [|split].
        -- intros f. split.
           ++ intros [= <-]. split; [exact Hlt|]. eauto.
           ++ intros (_ & i' & [= <-] & Ef). congruence.
        -- split; [discriminate|lia].
        -- split; [discriminate|]. intros (_ & [E|(i' & [= <-] & E)]); congruence.
      * split; [|split].
        -- intros f. split; [discriminate|]. intros (_ & i' & [= <-] & Ef). congruence.
        -- split; [discriminate|lia].
        -- split; [|reflexivity]. intros _. split; [exact Hlt|]. right. eauto.
    + split; [|split].
      * intros f. split; [discriminate|]. intros (_ & i' & E & _). discriminate.
      * split; [discriminate|lia].
      * split; [|reflexivity]. intros _. split; [exact Hlt|]. now left.
  - split; [|split].
    + intros f. split; [discriminate|]. intros [Hlt _]. lia.
    + split; [intros _; exact Hge|reflexivity].
    + split; [discriminate|]. intros [Hlt _]. lia.
Qed.

(** X10. With capture data present, [GetValue] on a negative row does not
    return the empty string: the row passes the guard against the visible
    count, becomes a huge unsigned row and fails the check of
    [GetSelectedFunction]. *)
Theorem GetValue_fails_check_on_negative_row
    (app : OrbitApp) (v : LiveFunctionsDataView) (cd : CaptureData) (row column : Z) :
  capture_data app = Some cd ->
  - 2 ^ 31 <= row < 0 ->
  Z.of_nat (length (functions_ v)) < 2 ^ 31 ->
  GetValue app v row column = CheckFailed.
Proof.
  intros Ecd Hrow Hlen. unfold GetValue. rewrite Ecd.
  replace (row >=? Z.of_nat (GetNumElements v)) with false
    by (symmetry; rewrite Z.geb_leb; apply Z.leb_gt; lia).
  assert (E : GetSelectedFunction v (to_unsigned row) = CheckFailed).
  { apply GetSelectedFunction_CheckFailed_iff. unfold to_unsigned, uint32_modulus.
    replace (row mod 2 ^ 32) with (row + 2 ^ 32); [lia|].
    apply Z.mod_unique with (q := -1); lia. }
  now rewrite E.
Qed.

(** X11. After [DoFilter] with capture data present, [GetValue] returns a
    text for every row from 0 on and every column; for a visible row the
    name, module and address cells are those of one tracked function that
    the filter keeps. *)
Theorem GetValue_after_DoFilter_shows_kept_functions
    (app : OrbitApp) (v : LiveFunctionsDataView) (cd : CaptureData) :
  capture_data app = Some cd ->
  Z.of_nat (length (functions_ v)) < 2 ^ 31 ->
  exists v' issued,
    DoFilter app v = Ok (v', issued) /\
    forall row, 0 <= row ->
      (forall column, exists text, GetValue app v' row column = Ok text) /\
      (row < Z.of_nat (GetNumElements v') ->
       exists f, In f (functions_ v) /\ kept_by_filter (filter_ v) f /\
         GetValue app v' row (int_of_column kColumnName) = Ok (GetDisplayName f) /\
         GetValue app v' row (int_of_column kColumnModule) = Ok (loaded_module_path f) /\
         GetValue app v' row (int_of_column kColumnAddress)
           = Ok (StrFormat_0x_llx (GetAbsoluteAddress cd f))).
Proof.
  intros Ecd Hlen.
  destruct (DoFilter_row_selects app v cd Ecd) as (v' & issued & E & Hf & Hn & Hrows).
  exists v', issued. split; [exact E|]. intros row Hrow.
  destruct (Z.ltb_spec row (Z.of_nat (GetNumElements v'))) as [Hlt|Hge].
  - destruct (Hrows (Z.to_nat row)) as (f & Es & Hin & Hk); [lia|].
    rewrite Z2Nat.id in Es by exact Hrow.
    assert (Eu : to_unsigned row = row)
      by (apply to_unsigned_small; unfold uint32_modulus; lia).
    assert (Eg : (row >=? Z.of_nat (GetNumElements v')) = false)
      by (rewrite Z.geb_leb; apply Z.leb_gt; lia).
    split.
    + intros column. unfold GetValue. rewrite Ecd, Eg, Eu, Es. simpl.
      destruct (column_of_int column) as [[]|]; eauto.
    + intros _. exists f. split; [exact Hin|]. split; [exact Hk|].
      unfold GetValue. rewrite Ecd, Eg, Eu, Es. simpl. auto.
  - split; [|lia]. intros column. exists "". unfold GetValue. rewrite Ecd.
    replace (row >=? Z.of_nat (GetNumElements v')) with true; [reflexivity|].
    symmetry. apply Z.geb_le. lia.
Qed.

End MoreRows.

Lemma GetSelectedFunction_outcomes_witness :
  0 <= 1 /\
  (GetSelectedFunction (sample_view [fn_foobar; fn_render] [1%nat] "") 1 = Undefined <->
     1 < Z.of_nat (length [fn_foobar; fn_render]) /\
     ([1%nat] !! Z.to_nat 1 = None \/
      exists i, [1%nat] !! Z.to_nat 1 = Some i /\ [fn_foobar; fn_render] !! i = None)).
Proof.
  split; [lia|].
  apply (GetSelectedFunction_outcomes (sample_view [fn_foobar; fn_render] [1%nat] "") 1).
  lia.
Defined.

Lemma GetValue_fails_check_on_negative_row_witness :
  capture_data (sample_app [] false) = Some (sample_capture []) /\
  - 2 ^ 31 <= -1 < 0 /\
  Z.of_nat (length [fn_foobar]) < 2 ^ 31 /\
  @GetValue sample_helpers (sample_app [] false) (sample_view [fn_foobar] [0%nat] "") (-1) 1
    = CheckFailed.
Proof.
  split; [reflexivity|]. split; [lia|]. split; [simpl; lia|].
  apply (@GetValue_fails_check_on_negative_row sample_helpers (sample_app [] false)
           (sample_view [fn_foobar] [0%nat] "") (sample_capture []) (-1) 1);
    [reflexivity|lia|simpl; lia].
Defined.

Lemma GetValue_after_DoFilter_shows_kept_functions_witness :
  capture_data (sample_app [] false) = Some (sample_capture []) /\
  Z.of_nat (length [fn_foobar; fn_render]) < 2 ^ 31 /\
  exists v' issued,
    @DoFilter hex_helpers (sample_app [] false)
      (sample_view [fn_foobar; fn_render] [] "render") = Ok (v', issued) /\
    forall row, 0 <= row ->
      (forall column, exists text, @GetValue hex_helpers (sample_app [] false) v' row column
                                   = Ok text) /\
      (row < Z.of_nat (GetNumElements v') ->
       exists f, In f [fn_foobar; fn_render] /\ @kept_by_filter hex_helpers "render" f /\
         @GetValue hex_helpers (sample_app [] false) v' row (int_of_column kColumnName)
           = Ok (name f) /\
         @GetValue hex_helpers (sample_app [] false) v' row (int_of_column kColumnModule)
           = Ok (loaded_module_path f) /\
         @GetValue hex_helpers (sample_app [] false) v' row (int_of_column kColumnAddress)
           = Ok (HexString.of_Z (address f))).
Proof.
  split; [reflexivity|]. split; [simpl; lia|].
  apply (@GetValue_after_DoFilter_shows_kept_functions hex_helpers (sample_app [] false)
           (sample_view [fn_foobar; fn_render] [] "render") (sample_capture []));
    [reflexivity|simpl; lia].
Defined.

(** ** More on the shortest and the longest call *)

(** A running extreme that no later box beats stays in place. *)
Lemma track_keeps_unbeaten (address : Z) (betterb : Z -> Z -> bool) (b : TextBox)
    (l : list TextBox) :
  (forall x, In x l -> has_address address x ->
     betterb (elapsed_nanos x) (elapsed_nanos b) = false) ->
  foldl (track address betterb) (Some b) l = Some b.
Proof.
  induction l as [|x l IH]; intros Hall; simpl; [reflexivity|].
  unfold track at 2. destruct (function_address (GetTimerInfo x) =? address) eqn:Ex.
  - simpl. rewrite (Hall x); [|now left|now apply Z.eqb_eq].
    apply IH. intros y Hy. apply Hall. now right.
  - apply IH. intros y Hy. apply Hall. now right.
Qed.

Lemma track_skips_other_addresses (address : Z) (betterb : Z -> Z -> bool)
    (cur : option TextBox) (l : list TextBox) :
  (forall x, In x l -> ~ has_address address x) ->
  foldl (track address betterb) cur l = cur.
Proof.
  induction l as [|x l IH]; intros Hall; simpl; [reflexivity|].
  unfold track at 2. destruct (function_address (GetTimerInfo x) =? address) eqn:Ex.
  - exfalso. apply (Hall x); [now left|now apply Z.eqb_eq].
  - apply IH. intros y Hy. apply Hall. now right.
Qed.

(** X12. The two boxes [GetMinMax] returns are boxes of the timer chains,
    and they bound every call of the queried function: no box with that
    address lasts less than the first result or more than the second. *)
Theorem GetMinMax_results_bound_every_call
    (app : OrbitApp) (time_graph : TimeGraph) (cd : CaptureData) (function : FunctionInfo)
    (bmin bmax : TextBox) :
  capture_data app = Some cd ->
  GetMinMax app time_graph function = Ok (Some bmin, Some bmax) ->
  let scan := boxes_in_scan_order (GetAllThreadTrackTimerChains time_graph) in
  In bmin scan /\ In bmax scan /\
  forall x, In x scan -> has_address (GetAbsoluteAddress cd function) x ->
    duration bmin <= duration x <= duration bmax.
Proof.
  intros Ecd E scan.
  destruct (GetMinMax_result app time_graph cd function Ecd)
    as (min_box & max_box & E' & Hcases).
  rewrite E in E'. injection E' as <- <-. fold scan in Hcases.
  destruct Hcases as [(Hn & _)|(b1 & b2 & [= <-] & [= <-] & Hmin & Hmax)]; [discriminate|].
  split; [eapply first_extremal_In; eauto|]. split; [eapply first_extremal_In; eauto|].
  intros x Hx Hax. split.
  - eapply first_extremal_lt_le; eauto.
  - eapply first_extremal_gt_ge; eauto.
Qed.

(** X13. [GetMinMax] depends on the timer chains only through the sequence
    of their boxes: how the boxes are cut into blocks and threads, and
    where null chains stand, makes no difference. *)
Theorem GetMinMax_depends_on_scan_order_only
    (app : OrbitApp) (tg1 tg2 : TimeGraph) (function : FunctionInfo) :
  boxes_in_scan_order (GetAllThreadTrackTimerChains tg1)
    = boxes_in_scan_order (GetAllThreadTrackTimerChains tg2) ->
  GetMinMax app tg1 function = GetMinMax app tg2 function.
Proof.
  intros Escan. unfold GetMinMax. destruct (GetCaptureData app); simpl; [|reflexivity..].
  now rewrite !GetMinMax_scan_order, Escan.
Qed.

(** X14. When the calls of the queried function all last the same, the
    shortest and the longest call are one box: the first call in scan
    order. *)
Theorem GetMinMax_of_equal_durations_is_first_call
    (app : OrbitApp) (time_graph : TimeGraph) (cd : CaptureData) (function : FunctionInfo)
    (before after : list TextBox) (b : TextBox) :
  capture_data app = Some cd ->
  boxes_in_scan_order (GetAllThreadTrackTimerChains time_graph) = before ++ b :: after ->
  has_address (GetAbsoluteAddress cd function) b ->
  (forall x, In x before -> ~ has_address (GetAbsoluteAddress cd function) x) ->
  (forall x, In x after -> has_address (GetAbsoluteAddress cd function) x ->
     duration x = duration b) ->
  GetMinMax app time_graph function = Ok (Some b, Some b).
Proof.
  intros Ecd Escan Hb Hbefore Hafter. unfold GetMinMax, GetCaptureData. rewrite Ecd. simpl.
  rewrite GetMinMax_scan_order, visit_box_tracks, Escan, !foldl_app.
  rewrite (track_skips_other_addresses _ Z.ltb None before Hbefore),
          (track_skips_other_addresses _ Z.gtb None before Hbefore). simpl.
  unfold track at 2 4. rewrite (proj2 (Z.eqb_eq _ _) Hb). simpl.
  rewrite !track_keeps_unbeaten; [reflexivity| |].
  - intros x Hx Hax. specialize (Hafter x Hx Hax). unfold duration in Hafter.
    rewrite Hafter, Z.gtb_ltb. apply Z.ltb_irrefl.
  - intros x Hx Hax. specialize (Hafter x Hx Hax). unfold duration in Hafter.
    rewrite Hafter. apply Z.ltb_irrefl.
Qed.

Lemma GetMinMax_results_bound_every_call_witness :
  capture_data (sample_app [] false) = Some (sample_capture []) /\
  GetMinMax (sample_app [] false) sample_time_graph fn_foobar
    = Ok (Some (box 8192 5 5), Some (box 8192 10 50)) /\
  forall x, In x (boxes_in_scan_order sample_chains) -> has_address 8192 x ->
    duration (box 8192 5 5) <= duration x <= duration (box 8192 10 50).
Proof.
  split; [reflexivity|]. split; [reflexivity|].
  apply (GetMinMax_results_bound_every_call (sample_app [] false) sample_time_graph
           (sample_capture []) fn_foobar (box 8192 5 5) (box 8192 10 50) eq_refl eq_refl).
Defined.

Lemma GetMinMax_depends_on_scan_order_only_witness :
  boxes_in_scan_order sample_chains = boxes_in_scan_order sample_chains_regrouped /\
  GetMinMax (sample_app [] false) sample_time_graph fn_foobar
    = GetMinMax (sample_app [] false) sample_time_graph_regrouped fn_foobar.
Proof.
  split; [reflexivity|].
  apply (GetMinMax_depends_on_scan_order_only (sample_app [] false)
           sample_time_graph sample_time_graph_regrouped fn_foobar).
  reflexivity.
Defined.

Lemma GetMinMax_of_equal_durations_is_first_call_witness :
  GetMinMax (sample_app [] false)
    {| GetAllThreadTrackTimerChains :=
         [Some [[box 12288 0 9; box 8192 10 30]]; Some [[box 8192 50 70]]];
       FindNextFunctionCall := fun _ _ => None;
       FindPreviousFunctionCall := fun _ _ => None |} fn_foobar
    = Ok (Some (box 8192 10 30), Some (box 8192 10 30)).
Proof.
  apply (GetMinMax_of_equal_durations_is_first_call (sample_app [] false) _
           (sample_capture []) fn_foobar [box 12288 0 9] [box 8192 50 70] (box 8192 10 30)).
  - reflexivity.
  - reflexivity.
  - reflexivity.
  - intros x [<-|[]]. discriminate.
  - intros x [<-|[]] _. reflexivity.
Defined.

(** ** More on the context menu actions *)

Lemma for_each_rows (v : LiveFunctionsDataView) (body : Z -> outcome (list Effect))
    (g : FunctionInfo -> list Effect) (items : list Z) (fs : list FunctionInfo) :
  rows_select v items fs ->
  (forall i f, GetSelectedFunction v (to_unsigned i) = Ok f -> body i = Ok (g f)) ->
  for_each body items = Ok (flat_map g fs).
Proof.
  intros Hrows Hbody. induction Hrows as [|i f items fs Hi _ IH]; simpl; [reflexivity|].
  rewrite (Hbody i f Hi). simpl. rewrite IH. reflexivity.
Qed.

Lemma flat_map_singleton {A B : Type} (g : A -> B) (l : list A) :
  flat_map (fun x => [g x]) l = map g l.
Proof. induction l as [|x l IH]; simpl; [reflexivity|]. now rewrite IH. Qed.

Lemma flat_map_guarded {A B : Type} (p : A -> bool) (g : A -> B) (l : list A) :
  flat_map (fun x => if p x then [g x] else []) l = map g (List.filter p l).
Proof.
  induction l as [|x l IH]; simpl; [reflexivity|].
  rewrite IH. now destruct (p x).
Qed.

Lemma action_eqb_false (action k : string) : action <> k -> String.eqb action k = false.
Proof. intros Hne. now apply String.eqb_neq. Qed.

(** X15. With capture data present and rows that select functions, the
    list actions issue their commands once per selected function, in the
    order of the selection: "Hook" selects each function; "Unhook" deselects
    each function and then disables and removes its frame track; "Go to
    Disassembly" disassembles each function in the captured process;
    "Enable frame track(s)" first selects the function when the capture is
    connected, then enables and adds its frame track; "Disable frame
    track(s)" disables and removes it. *)
Theorem OnContextMenu_issues_commands_per_selected_function
    (app : OrbitApp) (time_graph : TimeGraph) (v : LiveFunctionsDataView) (cd : CaptureData)
    (menu_index : Z) (items : list Z) (fs : list FunctionInfo) :
  capture_data app = Some cd ->
  rows_select v items fs ->
  OnContextMenu app time_graph v kMenuActionSelect menu_index items
    = Ok (map SelectFunction fs) /\
  OnContextMenu app time_graph v kMenuActionUnselect menu_index items
    = Ok (flat_map (fun f => [DeselectFunction f; DisableFrameTrack f; RemoveFrameTrack f]) fs) /\
  OnContextMenu app time_graph v kMenuActionDisassembly menu_index items
    = Ok (map (Disassemble (process_id cd)) fs) /\
  OnContextMenu app time_graph v kMenuActionEnableFrameTrack menu_index items
    = Ok (flat_map (fun f => (if IsCaptureConnected app cd then [SelectFunction f] else [])
                               ++ [EnableFrameTrack f; AddFrameTrack f]) fs) /\
  OnContextMenu app time_graph v kMenuActionDisableFrameTrack menu_index items
    = Ok (flat_map (fun f => [DisableFrameTrack f; RemoveFrameTrack f]) fs).
Proof.
  intros Ecd Hrows. unfold OnContextMenu, GetCaptureData. rewrite Ecd. simpl.
  repeat split.
  - rewrite <- flat_map_singleton. apply (for_each_rows v); [exact Hrows|].
    intros i f Ef. now rewrite Ef.
  - apply (for_each_rows v); [exact Hrows|]. intros i f Ef. now rewrite Ef.
  - rewrite <- flat_map_singleton. apply (for_each_rows v); [exact Hrows|].
    intros i f Ef. now rewrite Ef.
  - apply (for_each_rows v); [exact Hrows|]. intros i f Ef. now rewrite Ef.
  - apply (for_each_rows v); [exact Hrows|]. intros i f Ef. now rewrite Ef.
Qed.

(** X16. "Add iterator(s)" adds an iterator for exactly the selected
    functions that have been called at least once, in the order of the
    selection, and for no function without a call. *)
Theorem OnContextMenu_adds_iterators_for_called_functions_only
    (app : OrbitApp) (time_graph : TimeGraph) (v : LiveFunctionsDataView) (cd : CaptureData)
    (menu_index : Z) (items : list Z) (fs : list FunctionInfo) :
  capture_data app = Some cd ->
  rows_select v items fs ->
  OnContextMenu app time_graph v kMenuActionIterate menu_index items
    = Ok (map AddIterator
            (List.filter (fun f => count (GetFunctionStatsOrDefault cd f) >? 0) fs)).
Proof.
  intros Ecd Hrows. unfold OnContextMenu, GetCaptureData. rewrite Ecd. simpl.
  rewrite <- flat_map_guarded. apply (for_each_rows v); [exact Hrows|].
  intros i f Ef. rewrite Ef. simpl.
  now destruct (count (GetFunctionStatsOrDefault cd f) >? 0).
Qed.

(** X17. The four jump actions are for one selected row: with any other
    number of selected rows each of them fails its check. *)
Theorem OnContextMenu_jump_fails_check_unless_one_row_selected
    (app : OrbitApp) (time_graph : TimeGraph) (v : LiveFunctionsDataView) (cd : CaptureData)
    (action : string) (menu_index : Z) (items : list Z) :
  capture_data app = Some cd ->
  In action jump_menu_actions ->
  length items <> 1%nat ->
  OnContextMenu app time_graph v action menu_index items = CheckFailed.
Proof.
  intros Ecd Haction Hlen.
  assert (Echeck : the_single_function v items = CheckFailed).
  { unfold the_single_function.
    replace (length items =? 1)%nat with false by (symmetry; now apply Nat.eqb_neq).
    reflexivity. }
  unfold OnContextMenu, GetCaptureData. rewrite Ecd.
  destruct Haction as [<-|[<-|[<-|[<-|[]]]]]; simpl; now rewrite Echeck.
Qed.

(** X18. "Jump to min" and "Jump to max" on one selected row zoom to the
    first shortest and the first longest call of the selected function, and
    issue nothing when the timer chains hold no call of it. *)
Theorem OnContextMenu_jump_to_min_max_zooms_to_extremes
    (app : OrbitApp) (time_graph : TimeGraph) (v : LiveFunctionsDataView) (cd : CaptureData)
    (menu_index i : Z) (function : FunctionInfo) :
  capture_data app = Some cd ->
  GetSelectedFunction v (to_unsigned i) = Ok function ->
  let address := GetAbsoluteAddress cd function in
  let scan := boxes_in_scan_order (GetAllThreadTrackTimerChains time_graph) in
  ((forall x, In x scan -> ~ has_address address x) ->
     OnContextMenu app time_graph v kMenuActionJumpToMin menu_index [i] = Ok [] /\
     OnContextMenu app time_graph v kMenuActionJumpToMax menu_index [i] = Ok []) /\
  ((exists x, In x scan /\ has_address address x) ->
     exists bmin bmax,
       first_extremal Z.lt address scan bmin /\
       first_extremal Z.gt address scan bmax /\
       OnContextMenu app time_graph v kMenuActionJumpToMin menu_index [i]
         = Ok [SelectAndZoom bmin] /\
       OnContextMenu app time_graph v kMenuActionJumpToMax menu_index [i]
         = Ok [SelectAndZoom bmax]).
Proof.
  intros Ecd Ef address scan.
  destruct (GetMinMax_result app time_graph cd function Ecd)
    as (min_box & max_box & E & Hcases).
  fold address scan in Hcases.
  assert (Emin : OnContextMenu app time_graph v kMenuActionJumpToMin menu_index [i]
                 = Ok (select_and_zoom_if min_box)).
  { unfold OnContextMenu, GetCaptureData, the_single_function. rewrite Ecd. simpl.
    rewrite Ef. simpl. rewrite E. reflexivity. }
  assert (Emax : OnContextMenu app time_graph v kMenuActionJumpToMax menu_index [i]
                 = Ok (select_and_zoom_if max_box)).
  { unfold OnContextMenu, GetCaptureData, the_single_function. rewrite Ecd. simpl.
    rewrite Ef. simpl. rewrite E. reflexivity. }
  rewrite Emin, Emax. split.
  - intros Hnone. destruct Hcases as [(-> & -> & _)|(bmin & _ & _ & _ & Hmin & _)]; [auto|].
    exfalso. apply (Hnone bmin); [eapply first_extremal_In; eauto|apply Hmin].
  - intros (x & Hx & Hax).
    destruct Hcases as [(_ & _ & Hnone)|(bmin & bmax & -> & -> & Hmin & Hmax)].
    + exfalso. now apply (Hnone x).
    + exists bmin, bmax. auto.
Qed.

(** X19. An action that is none of the ten actions of this view is handed
    to [DataView::OnContextMenu] with the same menu index and items, and
    nothing else is issued. *)
Theorem OnContextMenu_forwards_unknown_action
    (app : OrbitApp) (time_graph : TimeGraph) (v : LiveFunctionsDataView) (cd : CaptureData)
    (action : string) (menu_index : Z) (items : list Z) :
  capture_data app = Some cd ->
  ~ In action own_menu_actions ->
  OnContextMenu app time_graph v action menu_index items
    = Ok [DataView_OnContextMenu action menu_index items].
Proof.
  intros Ecd Hnot. unfold own_menu_actions in Hnot. simpl in Hnot.
  unfold OnContextMenu, GetCaptureData. rewrite Ecd. cbn [mbind outcome_bind].
  rewrite !action_eqb_false by (intros ->; tauto). reflexivity.
Qed.

Lemma OnContextMenu_issues_commands_per_selected_function_witness :
  capture_data (sample_app [] false) = Some (sample_capture []) /\
  rows_select (sample_view [fn_foobar; fn_render] [1; 0]%nat "") [0; 1] [fn_render; fn_foobar] /\
  OnContextMenu (sample_app [] false) sample_time_graph
    (sample_view [fn_foobar; fn_render] [1; 0]%nat "") kMenuActionUnselect 0 [0; 1]
    = Ok [DeselectFunction fn_render; DisableFrameTrack fn_render; RemoveFrameTrack fn_render;
          DeselectFunction fn_foobar; DisableFrameTrack fn_foobar; RemoveFrameTrack fn_foobar].
Proof.
  assert (Hrows : rows_select (sample_view [fn_foobar; fn_render] [1; 0]%nat "")
                    [0; 1] [fn_render; fn_foobar])
    by (repeat constructor).
  split; [reflexivity|]. split; [exact Hrows|].
  apply (OnContextMenu_issues_commands_per_selected_function (sample_app [] false)
           sample_time_graph (sample_view [fn_foobar; fn_render] [1; 0]%nat "")
           (sample_capture []) 0 [0; 1] [fn_render; fn_foobar] eq_refl Hrows).
Defined.

Lemma OnContextMenu_adds_iterators_for_called_functions_only_witness :
  rows_select (sample_view [fn_foobar; fn_render] [1; 0]%nat "") [0; 1] [fn_render; fn_foobar] /\
  OnContextMenu (sample_app [] false) sample_time_graph
    (sample_view [fn_foobar; fn_render] [1; 0]%nat "") kMenuActionIterate 0 [0; 1]
    = Ok [AddIterator fn_foobar].
Proof.
  assert (Hrows : rows_select (sample_view [fn_foobar; fn_render] [1; 0]%nat "")
                    [0; 1] [fn_render; fn_foobar])
    by (repeat constructor).
  split; [exact Hrows|].
  apply (OnContextMenu_adds_iterators_for_called_functions_only (sample_app [] false)
           sample_time_graph (sample_view [fn_foobar; fn_render] [1; 0]%nat "")
           (sample_capture []) 0 [0; 1] [fn_render; fn_foobar] eq_refl Hrows).
Defined.

Lemma OnContextMenu_jump_fails_check_unless_one_row_selected_witness :
  In kMenuActionJumpToMin jump_menu_actions /\
  OnContextMenu (sample_app [] false) sample_time_graph
    (sample_view [fn_foobar; fn_render] [1; 0]%nat "") kMenuActionJumpToMin 0 [0; 1]
    = CheckFailed.
Proof.
  assert (Hin : In kMenuActionJumpToMin jump_menu_actions) by (simpl; tauto).
  split; [exact Hin|].
  apply (OnContextMenu_jump_fails_check_unless_one_row_selected (sample_app [] false)
           sample_time_graph (sample_view [fn_foobar; fn_render] [1; 0]%nat "")
           (sample_capture []) kMenuActionJumpToMin 0 [0; 1] eq_refl Hin).
  simpl. lia.
Defined.

Lemma OnContextMenu_jump_to_min_max_zooms_to_extremes_witness :
  GetSelectedFunction (sample_view [fn_foobar] [0%nat] "") (to_unsigned 0) = Ok fn_foobar /\
  (exists x, In x (boxes_in_scan_order sample_chains) /\ has_address 8192 x) /\
  exists bmin bmax,
    first_extremal Z.lt 8192 (boxes_in_scan_order sample_chains) bmin /\
    first_extremal Z.gt 8192 (boxes_in_scan_order sample_chains) bmax /\
    OnContextMenu (sample_app [] false) sample_time_graph (sample_view [fn_foobar] [0%nat] "")
      kMenuActionJumpToMin 0 [0] = Ok [SelectAndZoom bmin] /\
    OnContextMenu (sample_app [] false) sample_time_graph (sample_view [fn_foobar] [0%nat] "")
      kMenuActionJumpToMax 0 [0] = Ok [SelectAndZoom bmax].
Proof.
  assert (Hcall : exists x, In x (boxes_in_scan_order sample_chains) /\ has_address 8192 x).
  { exists (box 8192 5 5). split; [simpl; tauto|reflexivity]. }
  split; [reflexivity|]. split; [exact Hcall|].
  apply (proj2 (OnContextMenu_jump_to_min_max_zooms_to_extremes (sample_app [] false)
                  sample_time_graph (sample_view [fn_foobar] [0%nat] "") (sample_capture [])
                  0 0 fn_foobar eq_refl eq_refl)).
  exact Hcall.
Defined.

Lemma OnContextMenu_forwards_unknown_action_witness :
  ~ In "Copy Selection" own_menu_actions /\
  OnContextMenu (sample_app [] false) sample_time_graph (sample_view [fn_foobar] [0%nat] "")
    "Copy Selection" 0 [0]
    = Ok [DataView_OnContextMenu "Copy Selection" 0 [0]].
Proof.
  assert (Hnot : ~ In "Copy Selection" own_menu_actions).
  { unfold own_menu_actions. simpl. intros Hin.
    repeat (destruct Hin as [Hin|Hin]; [discriminate Hin|]). exact Hin. }
  split; [exact Hnot|].
  apply (OnContextMenu_forwards_unknown_action (sample_app [] false) sample_time_graph
           (sample_view [fn_foobar] [0%nat] "") (sample_capture []) "Copy Selection" 0 [0]
           eq_refl Hnot).
Defined.

(** ** The context menu *)

Lemma In_emplace_if (flag : bool) (action a : string) :
  In a (emplace_if flag action) <-> flag = true /\ action = a.
Proof. destruct flag; simpl; intuition congruence. Qed.

Lemma In_if_flag (flag : bool) (l : list string) (a : string) :
  In a (if flag then l else []) <-> flag = true /\ In a l.
Proof. destruct flag; simpl; intuition congruence. Qed.

(** Which actions a menu built from six flags and the jump block holds. *)
Lemma menu_of_flags_spec (b1 b2 b3 b4 b5 b6 bj : bool) :
  let own :=
    (emplace_if b1 kMenuActionSelect ++ emplace_if b2 kMenuActionUnselect ++
     emplace_if b3 kMenuActionDisassembly ++ emplace_if b4 kMenuActionIterate ++
     emplace_if b5 kMenuActionEnableFrameTrack ++
     emplace_if b6 kMenuActionDisableFrameTrack) ++
    (if bj then jump_menu_actions else []) in
  (In kMenuActionSelect own <-> b1 = true) /\
  (In kMenuActionUnselect own <-> b2 = true) /\
  (In kMenuActionDisassembly own <-> b3 = true) /\
  (In kMenuActionIterate own <-> b4 = true) /\
  (In kMenuActionEnableFrameTrack own <-> b5 = true) /\
  (In kMenuActionDisableFrameTrack own <-> b6 = true) /\
  (forall a, In a jump_menu_actions -> (In a own <-> bj = true)) /\
  (forall a, In a own -> In a own_menu_actions).
Proof.
  cbv zeta.
  repeat match goal with |- _ /\ _ => split end.
  1-6: rewrite !in_app_iff, !In_emplace_if, In_if_flag; simpl;
       intuition (try discriminate; try reflexivity).
  - intros a Ha. rewrite !in_app_iff, !In_emplace_if, In_if_flag.
    simpl in Ha. destruct Ha as [<-|[<-|[<-|[<-|[]]]]]; simpl;
      intuition (try discriminate; try reflexivity).
  - intros a. rewrite !in_app_iff, !In_emplace_if, In_if_flag. simpl.
    intuition (subst; auto 12).
Qed.

Lemma menu_flags_loop_spec (app : OrbitApp) (frame_tracks : FrameTracks) (cd : CaptureData)
    (v : LiveFunctionsDataView) (items : list Z) (fs : list FunctionInfo) :
  rows_select v items fs ->
  forall flags,
    menu_flags_loop app frame_tracks cd v flags items
    = Ok (fold_left (menu_flags_step app frame_tracks cd) fs flags).
Proof.
  induction 1 as [|i f items fs Hi _ IH]; intros flags; simpl; [reflexivity|].
  rewrite Hi. simpl. apply IH.
Qed.

(** The flags after the loop, as disjunctions over the selected functions. *)
Lemma menu_flags_fold_spec (app : OrbitApp) (frame_tracks : FrameTracks) (cd : CaptureData)
    (fs : list FunctionInfo) :
  forall flags,
    let flags' := fold_left (menu_flags_step app frame_tracks cd) fs flags in
    let connected := IsCaptureConnected app cd in
    enable_select flags' =
      enable_select flags || (connected && existsb (fun f => negb (IsFunctionSelected app f)) fs) /\
    enable_unselect flags' =
      enable_unselect flags || (connected && existsb (IsFunctionSelected app) fs) /\
    enable_disassembly flags' =
      enable_disassembly flags || (connected && existsb (fun _ => true) fs) /\
    enable_iterator flags' =
      enable_iterator flags ||
      existsb (fun f => count (GetFunctionStatsOrDefault cd f) >? 0) fs /\
    enable_enable_frame_track flags' =
      enable_enable_frame_track flags ||
      existsb (fun f => negb (has_frame_track app frame_tracks cd f)) fs /\
    enable_disable_frame_track flags' =
      enable_disable_frame_track flags || existsb (has_frame_track app frame_tracks cd) fs.
Proof.
  induction fs as [|f fs IH]; intros flags; cbv zeta.
  - simpl. rewrite !andb_false_r, !orb_false_r. repeat split; reflexivity.
  - cbn [fold_left existsb]. specialize (IH (menu_flags_step app frame_tracks cd flags f)).
    cbv zeta in IH. destruct IH as (E1 & E2 & E3 & E4 & E5 & E6).
    rewrite E1, E2, E3, E4, E5, E6. unfold menu_flags_step, has_frame_track.
    cbn [enable_select enable_unselect enable_disassembly enable_iterator
         enable_enable_frame_track enable_disable_frame_track].
    destruct (IsCaptureConnected app cd); simpl;
      rewrite ?orb_assoc, ?orb_true_r, ?orb_false_r; repeat split; reflexivity.
Qed.

Lemma rows_select_single (v : LiveFunctionsDataView) (items : list Z) (fs : list FunctionInfo) :
  rows_select v items fs ->
  length items = 1%nat ->
  exists i f, items = [i] /\ fs = [f] /\ GetSelectedFunction v (to_unsigned i) = Ok f.
Proof.
  intros Hrows Hlen. destruct Hrows as [|i f items fs Hi Hrest]; [discriminate|].
  destruct Hrest; [|discriminate]. eauto.
Qed.

(** What [GetContextMenu] returns on rows that select functions. *)
Lemma GetContextMenu_result (app : OrbitApp) (frame_tracks : FrameTracks)
    (DataView_GetContextMenu : Z -> list Z -> list string)
    (v : LiveFunctionsDataView) (cd : CaptureData) (clicked_index : Z) (items : list Z)
    (fs : list FunctionInfo) :
  capture_data app = Some cd ->
  rows_select v items fs ->
  GetContextMenu app frame_tracks DataView_GetContextMenu v clicked_index items
  = Ok (menu_of_flags (fold_left (menu_flags_step app frame_tracks cd) fs no_flags)
          (single_called cd fs)
        ++ DataView_GetContextMenu clicked_index items).
Proof.
  intros Ecd Hrows. unfold GetContextMenu, GetCaptureData. rewrite Ecd.
  cbn [mbind outcome_bind].
  rewrite (menu_flags_loop_spec app frame_tracks cd v items fs Hrows).
  cbn [mbind outcome_bind].
  generalize (fold_left (menu_flags_step app frame_tracks cd) fs no_flags). intros flags.
  unfold menu_of_flags, jump_menu_actions.
  destruct (length items =? 1)%nat eqn:El.
  - apply Nat.eqb_eq in El.
    destruct (rows_select_single v items fs Hrows El) as (i & f & -> & -> & Ef).
    cbn [at_index lookup list_lookup mbind outcome_bind single_called]. rewrite Ef.
    cbn [mbind outcome_bind].
    destruct (count (GetFunctionStatsOrDefault cd f) >? 0); cbn [mbind outcome_bind];
      now rewrite <- !app_assoc.
  - assert (Es : single_called cd fs = false).
    { apply Nat.eqb_neq in El. rewrite (Forall2_length _ _ _ Hrows) in El.
      destruct fs as [|f [|g fs]]; simpl in *; congruence. }
    rewrite Es. cbn [mbind outcome_bind]. now rewrite <- !app_assoc.
Qed.

(** X20. On rows that select functions, the menu is the actions of this
    view followed by the menu of the base class. "Hook" is offered exactly
    when the capture is connected and some selected function is not hooked,
    "Unhook" when it is connected and some selected function is hooked,
    "Go to Disassembly" when it is connected and the selection is not empty,
    "Add iterator(s)" when some selected function has been called, the two
    frame-track actions when some selected function lacks, respectively
    has, a frame track; each of the four jump actions is offered exactly
    when one function is selected and it has been called. *)
Theorem GetContextMenu_offers_actions_by_selection
    (app : OrbitApp) (frame_tracks : FrameTracks)
    (DataView_GetContextMenu : Z -> list Z -> list string)
    (v : LiveFunctionsDataView) (cd : CaptureData) (clicked_index : Z) (items : list Z)
    (fs : list FunctionInfo) :
  capture_data app = Some cd ->
  rows_select v items fs ->
  exists own,
    GetContextMenu app frame_tracks DataView_GetContextMenu v clicked_index items
      = Ok (own ++ DataView_GetContextMenu clicked_index items) /\
    (In kMenuActionSelect own <->
       IsCaptureConnected app cd = true /\
       exists f, In f fs /\ IsFunctionSelected app f = false) /\
    (In kMenuActionUnselect own <->
       IsCaptureConnected app cd = true /\
       exists f, In f fs /\ IsFunctionSelected app f = true) /\
    (In kMenuActionDisassembly own <-> IsCaptureConnected app cd = true /\ fs <> []) /\
    (In kMenuActionIterate own <->
       exists f, In f fs /\ count (GetFunctionStatsOrDefault cd f) > 0) /\
    (In kMenuActionEnableFrameTrack own <->
       exists f, In f fs /\ has_frame_track app frame_tracks cd f = false) /\
    (In kMenuActionDisableFrameTrack own <->
       exists f, In f fs /\ has_frame_track app frame_tracks cd f = true) /\
    (forall a, In a jump_menu_actions ->
       (In a own <-> exists f, fs = [f] /\ count (GetFunctionStatsOrDefault cd f) > 0)) /\
    (forall a, In a own -> In a own_menu_actions).
Proof.
  intros Ecd Hrows. eexists. split; [apply GetContextMenu_result; eassumption|].
  set (flags := fold_left (menu_flags_step app frame_tracks cd) fs no_flags).
  pose proof (menu_flags_fold_spec app frame_tracks cd fs no_flags) as Hflags.
  cbv zeta in Hflags. fold flags in Hflags. simpl in Hflags.
  destruct Hflags as (E1 & E2 & E3 & E4 & E5 & E6).
  pose proof (menu_of_flags_spec (enable_select flags) (enable_unselect flags)
                (enable_disassembly flags) (enable_iterator flags)
                (enable_enable_frame_track flags) (enable_disable_frame_track flags)
                (single_called cd fs)) as Hmenu.
  cbv zeta in Hmenu. fold (menu_of_flags flags (single_called cd fs)) in Hmenu.
  destruct Hmenu as (M1 & M2 & M3 & M4 & M5 & M6 & Mj & Mown).
  rewrite M1, M2, M3, M4, M5, M6, E1, E2, E3, E4, E5, E6.
  rewrite !andb_true_iff, !existsb_exists.
  repeat match goal with |- _ /\ _ => split end.
  - split; intros [Hc (f & Hf & Hs)]; (split; [exact Hc|]); exists f; (split; [exact Hf|]).
    + now apply negb_true_iff.
    + now apply negb_true_iff.
  - reflexivity.
  - split.
    + intros [Hc (f & Hf & _)]. split; [exact Hc|]. intros ->. contradiction.
    + intros [Hc Hne]. split; [exact Hc|]. destruct fs as [|f fs]; [congruence|].
      exists f. split; [now left|reflexivity].
  - split; intros (f & Hf & Hcount); exists f; (split; [exact Hf|]).
    + apply Z.gtb_lt in Hcount. lia.
    + apply Z.gtb_lt. lia.
  - split; intros (f & Hf & Ht); exists f; (split; [exact Hf|]).
    + now apply negb_true_iff.
    + now apply negb_true_iff.
  - reflexivity.
  - intros a Ha. rewrite (Mj a Ha). unfold single_called. split.
    + destruct fs as [|f [|g fs]]; try discriminate. intros Hcount.
      exists f. split; [reflexivity|]. apply Z.gtb_lt in Hcount. lia.
    + intros (f & -> & Hcount). apply Z.gtb_lt. lia.
  - exact Mown.
Qed.

Lemma for_each_returns (v : LiveFunctionsDataView) (body : Z -> outcome (list Effect))
    (items : list Z) (fs : list FunctionInfo) :
  rows_select v items fs ->
  (forall i f, GetSelectedFunction v (to_unsigned i) = Ok f -> exists e, body i = Ok e) ->
  exists issued, for_each body items = Ok issued.
Proof.
  intros Hrows Hbody. induction Hrows as [|i f items fs Hi _ IH]; simpl; [eauto|].
  destruct (Hbody i f Hi) as [e ->]. destruct IH as [es ->]. simpl. eauto.
Qed.

(** X21. Every action of this view that [GetContextMenu] offers for a
    selection is one [OnContextMenu] carries out on the same selection: it
    runs to its end, without a failed check and without an access outside a
    vector. In particular a jump action is only offered where its check on
    the number of selected rows holds. *)
Theorem OnContextMenu_carries_out_every_offered_action
    (app : OrbitApp) (frame_tracks : FrameTracks)
    (DataView_GetContextMenu : Z -> list Z -> list string)
    (time_graph : TimeGraph) (v : LiveFunctionsDataView) (cd : CaptureData)
    (clicked_index menu_index : Z) (items : list Z) (fs : list FunctionInfo) :
  capture_data app = Some cd ->
  rows_select v items fs ->
  exists own,
    GetContextMenu app frame_tracks DataView_GetContextMenu v clicked_index items
      = Ok (own ++ DataView_GetContextMenu clicked_index items) /\
    forall a, In a own ->
      exists issued, OnContextMenu app time_graph v a menu_index items = Ok issued.
Proof.
  intros Ecd Hrows. eexists. split; [apply GetContextMenu_result; eassumption|].
  set (flags := fold_left (menu_flags_step app frame_tracks cd) fs no_flags).
  pose proof (menu_of_flags_spec (enable_select flags) (enable_unselect flags)
                (enable_disassembly flags) (enable_iterator flags)
                (enable_enable_frame_track flags) (enable_disable_frame_track flags)
                (single_called cd fs)) as Hmenu.
  cbv zeta in Hmenu. fold (menu_of_flags flags (single_called cd fs)) in Hmenu.
  destruct Hmenu as (_ & _ & _ & _ & _ & _ & Mj & Mown).
  intros a Ha. pose proof (Mown a Ha) as Hown.
  assert (Hjump : In a jump_menu_actions ->
            exists i f, items = [i] /\ GetSelectedFunction v (to_unsigned i) = Ok f).
  { intros Hj. apply (Mj a Hj) in Ha. unfold single_called in Ha.
    destruct fs as [|f [|g fs]]; try discriminate.
    inversion Hrows as [|i f' items' fs' Hi Hrest]; subst. inversion Hrest; subst. eauto. }
  unfold own_menu_actions in Hown. simpl in Hown.
  unfold OnContextMenu, GetCaptureData. rewrite Ecd. cbn [mbind outcome_bind].
  destruct Hown as [<-|[<-|[<-|[<-|[<-|[<-|[<-|[<-|[<-|[<-|[]]]]]]]]]]]; simpl.
  1-3, 8-10: apply (for_each_returns v _ items fs Hrows); intros i f Ef; rewrite Ef; simpl;
             try destruct (count _ >? 0); eauto.
  all: destruct Hjump as (i & f & -> & Ef); [simpl; tauto|];
       unfold the_single_function; simpl; rewrite Ef; simpl; eauto.
  all: destruct (GetMinMax_result app time_graph cd f Ecd) as (mn & mx & -> & _); simpl; eauto.
Qed.

Lemma GetContextMenu_offers_actions_by_selection_witness :
  capture_data (sample_app [] false) = Some (sample_capture []) /\
  rows_select (sample_view [fn_foobar; fn_render] [1; 0]%nat "") [1] [fn_foobar] /\
  GetContextMenu (sample_app [] false) sample_frame_tracks (fun _ _ => ["Copy Selection"])
    (sample_view [fn_foobar; fn_render] [1; 0]%nat "") 1 [1]
    = Ok [kMenuActionUnselect; kMenuActionDisassembly; kMenuActionIterate;
          kMenuActionDisableFrameTrack; kMenuActionJumpToFirst; kMenuActionJumpToLast;
          kMenuActionJumpToMin; kMenuActionJumpToMax; "Copy Selection"] /\
  exists own,
    GetContextMenu (sample_app [] false) sample_frame_tracks (fun _ _ => ["Copy Selection"])
      (sample_view [fn_foobar; fn_render] [1; 0]%nat "") 1 [1]
      = Ok (own ++ ["Copy Selection"]) /\
    (In kMenuActionSelect own <->
       IsCaptureConnected (sample_app [] false) (sample_capture []) = true /\
       exists f, In f [fn_foobar] /\ IsFunctionSelected (sample_app [] false) f = false).
Proof.
  assert (Hrows : rows_select (sample_view [fn_foobar; fn_render] [1; 0]%nat "")
                    [1] [fn_foobar]) by (repeat constructor).
  split; [reflexivity|]. split; [exact Hrows|]. split; [reflexivity|].
  destruct (GetContextMenu_offers_actions_by_selection (sample_app [] false)
              sample_frame_tracks (fun _ _ => ["Copy Selection"])
              (sample_view [fn_foobar; fn_render] [1; 0]%nat "") (sample_capture [])
              1 [1] [fn_foobar] eq_refl Hrows) as (own & E & Hselect & _).
  exists own. split; [exact E|exact Hselect].
Defined.

Lemma OnContextMenu_carries_out_every_offered_action_witness :
  rows_select (sample_view [fn_foobar; fn_render] [1; 0]%nat "") [1] [fn_foobar] /\
  exists own,
    GetContextMenu (sample_app [] false) sample_frame_tracks (fun _ _ => ["Copy Selection"])
      (sample_view [fn_foobar; fn_render] [1; 0]%nat "") 1 [1]
      = Ok (own ++ ["Copy Selection"]) /\
    forall a, In a own ->
      exists issued,
        OnContextMenu (sample_app [] false) sample_time_graph
          (sample_view [fn_foobar; fn_render] [1; 0]%nat "") a 0 [1] = Ok issued.
Proof.
  assert (Hrows : rows_select (sample_view [fn_foobar; fn_render] [1; 0]%nat "")
                    [1] [fn_foobar]) by (repeat constructor).
  split; [exact Hrows|].
  apply (OnContextMenu_carries_out_every_offered_action (sample_app [] false)
           sample_frame_tracks (fun _ _ => ["Copy Selection"]) sample_time_graph
           (sample_view [fn_foobar; fn_render] [1; 0]%nat "") (sample_capture [])
           1 0 [1] [fn_foobar] eq_refl Hrows).
Defined.

(** ** Finding a row by address, and selecting a row *)

Section RowByAddress.
Context `{Helpers}.

Lemma GetValue_address_cell (app : OrbitApp) (v : LiveFunctionsDataView) (cd : CaptureData)
    (r : nat) (f : FunctionInfo) :
  capture_data app = Some cd ->
  Z.of_nat (GetNumElements v) < 2 ^ 31 ->
  (r < GetNumElements v)%nat ->
  GetSelectedFunction v (Z.of_nat r) = Ok f ->
  GetValue app v (Z.of_nat r) (int_of_column kColumnAddress)
    = Ok (StrFormat_0x_llx (GetAbsoluteAddress cd f)).
Proof.
  intros Ecd Hn Hr Ef. unfold GetValue. rewrite Ecd.
  replace (Z.of_nat r >=? Z.of_nat (GetNumElements v)) with false
    by (symmetry; rewrite Z.geb_leb; apply Z.leb_gt; lia).
  rewrite to_unsigned_small by (unfold uint32_modulus; lia).
  rewrite Ef. reflexivity.
Qed.

Lemma row_search_seq (app : OrbitApp) (v : LiveFunctionsDataView) (cd : CaptureData)
    (function_address : Z) (n : nat) :
  capture_data app = Some cd ->
  Z.of_nat (GetNumElements v) < 2 ^ 31 ->
  (forall x y, StrFormat_0x_llx x = StrFormat_0x_llx y -> x = y) ->
  forall k,
    (k + n <= GetNumElements v)%nat ->
    (forall r, (k <= r < k + n)%nat -> exists f, GetSelectedFunction v (Z.of_nat r) = Ok f) ->
    exists res,
      row_search app v function_address (seq k n) = Ok res /\
      match res with
      | Some z =>
          exists r f, z = Z.of_nat r /\ (k <= r < k + n)%nat /\
            GetSelectedFunction v (Z.of_nat r) = Ok f /\
            GetAbsoluteAddress cd f = function_address /\
            forall r' f', (k <= r' < r)%nat -> GetSelectedFunction v (Z.of_nat r') = Ok f' ->
              GetAbsoluteAddress cd f' <> function_address
      | None =>
          forall r f, (k <= r < k + n)%nat -> GetSelectedFunction v (Z.of_nat r) = Ok f ->
            GetAbsoluteAddress cd f <> function_address
      end.
Proof.
  intros Ecd Hn Hinj. induction n as [|n IH]; intros k Hk Hrows.
  - exists None. split; [reflexivity|]. intros r f Hr. lia.
  - destruct (Hrows k) as [fk Ek]; [lia|]. cbn [seq row_search].
    rewrite (GetValue_address_cell app v cd k fk Ecd Hn) by (lia || exact Ek).
    cbn [mbind outcome_bind].
    destruct (String.eqb_spec (StrFormat_0x_llx function_address)
                (StrFormat_0x_llx (GetAbsoluteAddress cd fk))) as [Eq|Hne].
    + exists (Some (Z.of_nat k)). split; [reflexivity|].
      exists k, fk. split; [reflexivity|]. split; [lia|]. split; [exact Ek|].
      split; [symmetry; now apply Hinj|]. intros r' f' Hr'. lia.
    + destruct (IH (S k)) as (res & Eres & Hres); [lia| |].
      { intros r Hr. apply Hrows. lia. }
      exists res. split; [exact Eres|].
      assert (Hk' : forall f, GetSelectedFunction v (Z.of_nat k) = Ok f ->
                GetAbsoluteAddress cd f <> function_address).
      { intros f Ef. rewrite Ek in Ef. injection Ef as <-. intros Ea. apply Hne. now rewrite Ea. }
      destruct res as [z|].
      * destruct Hres as (r & f & -> & Hr & Ef & Ea & Hfirst).
        exists r, f. split; [reflexivity|]. split; [lia|]. split; [exact Ef|].
        split; [exact Ea|]. intros r' f' Hr' Ef'.
        destruct (Nat.eq_dec r' k) as [->|Hrk]; [now apply Hk'|].
        apply (Hfirst r' f'); [lia|exact Ef'].
      * intros r f Hr Ef. destruct (Nat.eq_dec r k) as [->|Hrk]; [now apply Hk'|].
        apply (Hres r f); [lia|exact Ef].
Qed.

(** X22. On a view whose visible rows all select functions, with capture
    data present and an address format that tells addresses apart,
    [GetRowFromFunctionAddress] returns the first visible row whose function
    has the given absolute address, and no row exactly when no visible row
    shows a function with that address. *)
Theorem GetRowFromFunctionAddress_finds_first_row_with_address
    (app : OrbitApp) (v : LiveFunctionsDataView) (cd : CaptureData) (function_address : Z) :
  capture_data app = Some cd ->
  Z.of_nat (GetNumElements v) < 2 ^ 31 ->
  (forall x y, StrFormat_0x_llx x = StrFormat_0x_llx y -> x = y) ->
  (forall r, (r < GetNumElements v)%nat ->
     exists f, GetSelectedFunction v (Z.of_nat r) = Ok f) ->
  exists res,
    GetRowFromFunctionAddress app v function_address = Ok res /\
    (forall z, res = Some z ->
       exists r f, z = Z.of_nat r /\ (r < GetNumElements v)%nat /\
         GetSelectedFunction v (Z.of_nat r) = Ok f /\
         GetAbsoluteAddress cd f = function_address /\
         forall r' f', (r' < r)%nat -> GetSelectedFunction v (Z.of_nat r') = Ok f' ->
           GetAbsoluteAddress cd f' <> function_address) /\
    (res = None <->
       forall r f, (r < GetNumElements v)%nat -> GetSelectedFunction v (Z.of_nat r) = Ok f ->
         GetAbsoluteAddress cd f <> function_address).
Proof.
  intros Ecd Hn Hinj Hrows.
  destruct (row_search_seq app v cd function_address (GetNumElements v) Ecd Hn Hinj 0)
    as (res & E & Hres); [lia|intros r Hr; apply Hrows; lia|].
  exists res. split; [exact E|]. destruct res as [z|].
  - destruct Hres as (r & f & -> & Hr & Ef & Ea & Hfirst). split.
    + intros z [= <-]. exists r, f. split; [reflexivity|]. split; [lia|].
      split; [exact Ef|]. split; [exact Ea|]. intros r' f' Hr'. apply Hfirst. lia.
    + split; [discriminate|]. intros Hnone. exfalso. apply (Hnone r f); [lia|exact Ef|exact Ea].
  - split; [discriminate|]. split; [|reflexivity]. intros _ r f Hr. apply Hres. lia.
Qed.

(** X23. Round trip after filtering: with capture data present and an
    address format that tells addresses apart, looking up the absolute
    address of the function a visible row shows returns a row, that row is
    the given one or an earlier one, and it shows a function of the same
    address. *)
Theorem GetRowFromFunctionAddress_after_DoFilter_round_trip
    (app : OrbitApp) (v : LiveFunctionsDataView) (cd : CaptureData) :
  capture_data app = Some cd ->
  Z.of_nat (length (functions_ v)) < 2 ^ 31 ->
  (forall x y, StrFormat_0x_llx x = StrFormat_0x_llx y -> x = y) ->
  exists v' issued,
    DoFilter app v = Ok (v', issued) /\
    forall row f, (row < GetNumElements v')%nat ->
      GetSelectedFunction v' (Z.of_nat row) = Ok f ->
      exists row' f',
        GetRowFromFunctionAddress app v' (GetAbsoluteAddress cd f) = Ok (Some (Z.of_nat row')) /\
        (row' <= row)%nat /\
        GetSelectedFunction v' (Z.of_nat row') = Ok f' /\
        GetAbsoluteAddress cd f' = GetAbsoluteAddress cd f.
Proof.
  intros Ecd Hlen Hinj.
  destruct (DoFilter_row_selects app v cd Ecd) as (v' & issued & E & Hf & Hn & Hrows).
  exists v', issued. split; [exact E|]. intros row f Hrow Ef.
  destruct (row_search_seq app v' cd (GetAbsoluteAddress cd f) (GetNumElements v') Ecd
              ltac:(lia) Hinj 0) as (res & Eres & Hres); [lia| |].
  { intros r Hr. destruct (Hrows r) as (g & Eg & _); [lia|eauto]. }
  destruct res as [z|].
  - destruct Hres as (r & f' & -> & Hr & Ef' & Ea & Hfirst).
    exists r, f'. split; [exact Eres|]. split; [|split; [exact Ef'|exact Ea]].
    destruct (Nat.le_gt_cases r row) as [Hle|Hgt]; [exact Hle|].
    exfalso. apply (Hfirst row f); [lia|exact Ef|reflexivity].
  - exfalso. apply (Hres row f); [lia|exact Ef|reflexivity].
Qed.

(** X24. After [DoFilter] with capture data present, selecting a visible
    row deselects the text box and highlights an address that belongs to
    the set of visible functions [DoFilter] has just issued; selecting no
    row highlights the invalid address. *)
Theorem OnSelect_after_DoFilter_highlights_visible_function
    (app : OrbitApp) (kInvalidFunctionAddress : Z) (v : LiveFunctionsDataView)
    (cd : CaptureData) :
  capture_data app = Some cd ->
  Z.of_nat (length (functions_ v)) < 2 ^ 31 ->
  exists v' visible,
    DoFilter app v = Ok (v', [SetVisibleFunctions visible]) /\
    OnSelect app kInvalidFunctionAddress v' None
      = Ok [DeselectTextBox; set_highlighted_function kInvalidFunctionAddress] /\
    forall row, 0 <= row < Z.of_nat (GetNumElements v') ->
      exists a,
        OnSelect app kInvalidFunctionAddress v' (Some row)
          = Ok [DeselectTextBox; set_highlighted_function a] /\
        a ∈ visible.
Proof.
  intros Ecd Hlen. destruct (DoFilter_result app v cd Ecd) as (visible & E & Hv).
  eexists _, visible. split; [exact E|]. split; [reflexivity|].
  unfold GetNumElements. cbn [indices_ set_indices]. intros row Hrow.
  set (tokens := StrSplit (ToLower (filter_ v)) " ") in *.
  pose proof (filter_loop_length tokens (functions_ v) 0) as Hle.
  destruct (GetSelectedFunction_filtered v tokens (Z.to_nat row)) as (i & f & Ei & Ef & Es);
    [lia|].
  rewrite Z2Nat.id in Es by lia.
  exists (GetAbsoluteAddress cd f). split.
  - unfold OnSelect, GetCaptureData. rewrite Ecd. cbn [mbind outcome_bind].
    rewrite to_unsigned_small by (unfold uint32_modulus; lia).
    fold tokens. rewrite Es. reflexivity.
  - apply Hv. exists i, f. split; [|split; [exact Ef|reflexivity]].
    apply list_elem_of_In, list_elem_of_lookup. eauto.
Qed.

End RowByAddress.

Lemma HexString_of_Z_injective (x y : Z) : HexString.of_Z x = HexString.of_Z y -> x = y.
Proof.
  intros E. rewrite <- (HexString.to_Z_of_Z x), <- (HexString.to_Z_of_Z y). now rewrite E.
Qed.

Lemma GetRowFromFunctionAddress_finds_first_row_with_address_witness :
  capture_data (sample_app [] false) = Some (sample_capture []) /\
  @GetRowFromFunctionAddress hex_helpers (sample_app [] false)
    (sample_view [fn_foobar; fn_render] [1; 0]%nat "") 8192 = Ok (Some 1) /\
  exists res,
    @GetRowFromFunctionAddress hex_helpers (sample_app [] false)
      (sample_view [fn_foobar; fn_render] [1; 0]%nat "") 4096 = Ok res /\
    (res = None <->
       forall r f, (r < 2)%nat ->
         GetSelectedFunction (sample_view [fn_foobar; fn_render] [1; 0]%nat "") (Z.of_nat r)
           = Ok f ->
         address f <> 4096).
Proof.
  split; [reflexivity|]. split; [reflexivity|].
  destruct (@GetRowFromFunctionAddress_finds_first_row_with_address hex_helpers
              (sample_app [] false) (sample_view [fn_foobar; fn_render] [1; 0]%nat "")
              (sample_capture []) 4096 eq_refl) as (res & E & _ & Hnone).
  - vm_compute. reflexivity.
  - exact HexString_of_Z_injective.
  - intros r Hr. unfold GetNumElements in Hr. simpl in Hr.
    destruct r as [|[|r]]; [exists fn_render|exists fn_foobar|lia]; reflexivity.
  - exists res. split; [exact E|exact Hnone].
Defined.

Lemma GetRowFromFunctionAddress_after_DoFilter_round_trip_witness :
  capture_data (sample_app [] false) = Some (sample_capture []) /\
  exists v' issued,
    @DoFilter hex_helpers (sample_app [] false)
      (sample_view [fn_foobar; fn_render] [] "r") = Ok (v', issued) /\
    forall row f, (row < GetNumElements v')%nat ->
      GetSelectedFunction v' (Z.of_nat row) = Ok f ->
      exists row' f',
        @GetRowFromFunctionAddress hex_helpers (sample_app [] false) v' (address f)
          = Ok (Some (Z.of_nat row')) /\
        (row' <= row)%nat /\
        GetSelectedFunction v' (Z.of_nat row') = Ok f' /\
        address f' = address f.
Proof.
  split; [reflexivity|].
  apply (@GetRowFromFunctionAddress_after_DoFilter_round_trip hex_helpers
           (sample_app [] false) (sample_view [fn_foobar; fn_render] [] "r")
           (sample_capture []) eq_refl).
  - vm_compute. reflexivity.
  - exact HexString_of_Z_injective.
Defined.

Lemma OnSelect_after_DoFilter_highlights_visible_function_witness :
  capture_data (sample_app [] false) = Some (sample_capture []) /\
  exists v' visible,
    @DoFilter sample_helpers (sample_app [] false)
      (sample_view [fn_foobar; fn_render] [] "render") = Ok (v', [SetVisibleFunctions visible]) /\
    OnSelect (sample_app [] false) (-1) v' None
      = Ok [DeselectTextBox; set_highlighted_function (-1)] /\
    forall row, 0 <= row < Z.of_nat (GetNumElements v') ->
      exists a,
        OnSelect (sample_app [] false) (-1) v' (Some row)
          = Ok [DeselectTextBox; set_highlighted_function a] /\
        a ∈ visible.
Proof.
  split; [reflexivity|].
  apply (@OnSelect_after_DoFilter_highlights_visible_function sample_helpers
           (sample_app [] false) (-1) (sample_view [fn_foobar; fn_render] [] "render")
           (sample_capture []) eq_refl).
  vm_compute. reflexivity.
Defined.

(** ** Rebuilt rows read back, and sorting a filtered view *)

Section ReadBack.
Context `{Helpers}.

(** X25. After [OnDataChanged] with capture data present, a row below the
    number of tracked functions selects the tracked function at that
    position, and a row from there on fails the check of
    [GetSelectedFunction]. The rows beyond the tracked functions that
    excluded functions leave behind are still counted as visible, so
    [GetValue] does not return the empty string for them: it fails that
    check. *)
Theorem GetSelectedFunction_after_OnDataChanged
    (app : OrbitApp) (v : LiveFunctionsDataView) (cd : CaptureData) :
  capture_data app = Some cd ->
  Z.of_nat (length (selected_functions cd)) < 2 ^ 31 ->
  exists v',
    OnDataChanged app v = Ok v' /\
    (forall row f, functions_ v' !! row = Some f ->
       GetSelectedFunction v' (Z.of_nat row) = Ok f) /\
    (forall row, (length (functions_ v') <= row)%nat ->
       GetSelectedFunction v' (Z.of_nat row) = CheckFailed) /\
    (forall row column, (length (functions_ v') <= row < GetNumElements v')%nat ->
       GetValue app v' (Z.of_nat row) column = CheckFailed).
Proof.
  intros Ecd Hlen. eexists. split; [apply (OnDataChanged_result app v cd Ecd)|].
  cbv zeta.
  set (kept := map snd (List.filter (fun entry => negb (IsOrbitFunc (snd entry)))
                          (selected_functions cd))).
  set (v' := set_indices (set_functions v kept) _).
  assert (Hfun : functions_ v' = kept) by reflexivity.
  assert (Hcount : GetNumElements v' = length (selected_functions cd)).
  { unfold GetNumElements, v'. cbn [indices_ set_indices].
    rewrite length_app, length_seq, length_replicate.
    assert (length kept <= length (selected_functions cd))%nat; [|lia].
    subst kept. rewrite length_map. apply filter_length_le. }
  split; [|split].
  - intros row f Ef. apply (GetSelectedFunction_in_bounds v' row row f).
    + eapply lookup_lt_Some; eauto.
    + unfold v'. cbn [indices_ set_indices].
      assert (row < length kept)%nat by (rewrite <- Hfun; eapply lookup_lt_Some; eauto).
      rewrite lookup_app_l by (rewrite length_seq; lia). now rewrite lookup_seq_lt.
    + exact Ef.
  - intros row Hrow. apply GetSelectedFunction_CheckFailed_iff. lia.
  - intros row column Hrow. unfold GetValue. rewrite Ecd.
    replace (Z.of_nat row >=? Z.of_nat (GetNumElements v')) with false
      by (symmetry; rewrite Z.geb_leb; apply Z.leb_gt; lia).
    rewrite to_unsigned_small by (unfold uint32_modulus; lia).
    rewrite (proj2 (GetSelectedFunction_CheckFailed_iff v' (Z.of_nat row))) by lia.
    reflexivity.
Qed.

Lemma filter_loop_readable (tokens : list string) (functions : list FunctionInfo) :
  rows_readable functions (filter_loop tokens functions 0) = true.
Proof.
  unfold rows_readable. apply orb_true_iff. right. apply forallb_forall.
  intros i Hi. apply filter_loop_In in Hi as (_ & f & Ef & _).
  rewrite Nat.sub_0_r in Ef. apply Nat.ltb_lt. eapply lookup_lt_Some; eauto.
Qed.

(** X26. Sorting a filtered view: with capture data present and a stored
    direction for the sort column, [DoSort] returns on the view [DoFilter]
    has built; the sorted rows are a rearrangement of the filtered rows, so
    they are still exactly the rows of the functions the filter keeps, and
    they are in the order of the sort column. *)
Theorem DoSort_after_DoFilter_sorts_the_kept_rows
    (app : OrbitApp) (v : LiveFunctionsDataView) (cd : CaptureData) (order : SortingOrder) :
  capture_data app = Some cd ->
  at_int (sorting_orders_ v) (sorting_column_ v) = Ok order ->
  exists v1 issued v2,
    DoFilter app v = Ok (v1, issued) /\
    DoSort app v1 = Ok v2 /\
    Permutation (indices_ v2) (indices_ v1) /\
    (forall i, In i (indices_ v2) <->
       exists f, functions_ v !! i = Some f /\ kept_by_filter (filter_ v) f) /\
    sorted_by_current_column app v2.
Proof.
  intros Ecd Eo. destruct (DoFilter_result app v cd Ecd) as (visible & E & _).
  set (tokens := StrSplit (ToLower (filter_ v)) " ") in *.
  set (v1 := set_indices v (filter_loop tokens (functions_ v) 0)) in *.
  destruct (DoSort_returns app v1 cd order Ecd Eo) as [v2 E2].
  { apply filter_loop_readable. }
  exists v1, [SetVisibleFunctions visible], v2. split; [exact E|]. split; [exact E2|].
  destruct (DoSort_frame app v1 v2 E2) as (_ & _ & _ & _ & _ & Hp).
  split; [exact Hp|]. split; [|eapply DoSort_sorted; eauto].
  intros i. split.
  - intros Hi. eapply Permutation_in in Hi; [|exact Hp].
    apply filter_loop_In in Hi as (_ & f & Ef & M). rewrite Nat.sub_0_r in Ef.
    exists f. split; [exact Ef|]. now apply match_tokens_kept.
  - intros (f & Ef & K). eapply Permutation_in; [symmetry; exact Hp|].
    apply filter_loop_In. split; [lia|]. exists f. rewrite Nat.sub_0_r.
    split; [exact Ef|]. now apply match_tokens_kept.
Qed.

End ReadBack.

Lemma GetSelectedFunction_after_OnDataChanged_witness :
  capture_data (sample_app [(4096, fn_orbit); (8192, fn_foobar)] false)
    = Some (sample_capture [(4096, fn_orbit); (8192, fn_foobar)]) /\
  @GetValue sample_helpers (sample_app [(4096, fn_orbit); (8192, fn_foobar)] false)
    (sample_view [fn_foobar] [0; 0]%nat "") 1 1 = CheckFailed /\
  exists v',
    @OnDataChanged sample_helpers (sample_app [(4096, fn_orbit); (8192, fn_foobar)] false)
      (sample_view [] [] "") = Ok v' /\
    (forall row f, functions_ v' !! row = Some f ->
       GetSelectedFunction v' (Z.of_nat row) = Ok f) /\
    (forall row, (length (functions_ v') <= row)%nat ->
       GetSelectedFunction v' (Z.of_nat row) = CheckFailed) /\
    (forall row column, (length (functions_ v') <= row < GetNumElements v')%nat ->
       @GetValue sample_helpers (sample_app [(4096, fn_orbit); (8192, fn_foobar)] false)
         v' (Z.of_nat row) column = CheckFailed).
Proof.
  split; [reflexivity|]. split; [reflexivity|].
  apply (@GetSelectedFunction_after_OnDataChanged sample_helpers
           (sample_app [(4096, fn_orbit); (8192, fn_foobar)] false) (sample_view [] [] "")
           (sample_capture [(4096, fn_orbit); (8192, fn_foobar)]) eq_refl).
  vm_compute. reflexivity.
Defined.

Lemma DoSort_after_DoFilter_sorts_the_kept_rows_witness :
  capture_data (sample_app [] false) = Some (sample_capture []) /\
  exists v1 issued v2,
    @DoFilter sample_helpers (sample_app [] false)
      (sample_view [fn_render; fn_foobar] [] "r") = Ok (v1, issued) /\
    @DoSort sample_helpers (sample_app [] false) v1 = Ok v2 /\
    Permutation (indices_ v2) (indices_ v1) /\
    (forall i, In i (indices_ v2) <->
       exists f, [fn_render; fn_foobar] !! i = Some f /\ @kept_by_filter sample_helpers "r" f) /\
    @sorted_by_current_column sample_helpers (sample_app [] false) v2.
Proof.
  split; [reflexivity|].
  apply (@DoSort_after_DoFilter_sorts_the_kept_rows sample_helpers (sample_app [] false)
           (sample_view [fn_render; fn_foobar] [] "r") (sample_capture []) kDescending
           eq_refl eq_refl).
Defined.
